(** * open_clip MaMMUT model and profiler: a shallow embedding

    The repository has two Python files:
    - [open_clip/mammut_model.py]: the [MaMMUT] module (a vision tower and a
      multimodal text decoder wired together), and
    - [open_clip_train/profiler_simple.py]: a command-line profiler.

    Both are thin layers over PyTorch, pandas and argparse.  The embedding
    keeps the Python control flow (attribute reads and writes, dict updates,
    exceptions, the retry loop) and takes the numerical kernels of the
    framework as operations of type classes, so every statement below holds
    for whatever the framework computes.

    Conventions:
    - a method is a computation in the monad [Py.M]: it threads the state it
      may change and returns a value or the exception it raises;
    - a call out of the file (a tower's forward pass, a counting run, a line
      printed, a table printed by a library, a call of [to_csv]) is recorded
      in the state, in order, so that what was called with what, and when,
      can be stated;
    - an object the caller can see changed ([model.to('cpu')], the [out]
      dict) is returned by the function that changes it;
    - a tower is the map of its parameters by dotted name, and the model
      records which object stands under each name, so that a flag assigned
      to a parameter shows under every name of it; the profiler sees a model
      as the tree of [nn.Module]s with the parameter objects in it;
    - the kernels of the framework (a tower's forward pass, [@], [mean],
      [normalize], [exp], slicing) are taken on the inputs they accept: the
      errors torch raises for shapes and dtypes that do not fit are outside
      the embedding, so what is stated of the [MaMMUT] methods is their data
      flow, which calls they make and what they write where, for the runs in
      which the kernels return;
    - a string is a sequence of characters with code points below 256; the
      command line is read as [argparse] of Python 3.11 reads it;
    - ints are unbounded and floats are binary64, with [float(n)], [/] and
      [round] rounded as Python rounds them; numbers beyond the range of
      floats, where Python raises [OverflowError], do not occur in the
      counts of a model.

    Part I holds the definitions, Part II the properties of the encoders,
    the constructor and the profiler, Part III further properties of the
    same code. *)

From Stdlib Require Import ZArith String Ascii.
From Stdlib Require Floats Uint63.
From stdpp Require Import base option list gmap strings pretty.

Local Open Scope string_scope.
Local Open Scope list_scope.
Local Open Scope Z_scope.

(** * Part I: definitions *)

(** ** Python preliminaries: exceptions and a state-and-exception monad *)

Module Py.

(** The exception classes the two files can meet.  [KeyboardInterrupt] and
    [SystemExit] derive from [BaseException] only; the others derive from
    [Exception]; [NotImplementedError] and [OutOfMemoryError] derive from
    [RuntimeError]. *)
Inductive exn_class :=
  | KeyboardInterrupt | SystemExit
  | AssertionError | AttributeError | IndexError | KeyError | OSError
  | RuntimeError | NotImplementedError | OutOfMemoryError
  | StopIteration | TypeError | ValueError | ZeroDivisionError.

Record exn := Exn { class_of : exn_class; msg_of : string }.

#[global] Instance exn_class_eq_dec : EqDecision exn_class.
Proof. solve_decision. Defined.

#[global] Instance exn_eq_dec : EqDecision exn.
Proof. solve_decision. Defined.

(** [isinstance(e, Exception)] *)
Definition isinstance_Exception (e : exn) : bool :=
  match class_of e with
  | KeyboardInterrupt | SystemExit => false
  | _ => true
  end.

(** [isinstance(e, RuntimeError)] *)
Definition isinstance_RuntimeError (e : exn) : bool :=
  match class_of e with
  | RuntimeError | NotImplementedError | OutOfMemoryError => true
  | _ => false
  end.

(** A computation over a mutable state [St] that returns an [A] or raises.
    The state survives a raise, as the heap does in Python. *)
Definition M (St A : Type) : Type := St → St * (exn + A).

Definition ret {St A} (a : A) : M St A := λ s, (s, inr a).

Definition raise {St A} (e : exn) : M St A := λ s, (s, inl e).

Definition bind {St A B} (m : M St A) (k : A → M St B) : M St B :=
  λ s, match m s with
       | (s', inr a) => k a s'
       | (s', inl e) => (s', inl e)
       end.

Definition get {St} : M St St := λ s, (s, inr s).

Definition modify {St} (f : St → St) : M St unit := λ s, (f s, inr tt).

(** Lift a pure fallible call. *)
Definition lift {St A} (r : exn + A) : M St A :=
  match r with inl e => raise e | inr a => ret a end.

(** [try: body  except C as e: handler e], where [catches e] is
    [isinstance(e, C)]. *)
Definition try_except {St A} (body : M St A) (catches : exn → bool)
    (handler : exn → M St A) : M St A :=
  λ s, match body s with
       | (s', inl e) => if catches e then handler e s' else (s', inl e)
       | r => r
       end.

(** [assert cond, msg] *)
Definition assert_ {St} (cond : bool) (msg : string) : M St unit :=
  if cond then ret tt else raise (Exn AssertionError msg).

End Py.

Import Py.

Declare Scope py_scope.
Delimit Scope py_scope with py.
Notation "x <- m ;; k" := (Py.bind m (λ x, k))
  (at level 100, m at next level, right associativity,
   format "'[v' x  <-  m  ;;  '/' k ']'") : py_scope.
Notation "m ;;; k" := (Py.bind m (λ _, k))
  (at level 100, right associativity) : py_scope.
Local Open Scope py_scope.

(** ** Python floats

    The operations of Python's float (binary64) the profiler uses, on a type
    [float] of floats: it divides integers and floats and rounds to a number
    of decimals. *)
Class PyFloat (float : Type) := {
  (** [float(n)], for an [n] in the range of floats *)
  float_of_int : Z → float;
  (** [x / y] on floats, for a divisor that is not zero *)
  fdiv : float → float → float;
  (** [a / b] on ints (true division), for a divisor that is not zero and a
      quotient in the range of floats *)
  int_truediv : Z → Z → float;
  (** [round(x, ndigits)] *)
  round : float → Z → float;
}.

(** ** Python slices *)

(** An index of a slice, clamped into [0 .. len] as [slice.indices] does
    for step 1. *)
Definition slice_index (len i : Z) : Z :=
  if i <? 0 then Z.max (i + len) 0 else Z.min i len.

(** [l[start:stop]] *)
Definition py_slice {A} (start stop : option Z) (l : list A) : list A :=
  let len := Z.of_nat (length l) in
  let lo := from_option (slice_index len) 0 start in
  let hi := from_option (slice_index len) len stop in
  take (Z.to_nat (hi - lo)) (drop (Z.to_nat lo) l).

(** ** Insertion-ordered dicts

    A Python dict keeps its keys in insertion order, and assigning to a key
    that is present keeps the key's place.  The profiler's result rows are
    such dicts: the first row's keys become the columns of the table. *)

Module Dict.
Section dict.
Context {V : Type}.

Fixpoint set (k : string) (v : V) (d : list (string * V)) : list (string * V) :=
  match d with
  | [] => [(k, v)]
  | (k', v') :: d' =>
      if decide (k = k') then (k, v) :: d' else (k', v') :: set k v d'
  end.

Fixpoint get (k : string) (d : list (string * V)) : option V :=
  match d with
  | [] => None
  | (k', v') :: d' => if decide (k = k') then Some v' else get k d'
  end.

Definition keys (d : list (string * V)) : list string := d.*1.

End dict.
End Dict.

(** ** The tensor framework

    [Tensor] is a floating-point [torch.Tensor].  The operations are the ones
    [mammut_model.py] calls on it. *)

Inductive dtype := float32 | float16 | bfloat16 | int64.

#[global] Instance dtype_eq_dec : EqDecision dtype.
Proof. solve_decision. Defined.

Inductive device := cpu | cuda.

#[global] Instance device_eq_dec : EqDecision device.
Proof. solve_decision. Defined.

Class Torch := {
  Tensor : Type;
  (** [x.mean(dim)] *)
  mean : Tensor → Z → Tensor;
  (** [F.normalize(x, dim=dim)]: L2 normalization along [dim] *)
  normalize : Tensor → Z → Tensor;
  (** [x @ y] *)
  matmul : Tensor → Tensor → Tensor;
  (** [x.exp()] *)
  exp : Tensor → Tensor;
}.

(** An [nn.Parameter]: its value and its [requires_grad] flag. *)
Record Param `{Torch} := { data : Tensor; requires_grad : bool }.

(** A batch of token ids, an int64 tensor of shape (batch, length): one row
    per sample. *)
Abbreviation Tokens := (list (list Z)).

(** [text[:, start:stop]] *)
Definition slice_columns (start stop : option Z) (text : Tokens) : Tokens :=
  py_slice start stop <$> text.

(** The two towers of the model, as functions of their parameters and
    inputs.  A tower is kept as the map of its parameters, by dotted name
    ([ln_final.weight], [proj], ...). *)
Class Towers `{Torch} := {
  (** [MultimodalTransformer.forward(text_embs, image_embs)], which returns
      [(token_logits, text_latent)] *)
  MultimodalTransformer_forward :
    gmap string Param → Tokens → option Tensor → Tensor * Tensor;
  (** the vision tower's forward, which returns [(pooled, tokens)] *)
  VisionTower_forward : gmap string Param → Tensor → Tensor * Tensor;
}.

(** ** [mammut_model.py]: class [MaMMUT] *)

Module MaMMUT.

(** The attributes [__init__] sets on the instance. *)
Module Self.
Section fields.
Context `{Torch}.

Record t := mk {
  text : gmap string Param;
  visual : gmap string Param;
  context_length : Z;
  map_viz2txt_kv : Param;
  logit_scale : Param;
  logit_bias : option Param;
  pad_id : Z;
  use_contrastive : bool;
  (** [id(p)] of the [nn.Parameter] object registered under a dotted name,
      as [named_parameters(remove_duplicate=False)] lists them: two names of
      one object (tied weights, a module registered twice) have the same
      identity, and what is assigned to the object shows under both. *)
  ident : string → positive;
}.

Definition set_text (f : gmap string Param → gmap string Param) (s : t) : t :=
  mk (f (text s)) (visual s) (context_length s) (map_viz2txt_kv s)
     (logit_scale s) (logit_bias s) (pad_id s) (use_contrastive s) (ident s).

Definition set_visual (f : gmap string Param → gmap string Param) (s : t) : t :=
  mk (text s) (f (visual s)) (context_length s) (map_viz2txt_kv s)
     (logit_scale s) (logit_bias s) (pad_id s) (use_contrastive s) (ident s).

Definition set_use_contrastive (b : bool) (s : t) : t :=
  mk (text s) (visual s) (context_length s) (map_viz2txt_kv s)
     (logit_scale s) (logit_bias s) (pad_id s) b (ident s).

End fields.
End Self.

Section methods.
Context {torch : Torch} {towers : Towers}.

(** A call into a tower, as it is made. *)
Inductive call :=
  | CallText (text_embs : Tokens) (image_embs : option Tensor)
  | CallVisual (image : Tensor).

(** The instance and the calls it has made into its towers so far. *)
Record World := { self : Self.t; calls : list call }.

Definition on_self (f : Self.t → Self.t) : M World unit :=
  Py.modify (λ w, {| self := f (self w); calls := calls w |}).

Definition record (c : call) : M World unit :=
  Py.modify (λ w, {| self := self w; calls := calls w ++ [c] |}).

(** The world after one more call into a tower. *)
Definition after_call (w : World) (c : call) : World :=
  {| self := self w; calls := calls w ++ [c] |}.

(** Values a result dict holds. *)
Inductive value :=
  | VNone
  | VTensor (x : Tensor)
  | VTokens (x : Tokens).

Definition of_optional (x : option Tensor) : value :=
  match x with Some x => VTensor x | None => VNone end.

Definition is_tensor (v : option value) : bool :=
  match v with Some (VTensor _) => true | _ => false end.

Definition is_tokens (v : option value) : bool :=
  match v with Some (VTokens _) => true | _ => false end.

(** The parameters of the model, as [named_parameters()] names them:
    [text.<path>], [visual.<path>], and the three the model owns. *)
Inductive pname :=
  | InText (path : string)
  | InVisual (path : string)
  | MapViz2TxtKv
  | LogitScale
  | LogitBias.

#[global] Instance pname_eq_dec : EqDecision pname.
Proof. solve_decision. Defined.

Definition dotted (p : pname) : string :=
  match p with
  | InText path => "text." +:+ path
  | InVisual path => "visual." +:+ path
  | MapViz2TxtKv => "map_viz2txt_kv"
  | LogitScale => "logit_scale"
  | LogitBias => "logit_bias"
  end.

Definition parameter_of (s : Self.t) (p : pname) : option Param :=
  match p with
  | InText path => Self.text s !! path
  | InVisual path => Self.visual s !! path
  | MapViz2TxtKv => Some (Self.map_viz2txt_kv s)
  | LogitScale => Some (Self.logit_scale s)
  | LogitBias => Self.logit_bias s
  end.

(** The parameters only the contrastive objective trains. *)
Definition contrastive_head : list pname :=
  [InText "ln_final.weight"; InText "ln_final.bias"; InVisual "proj";
   InVisual "ln_post.weight"; InVisual "ln_post.bias"; LogitScale].

(** A parameter with its flag set to [b] *)
Definition set_requires_grad (b : bool) (p : Param) : Param :=
  {| data := data p; requires_grad := b |}.

(** [p.requires_grad = b] for the object [target]: the flag belongs to the
    object, so it changes under every name the object is registered under,
    in both towers and among the model's own parameters. *)
Definition assign_requires_grad (target : positive) (b : bool) (s : Self.t) : Self.t :=
  let assign (name : string) (p : Param) : Param :=
    if decide (Self.ident s name = target) then set_requires_grad b p else p in
  Self.mk
    (map_imap (λ path p, Some (assign (dotted (InText path)) p)) (Self.text s))
    (map_imap (λ path p, Some (assign (dotted (InVisual path)) p)) (Self.visual s))
    (Self.context_length s)
    (assign (dotted MapViz2TxtKv) (Self.map_viz2txt_kv s))
    (assign (dotted LogitScale) (Self.logit_scale s))
    (assign (dotted LogitBias) <$> Self.logit_bias s)
    (Self.pad_id s)
    (Self.use_contrastive s)
    (Self.ident s).

(** [self.text.<path>.requires_grad = b]; the attribute path must resolve. *)
Definition text_set_requires_grad (path : string) (b : bool) : M World unit :=
  w <- Py.get ;;
  match Self.text (self w) !! path with
  | Some _ =>
      on_self (assign_requires_grad (Self.ident (self w) (dotted (InText path))) b)
  | None => Py.raise (Exn AttributeError ("text." +:+ path))
  end.

(** [self.visual.<path>.requires_grad = b] *)
Definition visual_set_requires_grad (path : string) (b : bool) : M World unit :=
  w <- Py.get ;;
  match Self.visual (self w) !! path with
  | Some _ =>
      on_self (assign_requires_grad (Self.ident (self w) (dotted (InVisual path))) b)
  | None => Py.raise (Exn AttributeError ("visual." +:+ path))
  end.

(** [self.logit_scale.requires_grad = b] *)
Definition logit_scale_set_requires_grad (b : bool) : M World unit :=
  w <- Py.get ;;
  on_self (assign_requires_grad (Self.ident (self w) (dotted LogitScale)) b).

Definition _encode_text (text : Tokens) (image_embs : option Tensor)
    : M World (Tensor * Tensor) :=
  w <- Py.get ;;
  record (CallText text image_embs) ;;;
  Py.ret (MultimodalTransformer_forward (Self.text (self w)) text image_embs).

(** [encode_text(text, image_embs=None, normalize=True, output_logits=False)] *)
Definition encode_text (text : Tokens) (image_embs : option Tensor)
    (normalize_ : bool) (output_logits : bool) : M World Tensor :=
  r <- _encode_text text image_embs ;;
  let token_logits := r.1 in
  let text_latent := r.2 in
  if output_logits then Py.ret token_logits
  else
    let text_latent := mean text_latent 1 in
    let text_latent := if normalize_ then normalize text_latent (-1) else text_latent in
    Py.ret text_latent.

(** [_encode_image(image, normalize=True)] *)
Definition _encode_image (image : Tensor) (normalize_ : bool)
    : M World (Tensor * Tensor) :=
  w <- Py.get ;;
  record (CallVisual image) ;;;
  let r := VisionTower_forward (Self.visual (self w)) image in
  let image_latent := r.1 in
  let image_embs := r.2 in
  let image_latent := if normalize_ then normalize image_latent (-1) else image_latent in
  Py.ret (image_latent, image_embs).

(** [encode_image(image, normalize=True)] *)
Definition encode_image (image : Tensor) (normalize_ : bool) : M World Tensor :=
  r <- _encode_image image normalize_ ;;
  Py.ret r.1.

Definition _use_contrastive (used : bool) : M World unit :=
  on_self (Self.set_use_contrastive used) ;;;
  if negb used then
    text_set_requires_grad "ln_final.bias" false ;;;
    text_set_requires_grad "ln_final.weight" false ;;;
    visual_set_requires_grad "proj" false ;;;
    visual_set_requires_grad "ln_post.bias" false ;;;
    visual_set_requires_grad "ln_post.weight" false ;;;
    logit_scale_set_requires_grad false
  else Py.ret tt.

(** The image embeddings the decoder cross-attends to: mapped to the text
    width when there are any ([image_embs @ self.map_viz2txt_kv]). *)
Definition mapped (w : World) (image_embs : option Tensor) : option Tensor :=
  (λ e, matmul e (data (Self.map_viz2txt_kv (self w)))) <$> image_embs.

(** [_forward(text, out, image_embs=None, contrastive=True, is_training=True)];
    [out] is updated and returned. *)
Definition _forward (text : Tokens) (out : gmap string value)
    (image_embs : option Tensor) (contrastive : bool) (is_training : bool)
    : M World (gmap string value) :=
  if contrastive then
    text_features <- encode_text text None true false ;;
    Py.ret (<["text_features" := VTensor text_features]> out)
  else
    w <- Py.get ;;
    let image_embs :=
      match image_embs with
      | Some e => Some (matmul e (data (Self.map_viz2txt_kv (self w))))
      | None => None
      end in
    let out := <["labels" := VTokens (slice_columns (Some 1) None text)]> out in
    let text := if is_training then slice_columns None (Some (-1)) text else text in
    logits <- encode_text text image_embs true true ;;
    Py.ret (<["logits" := VTensor logits]> out).

(** [forward(image=None, text=None, image_latent=None, image_embs=None,
    is_training=True)].  The image is encoded when there is one and the
    caller gave no latent or no embeddings. *)
Definition forward (image : option Tensor) (text : option Tokens)
    (image_latent image_embs : option Tensor) (is_training : bool)
    : M World (gmap string value) :=
  w <- Py.get ;;
  let out : gmap string value :=
    {["logit_scale" := VTensor (exp (data (Self.logit_scale (self w))))]} in
  encoded <-
    (match image with
     | Some image =>
         if bool_decide (image_latent = None ∨ image_embs = None) then
           r <- _encode_image image true ;;
           Py.ret (Some r.1, Some r.2)
         else Py.ret (image_latent, image_embs)
     | None => Py.ret (image_latent, image_embs)
     end) ;;
  let image_latent := encoded.1 in
  let image_embs := encoded.2 in
  let out := <["image_features" := of_optional image_latent]> out in
  match text with
  | None => Py.ret out
  | Some text =>
      w <- Py.get ;;
      out <-
        (if is_training && Self.use_contrastive (self w) then
           _forward text out None true true
         else Py.ret (<["text_features" := VNone]> out)) ;;
      _forward text out image_embs false is_training
  end.

(** [b] is the parameter [a] with its gradient flag cleared or left alone:
    the same value, and a flag that is set only if it was set. *)
Definition at_most (a b : Param) : Prop :=
  data b = data a ∧ (requires_grad b = true → requires_grad a = true).

(** The model [s'] has the parameters of [s], none gained and none lost,
    each of them [at_most] what it was. *)
Definition frozen_from (s s' : Self.t) : Prop :=
  ∀ p, option_Forall2 at_most (parameter_of s p) (parameter_of s' p).

(** The model after [requires_grad = False] was assigned to the objects
    the names [ps] stand for, one after the other. *)
Definition freeze (ps : list pname) (s : Self.t) : Self.t :=
  foldl (λ s p, assign_requires_grad (Self.ident s (dotted p)) false s) s ps.

(** The order in which [_use_contrastive(False)] goes through the head. *)
Definition head_order : list pname :=
  [InText "ln_final.bias"; InText "ln_final.weight"; InVisual "proj";
   InVisual "ln_post.bias"; InVisual "ln_post.weight"; LogitScale].

End methods.

(** *** The constructor

    [__init__] runs on an instance whose attributes are not set yet, so the
    instance is kept here as [nn.Module] keeps it: the registry of
    submodules, the registry of parameters and the plain [__dict__]. *)

Inductive activation := QuickGELU | GELU.
Inductive norm := LayerNormFp32 | LayerNorm.

Section constructor.
Context {float : Type} {torch : Torch}.

(** Plain Python values: config fields and scalar attributes. *)
Inductive pyval :=
  | PNone
  | PBool (b : bool)
  | PInt (n : Z)
  | PFloat (x : float)
  | PStr (s : string).

(** [v is None] *)
Definition is_None (v : pyval) : bool :=
  match v with PNone => true | _ => false end.

(** A config dataclass instance ([MultimodalCfg], [CLIPVisionCfg]). *)
Record Cfg := { __dict__ : gmap string pyval }.

(** A config argument: [__init__] accepts a dict or a dataclass instance. *)
Inductive cfg_arg :=
  | IsDict (d : gmap string pyval)
  | IsCfg (c : Cfg).

(** [cfg.name] *)
Definition cfg_getattr (c : Cfg) (name : string) : exn + pyval :=
  match __dict__ c !! name with
  | Some v => inr v
  | None => inl (Exn AttributeError name)
  end.

(** A config argument as a config: a dict is passed to the config class
    [ctor] as keyword arguments, an instance is taken as it is. *)
Definition as_config (ctor : gmap string pyval → exn + Cfg) (cfg : cfg_arg) : exn + Cfg :=
  match cfg with
  | IsDict d => ctor d
  | IsCfg c => inr c
  end.

(** The keyword arguments [_build_multimodal_decoder_tower] passes to
    [MultimodalTransformer]. *)
Record transformer_args := {
  arg_context_length : pyval;
  arg_width : pyval;
  arg_heads : pyval;
  arg_layers : pyval;
  arg_ls_init_value : pyval;
  arg_cross_attn_ratio : pyval;
  arg_does_full_decoding : pyval;
  arg_output_tokens : pyval;
  arg_has_mlp : pyval;
  arg_output_dim : pyval;
  arg_act_layer : activation;
  arg_norm_layer : norm;
}.

(** What the file imports and calls while building a model. *)
Class Factory := {
  (** [MultimodalCfg], called with the dict's items as keyword arguments *)
  MultimodalCfg : gmap string pyval → exn + Cfg;
  (** [CLIPVisionCfg], called with the dict's items as keyword arguments *)
  CLIPVisionCfg : gmap string pyval → exn + Cfg;
  (** [tower.config.vocab_size] *)
  config_vocab_size : gmap string Param → exn + pyval;
  (** [MultimodalTransformer(...)] *)
  MultimodalTransformer : transformer_args → exn + gmap string Param;
  (** [_build_vision_tower(embed_dim, vision_cfg, quick_gelu, cast_dtype)] *)
  _build_vision_tower : Z → Cfg → bool → option dtype → exn + gmap string Param;
  (** [torch.randn(rows, cols)] *)
  randn : pyval → pyval → exn + Tensor;
  (** [torch.ones(shape) * x] *)
  ones_times : list Z → float → Tensor;
}.

Context {factory : Factory}.

Definition _build_multimodal_decoder_tower {St} (embed_dim : pyval)
    (multimodal_cfg : cfg_arg) (quick_gelu : bool) (cast_dtype : option dtype)
    : M St (gmap string Param) :=
  multimodal_cfg <- Py.lift (as_config MultimodalCfg multimodal_cfg) ;;
  let act_layer := if quick_gelu then QuickGELU else GELU in
  let norm_layer :=
    if bool_decide (cast_dtype = Some float16 ∨ cast_dtype = Some bfloat16)
    then LayerNormFp32 else LayerNorm in
  context_length <- Py.lift (cfg_getattr multimodal_cfg "context_length") ;;
  width <- Py.lift (cfg_getattr multimodal_cfg "width") ;;
  heads <- Py.lift (cfg_getattr multimodal_cfg "heads") ;;
  layers <- Py.lift (cfg_getattr multimodal_cfg "layers") ;;
  ls_init_value <- Py.lift (cfg_getattr multimodal_cfg "ls_init_value") ;;
  cross_attn_ratio <- Py.lift (cfg_getattr multimodal_cfg "cross_attn_ratio") ;;
  does_full_decoding <- Py.lift (cfg_getattr multimodal_cfg "does_full_decoding") ;;
  output_tokens <- Py.lift (cfg_getattr multimodal_cfg "output_tokens") ;;
  has_mlp <- Py.lift (cfg_getattr multimodal_cfg "has_mlp") ;;
  decoder <- Py.lift (MultimodalTransformer {|
    arg_context_length := context_length;
    arg_width := width;
    arg_heads := heads;
    arg_layers := layers;
    arg_ls_init_value := ls_init_value;
    arg_cross_attn_ratio := cross_attn_ratio;
    arg_does_full_decoding := does_full_decoding;
    arg_output_tokens := output_tokens;
    arg_has_mlp := has_mlp;
    arg_output_dim := embed_dim;
    arg_act_layer := act_layer;
    arg_norm_layer := norm_layer |}) ;;
  Py.ret decoder.

(** The instance under construction. *)
Record instance := {
  _modules : gmap string (gmap string Param);
  _parameters : gmap string Param;
  attributes : gmap string pyval;
}.

(** A freshly allocated object, before [__init__] runs. *)
Definition fresh : instance :=
  {| _modules := ∅; _parameters := ∅; attributes := ∅ |}.

(** [super().__init__()]: [nn.Module.__init__] starts the registries empty. *)
Definition super_init : M instance unit :=
  Py.modify (λ o, {| _modules := ∅; _parameters := ∅; attributes := attributes o |}).

(** [self.name = module] *)
Definition set_module (name : string) (m : gmap string Param) : M instance unit :=
  Py.modify (λ o, {| _modules := <[name := m]> (_modules o);
                     _parameters := _parameters o;
                     attributes := attributes o |}).

(** [self.name = nn.Parameter(x)] *)
Definition set_parameter (name : string) (x : Tensor) : M instance unit :=
  Py.modify (λ o, {| _modules := _modules o;
                     _parameters := <[name := {| data := x; requires_grad := true |}]> (_parameters o);
                     attributes := attributes o |}).

(** [self.name = v] for a plain value *)
Definition set_attribute (name : string) (v : pyval) : M instance unit :=
  Py.modify (λ o, {| _modules := _modules o;
                     _parameters := _parameters o;
                     attributes := <[name := v]> (attributes o) |}).

(** [self.name.config.vocab_size]: the attribute is looked up in the
    instance's [__dict__], then in the parameters, then in the submodules
    (the classes themselves define no attribute called [text]); only a
    submodule has a [config]. *)
Definition self_config_vocab_size (name : string) : M instance pyval :=
  o <- Py.get ;;
  match attributes o !! name, _parameters o !! name, _modules o !! name with
  | Some _, _, _ => Py.raise (Exn AttributeError "config")
  | None, Some _, _ => Py.raise (Exn AttributeError "config")
  | None, None, Some m => Py.lift (config_vocab_size m)
  | None, None, None => Py.raise (Exn AttributeError name)
  end.

Definition __init__ (embed_dim : Z) (text_cfg : cfg_arg) (vision_cfg : cfg_arg)
    (quick_gelu : bool) (cast_dtype : option dtype) (pad_id : Z)
    (init_logit_scale : float) (init_logit_bias : option float)
    (nonscalar_logit_scale : bool) : M instance unit :=
  super_init ;;;
  multimodal_cfg <- Py.lift (as_config MultimodalCfg text_cfg) ;;
  vision_cfg <- Py.lift (as_config CLIPVisionCfg vision_cfg) ;;
  vocab_size <-
    (if negb (is_None (default PNone (__dict__ multimodal_cfg !! "hf_model_name")))
     then self_config_vocab_size "text"
     else Py.lift (cfg_getattr multimodal_cfg "vocab_size")) ;;
  text <- _build_multimodal_decoder_tower vocab_size (IsCfg multimodal_cfg)
            quick_gelu cast_dtype ;;
  set_module "text" text ;;;
  visual <- Py.lift (_build_vision_tower embed_dim vision_cfg quick_gelu cast_dtype) ;;
  set_module "visual" visual ;;;
  context_length <- Py.lift (cfg_getattr multimodal_cfg "context_length") ;;
  set_attribute "context_length" context_length ;;;
  vision_width <- Py.lift (cfg_getattr vision_cfg "width") ;;
  text_width <- Py.lift (cfg_getattr multimodal_cfg "width") ;;
  kv <- Py.lift (randn vision_width text_width) ;;
  set_parameter "map_viz2txt_kv" kv ;;;
  let lshape := if nonscalar_logit_scale then [1] else [] in
  set_parameter "logit_scale" (ones_times lshape init_logit_scale) ;;;
  match init_logit_bias with
  | Some b => set_parameter "logit_bias" (ones_times lshape b)
  | None => set_attribute "logit_bias" PNone
  end ;;;
  set_attribute "pad_id" (PInt pad_id) ;;;
  set_attribute "use_contrastive" (PBool true).

(** [MaMMUT(...)]: allocate, then initialise. *)
Definition construct (embed_dim : Z) (text_cfg : cfg_arg) (vision_cfg : cfg_arg)
    (quick_gelu : bool) (cast_dtype : option dtype) (pad_id : Z)
    (init_logit_scale : float) (init_logit_bias : option float)
    (nonscalar_logit_scale : bool) : instance * (exn + unit) :=
  __init__ embed_dim text_cfg vision_cfg quick_gelu cast_dtype pad_id
    init_logit_scale init_logit_bias nonscalar_logit_scale fresh.

End constructor.
End MaMMUT.

(** ** [profiler_simple.py] *)

Module Profiler.

(** *** Models as the profiler sees them *)

(** A parameter tensor: its identity (the object) and its shape. *)
Record parameter := { param_id : positive; shape : list Z }.

(** An [nn.Module]: its own parameters and its submodules, by name, in
    registration order. *)
#[warnings="-register-all"]
Inductive nn_Module :=
  Build_Module (own : list (string * parameter)) (children : list (string * nn_Module)).

Definition _parameters (m : nn_Module) : list (string * parameter) :=
  match m with Build_Module own _ => own end.

Definition _modules (m : nn_Module) : list (string * nn_Module) :=
  match m with Build_Module _ children => children end.

(** Every parameter met on a walk of the module tree, parents first. *)
Fixpoint walk (m : nn_Module) : list parameter :=
  match m with
  | Build_Module own children => own.*2 ++ flat_map (λ c, walk c.2) children
  end.

(** Keep the first occurrence of each object. *)
Fixpoint distinct (seen : gset positive) (ps : list parameter) : list parameter :=
  match ps with
  | [] => []
  | p :: ps =>
      if decide (param_id p ∈ seen) then distinct seen ps
      else p :: distinct ({[param_id p]} ∪ seen) ps
  end.

(** [m.parameters()]: each parameter object once, a shared one included. *)
Definition parameters (m : nn_Module) : list parameter := distinct ∅ (walk m).

(** [p.numel()] *)
Definition numel (p : parameter) : Z := foldr Z.mul 1 (shape p).

(** [sum(xs)] on ints *)
Definition sum (xs : list Z) : Z := foldr Z.add 0 xs.

Definition count_params (model : nn_Module) : Z :=
  sum (numel <$> parameters model).

(** The parameter counts in the words of the specification, to compare
    [count_params] with: "the sum of element counts over all of the model's
    parameters".  A parameter has as many elements as the product of the
    sizes of its shape; the parameters of a module are the parameter objects
    registered in it or below it, each of them once. *)
Definition element_count (p : parameter) : Z := fold_right Z.mul 1 (shape p).

Definition total_elements (ps : list parameter) : Z :=
  fold_right Z.add 0 (element_count <$> ps).

Definition each_object_once (m : nn_Module) (ps : list parameter) : Prop :=
  ps `sublist_of` walk m
  ∧ NoDup (param_id <$> ps)
  ∧ ∀ p, p ∈ walk m → param_id p ∈ param_id <$> ps.

(** A model object: the module tree and the state the profiler changes. *)
Record Model := {
  root : nn_Module;
  on : device;
  param_dtype : dtype;
  training : bool;
  use_contrastive : option bool;
}.

(** [model.eval()] *)
Definition eval (m : Model) : Model :=
  {| root := root m; on := on m; param_dtype := param_dtype m;
     training := false; use_contrastive := use_contrastive m |}.

(** [model.use_contrastive = b] *)
Definition set_use_contrastive (b : bool) (m : Model) : Model :=
  {| root := root m; on := on m; param_dtype := param_dtype m;
     training := training m; use_contrastive := Some b |}.

(** The model after [model.to(d)] or [model.cuda()] *)
Definition moved (d : device) (m : Model) : Model :=
  {| root := root m; on := d; param_dtype := param_dtype m;
     training := training m; use_contrastive := use_contrastive m |}.

(** [model.name] for a submodule *)
Definition submodule (name : string) (m : nn_Module) : exn + nn_Module :=
  match Dict.get name (_modules m) with
  | Some c => inr c
  | None => inl (Exn AttributeError name)
  end.

(** An example input: what [torch.ones(shape, device=, dtype=)] was given. *)
Record input := { input_shape : list Z; input_device : device; input_dtype : dtype }.

(** A shape as torch prints it: [[2, 3, 224, 224]] *)
Definition shape_str (shape : list Z) : string :=
  "[" +:+ String.concat ", " (pretty <$> shape) +:+ "]".

(** [torch.ones(shape, device=device, dtype=dtype)] refuses a negative
    size, naming the first one and the whole shape. *)
Definition ones (shape : list Z) (d : device) (t : dtype) : exn + input :=
  match filter (λ n, n < 0) shape with
  | [] => inr {| input_shape := shape; input_device := d; input_dtype := t |}
  | n :: _ =>
      inl (Exn RuntimeError ("Trying to create tensor with negative dimension "
                             +:+ pretty n +:+ ": " +:+ shape_str shape))
  end.

(** The example inputs a pass builds for a model. *)
Definition image_input (m : Model) (batch_size : Z) (image_input_size : list Z) : input :=
  {| input_shape := batch_size :: image_input_size;
     input_device := on m; input_dtype := param_dtype m |}.

Definition text_input (m : Model) (batch_size : Z) (text_input_size : list Z) : input :=
  {| input_shape := batch_size :: text_input_size;
     input_device := on m; input_dtype := int64 |}.

(** The model a pass measures: moved to the CPU first when forced. *)
Definition placed (force_cpu : bool) (m : Model) : Model :=
  if force_cpu then moved cpu m else m.

(** *** The command line *)

(** What [parser.parse_args()] returns: one attribute per argument. *)
Module Namespace.

Record t := mk {
  model : string;
  results_file : string;
  profiler : string;
  batch_size : Z;
  image_size : Z;
  text_size : Z;
  no_contrastive : bool;
}.

End Namespace.

(** The [default=] of each [parser.add_argument]. *)
Definition defaults : Namespace.t :=
  Namespace.mk "" "" "torch" 1 224 77 false.

(** The [choices=] of [--profiler]. *)
Definition profiler_choices : list string := ["torch"; "fvcore"].

(** The actions of the parser: the help option [ArgumentParser] adds by
    itself, and one for each [add_argument]. *)
Inductive action :=
  | HelpAction
  | StoreModel
  | StoreResultsFile
  | StoreProfiler
  | StoreBatchSize
  | StoreImageSize
  | StoreTextSize
  | StoreTrueNoContrastive.

(** [parser._option_string_actions], in registration order *)
Definition option_strings : list (string * action) :=
  [("-h", HelpAction); ("--help", HelpAction);
   ("--model", StoreModel);
   ("--results-file", StoreResultsFile);
   ("--profiler", StoreProfiler);
   ("--batch-size", StoreBatchSize);
   ("--image-size", StoreImageSize);
   ("--text-size", StoreTextSize);
   ("--no-contrastive", StoreTrueNoContrastive)].

(** [nargs]: [store] takes one value, [help] and [store_true] none. *)
Definition takes_value (a : action) : bool :=
  match a with
  | HelpAction | StoreTrueNoContrastive => false
  | _ => true
  end.

(** [s.split(sep, 1)]: the text before the first separator, and the text
    after it when there is one *)
Fixpoint split_once (sep : ascii) (s : string) : string * option string :=
  match s with
  | EmptyString => (EmptyString, None)
  | String c s' =>
      if decide (c = sep) then (EmptyString, Some s')
      else let r := split_once sep s' in (String c r.1, r.2)
  end.

(** A character of the class [\d].  Strings are sequences of characters
    with code points below 256, where the decimal digits are [0] to [9]. *)
Definition is_digit (c : ascii) : bool :=
  (48 <=? nat_of_ascii c)%nat && (nat_of_ascii c <=? 57)%nat.

Fixpoint all_digits (s : string) : bool :=
  match s with
  | EmptyString => true
  | String c s' => is_digit c && all_digits s'
  end.

(** [s] without one final newline *)
Fixpoint chomp (s : string) : string :=
  match s with
  | EmptyString => EmptyString
  | String c EmptyString => if decide (c = "010"%char) then EmptyString else s
  | String c s' => String c (chomp s')
  end.

(** [parser._negative_number_matcher.match(s)], the pattern being
    [^-\d+$|^-\d*\.\d+$]; [$] matches before a final newline too. *)
Definition negative_number (s : string) : bool :=
  match chomp s with
  | String "-" t =>
      (negb (bool_decide (t = "")) && all_digits t)
      || match split_once "." t with
         | (whole, Some fraction) =>
             all_digits whole && negb (bool_decide (fraction = "")) && all_digits fraction
         | (_, None) => false
         end
  | _ => false
  end.

(** [' ' in s] *)
Fixpoint has_space (s : string) : bool :=
  match s with
  | EmptyString => false
  | String c s' => bool_decide (c = " "%char) || has_space s'
  end.

(** What [_parse_optional] makes of an argument that looks like an option:
    the action when the option is known, the option string, and the value
    given with it. *)
Definition option_tuple : Type := option action * string * option string.

(** [parser._get_option_tuples(option_string)]: the options an argument
    abbreviates.  After two dashes, those that start with what stands before
    the [=]; after one dash, the one-letter option of the first letter, with
    the rest as its value, and those that start with the whole argument.  It
    is called on arguments of two characters or more that start with a
    dash. *)
Definition _get_option_tuples (option_string : string) : list option_tuple :=
  match option_string with
  | String c0 (String c1 short_explicit_arg) =>
      if bool_decide (c0 = "-"%char) && bool_decide (c1 = "-"%char) then
        let r := split_once "=" option_string in
        (λ o : string * action, (Some o.2, o.1, r.2))
          <$> filter (λ o : string * action, String.prefix r.1 o.1 = true) option_strings
      else if bool_decide (c0 = "-"%char) then
        omap (λ o : string * action,
                if decide (o.1 = String c0 (String c1 EmptyString))
                then Some (Some o.2, o.1, Some short_explicit_arg)
                else if String.prefix option_string o.1 then Some (Some o.2, o.1, None)
                else None)
          option_strings
      else []
  | _ => []
  end.

(** [s.split(sep)] for a one-character separator *)
Fixpoint split (sep : ascii) (s : string) : list string :=
  match s with
  | EmptyString => [EmptyString]
  | String c s' =>
      if decide (c = sep) then EmptyString :: split sep s'
      else match split sep s' with
           | [] => [String c EmptyString]
           | w :: ws => String c w :: ws
           end
  end.

(** ['=' * 100] *)
Definition banner : string := String.concat "" (replicate 100 "=").

(** *** Rows, tables and output *)

Section profiler.
Context {float : Type} {floats : PyFloat float}.

Inductive cell :=
  | CStr (s : string)
  | CInt (n : Z)
  | CFloat (x : float).

(** A result row: an insertion-ordered dict. *)
Abbreviation row := (list (string * cell)).

(** A [pd.DataFrame]. *)
Record DataFrame := { columns : list string; records : list row }.

(** The counters the two profilers read. *)
Inductive counter := TorchFlops | FvcoreFlops | FvcoreActivations.

(** What a run does to the world outside, in order: lines printed, the
    traceback of an exception, the table, the list of failed models, a model
    moved to a device, a counting run on two inputs, the table
    [FlopCounterMode] prints of a counting run, a call of [to_csv] on a path,
    and what argparse writes before it exits (the help text on stdout with
    status 0, the usage and the error on stderr with status 2). *)
Inductive event :=
  | Print (line : string)
  | PrintExc (e : exn)
  | PrintFrame (df : DataFrame)
  | PrintErrors (models : list string)
  | MoveTo (d : device)
  | Count (c : counter) (index : nat) (image text : input)
  | PrintTable (index : nat)
  | ToCsv (df : DataFrame) (path : string)
  | ParserMessage (status : string).

(** The world: what has happened, and how many counting runs were made. *)
Record World := { trace : list event; runs : nat }.

(** The world after some more events and counting runs. *)
Definition later (w : World) (events : list event) (n : nat) : World :=
  {| trace := trace w ++ events; runs := (n + runs w)%nat |}.

(** The paths [to_csv] was called with, and the error lists printed. *)
Definition csv_paths (t : list event) : list string :=
  omap (λ ev, match ev with ToCsv _ path => Some path | _ => None end) t.

Definition error_lists (t : list event) : list (list string) :=
  omap (λ ev, match ev with PrintErrors models => Some models | _ => None end) t.

Definition placing (force_cpu : bool) : list event :=
  if force_cpu then [MoveTo cpu] else [].

(** What the script imports and calls. *)
Class Env := {
  (** whether [import fvcore] succeeded, so that [fvcore] is not [None] *)
  fvcore : bool;
  (** whether [fvcore.nn] resolves on the module: the file imports [fvcore]
      alone, so the submodule is an attribute of it only when something else
      has imported [fvcore.nn] *)
  fvcore_nn : bool;
  (** [torch.cuda.is_available()] *)
  cuda_is_available : bool;
  (** [open_clip.create_model(name, force_custom_text=True, pretrained_hf=False)] *)
  create_model : string → exn + Model;
  (** [open_clip.list_models()] *)
  list_models : list string;
  (** the [index]-th counting run: one forward pass of the model on the two
      inputs under a counter, and the counter's total *)
  count : counter → nat → Model → input → input → exn + Z;
  (** [fvcore.nn.flop_count_str(fca)] *)
  flop_count_str : Model → input → input → string;
  (** the order [df.sort_values(by=...)] puts the rows in *)
  sorted_by : list string → list row → list row;
  (** [df.to_csv(path, index=False)]: it returns, or raises (an [OSError]
      for a path that cannot be written) *)
  to_csv : DataFrame → string → exn + unit;
  (** [int(s)], [None] when it raises [ValueError] *)
  int : string → option Z;
}.

Context {env : Env}.

Definition emit (e : event) : M World unit :=
  Py.modify (λ w, {| trace := trace w ++ [e]; runs := runs w |}).

(** [print(line)] *)
Definition print (line : string) : M World unit := emit (Print line).

(** One counting run of fvcore: [fca.total()], [aca.total()]. *)
Definition run_counter (c : counter) (m : Model) (image text : input) : M World Z :=
  w <- Py.get ;;
  Py.modify (λ w, {| trace := trace w ++ [Count c (runs w) image text];
                     runs := S (runs w) |}) ;;;
  Py.lift (count c (runs w) m image text).

(** [with FlopCounterMode(): model(image, text)] and the sum of the counts.
    [FlopCounterMode()] is built with its default [display=True], so it
    prints its table when the [with] block is left, whether the forward pass
    returned or raised. *)
Definition flop_counter (m : Model) (image text : input) : M World Z :=
  w <- Py.get ;;
  Py.modify (λ w, {| trace := trace w ++ [Count TorchFlops (runs w) image text;
                                          PrintTable (runs w)];
                     runs := S (runs w) |}) ;;;
  Py.lift (count TorchFlops (runs w) m image text).

(** [fvcore.nn], read on the module object the file imported *)
Definition fvcore_getattr_nn : M World unit :=
  if negb fvcore then
    Py.raise (Exn AttributeError "'NoneType' object has no attribute 'nn'")
  else if negb fvcore_nn then
    Py.raise (Exn AttributeError "module 'fvcore' has no attribute 'nn'")
  else Py.ret tt.

(** [model.to(d)] *)
Definition to (d : device) (m : Model) : M World Model :=
  emit (MoveTo d) ;;; Py.ret (moved d m).

(** [next(model.parameters())], read for its device and dtype *)
Definition next_parameter (m : Model) : M World (device * dtype) :=
  match parameters (root m) with
  | [] => Py.raise (Exn StopIteration "")
  | _ :: _ => Py.ret (on m, param_dtype m)
  end.

(** [a / b] on ints *)
Definition truediv (a b : Z) : M World float :=
  if decide (b = 0) then Py.raise (Exn ZeroDivisionError "division by zero")
  else Py.ret (int_truediv a b).

(** The literals [1e6] and [1e9] *)
Definition _1e6 : float := float_of_int 1000000.
Definition _1e9 : float := float_of_int 1000000000.

(** [profile_fvcore(model, image_input_size, text_input_size, batch_size=1,
    detailed=False, force_cpu=False)]; the model is returned too, since
    [model.to] changes the caller's object.  The two analyses are built
    without running the model; the operations are counted by the first call
    that needs them, which is [flop_count_str] when [detailed] is set and
    [fca.total()] otherwise, and the count is kept. *)
Definition profile_fvcore (model : Model) (image_input_size text_input_size : list Z)
    (batch_size : Z) (detailed : bool) (force_cpu : bool) : M World (Model * (float * float)) :=
  model <- (if force_cpu then to cpu model else Py.ret model) ;;
  dd <- next_parameter model ;;
  example_image_input <- Py.lift (ones (batch_size :: image_input_size) dd.1 dd.2) ;;
  example_text_input <- Py.lift (ones (batch_size :: text_input_size) dd.1 int64) ;;
  fvcore_getattr_nn ;;;
  fca_total <- run_counter FvcoreFlops model example_image_input example_text_input ;;
  (if detailed then print (flop_count_str model example_image_input example_text_input)
   else Py.ret tt) ;;;
  macs <- truediv fca_total batch_size ;;
  aca_total <- run_counter FvcoreActivations model example_image_input example_text_input ;;
  acts <- truediv aca_total batch_size ;;
  Py.ret (model, (macs, acts)).

(** [profile_torch(model, text_input_size, image_input_size, batch_size=1,
    force_cpu=False)] *)
Definition profile_torch (model : Model) (text_input_size image_input_size : list Z)
    (batch_size : Z) (force_cpu : bool) : M World (Model * float) :=
  model <- (if force_cpu then to cpu model else Py.ret model) ;;
  dd <- next_parameter model ;;
  image_input <- Py.lift (ones (batch_size :: image_input_size) dd.1 dd.2) ;;
  text_input <- Py.lift (ones (batch_size :: text_input_size) dd.1 int64) ;;
  total_flops <- flop_counter model image_input text_input ;;
  r <- truediv total_flops batch_size ;;
  Py.ret (model, r).

(** [round(n / 1e6, 2)] for an int [n] *)
Definition millions (n : Z) : float := round (fdiv (float_of_int n) _1e6) 2.

(** The row after the three parameter counts of a pass. *)
Definition counted (model visual text : nn_Module) (results : row) : row :=
  Dict.set "text_mparams" (CFloat (millions (count_params text)))
    (Dict.set "image_mparams" (CFloat (millions (count_params visual)))
       (Dict.set "mparams" (CFloat (millions (count_params model))) results)).

(** The body of the [try] in [profile_model]'s loop. *)
Definition measure (model : Model) (results : row) (profiler : string)
    (image_input_size text_input_size : list Z) (batch_size : Z) (force_cpu : bool)
    : M World (Model * row) :=
  let results := Dict.set "mparams" (CFloat (millions (count_params (root model)))) results in
  visual <- Py.lift (submodule "visual" (root model)) ;;
  let results := Dict.set "image_mparams" (CFloat (millions (count_params visual))) results in
  text <- Py.lift (submodule "text" (root model)) ;;
  let results := Dict.set "text_mparams" (CFloat (millions (count_params text))) results in
  if decide (profiler = "fvcore") then
    r <- profile_fvcore model image_input_size text_input_size batch_size false force_cpu ;;
    let macs := r.2.1 in
    let acts := r.2.2 in
    let results := Dict.set "gmacs" (CFloat (round (fdiv macs _1e9) 2)) results in
    let results := Dict.set "macts" (CFloat (round (fdiv acts _1e6) 2)) results in
    Py.ret (r.1, results)
  else if decide (profiler = "torch") then
    r <- profile_torch model text_input_size image_input_size batch_size force_cpu ;;
    let total_flops := r.2 in
    let results := Dict.set "gflops" (CFloat (round (fdiv total_flops _1e9) 2)) results in
    Py.ret (r.1, results)
  else Py.ret (model, results).

(** [while retries: retries -= 1; try: ... except RuntimeError as e:
    print(e); raise], with [force_cpu = not retries] after the decrement. *)
Fixpoint retry_loop (retries : nat) (model : Model) (results : row) (profiler : string)
    (image_input_size text_input_size : list Z) (batch_size : Z) : M World row :=
  match retries with
  | O => Py.ret results
  | S retries =>
      r <- Py.try_except
             (measure model results profiler image_input_size text_input_size
                batch_size (bool_decide (retries = O)))
             isinstance_RuntimeError
             (λ e, print (msg_of e) ;;; Py.raise e) ;;
      retry_loop retries r.1 r.2 profiler image_input_size text_input_size batch_size
  end.

(** The model [profile_model] measures: in eval mode, with
    [use_contrastive] cleared on request, on the GPU when there is one. *)
Definition prepared (created : Model) (no_contrastive : bool) : Model :=
  let model := eval created in
  let model := if no_contrastive then set_use_contrastive false model else model in
  if cuda_is_available then moved cuda model else model.

Definition preparing : list event :=
  if cuda_is_available then [MoveTo cuda] else [].

(** The row before the first pass. *)
Definition heading (model_name : string) (image_size : Z) : row :=
  [("model", CStr model_name); ("image_size", CInt image_size)].

(** [profile_model(model_name, batch_size=1, profiler='torch',
    image_size=224, text_size=77, no_contrastive=False)].  The source also
    reads [open_clip.get_model_config(model_name)] into [model_cfg] and never
    uses it. *)
Definition profile_model (model_name : string) (batch_size : Z) (profiler : string)
    (image_size text_size : Z) (no_contrastive : bool) : M World row :=
  Py.assert_ (bool_decide (profiler ∈ ["torch"; "fvcore"]))
    "Only torch and fvcore profilers are supported" ;;;
  (if decide (profiler = "fvcore") then Py.assert_ fvcore "Please install fvcore."
   else Py.ret tt) ;;;
  model <- Py.lift (create_model model_name) ;;
  let model := eval model in
  let model := if no_contrastive then set_use_contrastive false model else model in
  model <- (if cuda_is_available then to cuda model else Py.ret model) ;;
  let image_input_size := [3; image_size; image_size] in
  let text_input_size := [text_size] in
  let results : row := [] in
  let results := Dict.set "model" (CStr model_name) results in
  let results := Dict.set "image_size" (CInt image_size) results in
  retry_loop 2 model results profiler image_input_size text_input_size batch_size.

(** [parser.error(...)]: argparse prints the usage and exits with status 2. *)
Definition usage_error {A} : exn + A := inl (Exn SystemExit "2").

(** [parser._parse_optional(arg_string)] as Python 3.11 has it: [None] for
    an argument that is taken as a value (it is empty, does not start with a
    dash, is a single dash, looks like a negative number or holds a space),
    the option otherwise: one spelled out, one given as [option=value], the
    single one the argument abbreviates, or an unknown one.  An argument that
    abbreviates several options is an error. *)
Definition _parse_optional (arg_string : string) : exn + option option_tuple :=
  match arg_string with
  | EmptyString => inr None
  | String c rest =>
      if negb (bool_decide (c = "-"%char)) then inr None
      else
        match Dict.get arg_string option_strings with
        | Some a => inr (Some (Some a, arg_string, None))
        | None =>
            if bool_decide (rest = "") then inr None
            else
              let r := split_once "=" arg_string in
              match r.2, Dict.get r.1 option_strings with
              | Some explicit_arg, Some a => inr (Some (Some a, r.1, Some explicit_arg))
              | _, _ =>
                  match _get_option_tuples arg_string with
                  | _ :: _ :: _ => usage_error
                  | [t] => inr (Some t)
                  | [] =>
                      if negative_number arg_string then inr None
                      else if has_space arg_string then inr None
                      else inr (Some (None, arg_string, None))
                  end
              end
        end
  end.

(** How [_parse_known_args] reads an argument before it consumes any: as a
    value ([A] in its pattern), as the first [--] ([-]), or as an option
    ([O]). *)
Inductive kind :=
  | Positional
  | Separator
  | Optional (t : option_tuple).

(** The first pass over the command line.  Every argument after the first
    [--] is a value. *)
Fixpoint classify (arg_strings : list string) : exn + list (string * kind) :=
  match arg_strings with
  | [] => inr []
  | arg_string :: rest =>
      if decide (arg_string = "--") then
        inr ((arg_string, Separator) :: ((λ a, (a, Positional)) <$> rest))
      else
        match _parse_optional arg_string with
        | inl e => inl e
        | inr t =>
            match classify rest with
            | inl e => inl e
            | inr kinds => inr ((arg_string, from_option Optional Positional t) :: kinds)
            end
        end
  end.

(** A cluster of one-letter options after a first one ([-hh]): every letter
    must be an option that takes no value. *)
Fixpoint flags (explicit_arg : string) : bool :=
  match explicit_arg with
  | EmptyString => true
  | String c rest =>
      match Dict.get (String "-" (String c EmptyString)) option_strings with
      | Some a => negb (takes_value a) && flags rest
      | None => false
      end
  end.

(** An option whose name is one dash and one letter *)
Definition one_letter (option_string : string) : bool :=
  match option_string with
  | String "-" (String c _) => negb (bool_decide (c = "-"%char))
  | _ => false
  end.

(** [take_action]: the value is converted by the argument's [type] and
    checked against its [choices], then stored; [help] prints the help text
    and exits with status 0. *)
Definition take_action (a : action) (value : string) (ns : Namespace.t)
    : exn + Namespace.t :=
  let '(Namespace.mk model results_file profiler batch_size image_size text_size
          no_contrastive) := ns in
  match a with
  | HelpAction => inl (Exn SystemExit "0")
  | StoreModel =>
      inr (Namespace.mk value results_file profiler batch_size image_size text_size
             no_contrastive)
  | StoreResultsFile =>
      inr (Namespace.mk model value profiler batch_size image_size text_size
             no_contrastive)
  | StoreProfiler =>
      if bool_decide (value ∈ profiler_choices) then
        inr (Namespace.mk model results_file value batch_size image_size text_size
               no_contrastive)
      else usage_error
  | StoreBatchSize =>
      match int value with
      | Some n => inr (Namespace.mk model results_file profiler n image_size text_size
                         no_contrastive)
      | None => usage_error
      end
  | StoreImageSize =>
      match int value with
      | Some n => inr (Namespace.mk model results_file profiler batch_size n text_size
                         no_contrastive)
      | None => usage_error
      end
  | StoreTextSize =>
      match int value with
      | Some n => inr (Namespace.mk model results_file profiler batch_size image_size n
                         no_contrastive)
      | None => usage_error
      end
  | StoreTrueNoContrastive =>
      inr (Namespace.mk model results_file profiler batch_size image_size text_size true)
  end.

(** An explicit value [--], as in [--model=--].  Python 3.11 strips it and
    stores an empty list in the namespace, later releases keep the string;
    the namespace here has no place for a list, so such a command line is
    refused, and the statements about the parser leave it out. *)
Definition explicit_dashes (arg_string : string) : bool :=
  bool_decide ((split_once "=" arg_string).2 = Some "--").

(** The second pass: the options are consumed from left to right, each with
    its value; a value must follow its option at once, as the next argument
    or after [=].  Values that belong to no option, the [--] and unknown
    options are set aside ([extras]) and make the command line an error at
    the end, unless an option has ended the parse before. *)
Fixpoint consume (kinds : list (string * kind)) (ns : Namespace.t) (extras : bool)
    : exn + Namespace.t :=
  match kinds with
  | [] => if extras then usage_error else inr ns
  | (_, Positional) :: rest => consume rest ns true
  | (_, Separator) :: rest => consume rest ns true
  | (_, Optional (None, _, _)) :: rest => consume rest ns true
  | (_, Optional (Some a, option_string, Some explicit_arg)) :: rest =>
      if takes_value a then
        if bool_decide (explicit_arg = "--") then usage_error
        else
          match take_action a explicit_arg ns with
          | inl e => inl e
          | inr ns => consume rest ns extras
          end
      else if one_letter option_string && negb (bool_decide (explicit_arg = ""))
              && flags explicit_arg then
        match take_action a "" ns with
        | inl e => inl e
        | inr ns => consume rest ns extras
        end
      else usage_error
  | (_, Optional (Some a, _, None)) :: rest =>
      if takes_value a then
        match rest with
        | (value, Positional) :: rest =>
            match take_action a value ns with
            | inl e => inl e
            | inr ns => consume rest ns extras
            end
        | _ => usage_error
        end
      else
        match take_action a "" ns with
        | inl e => inl e
        | inr ns => consume rest ns extras
        end
  end.

(** [parser.parse_args(argv)] *)
Definition parse_args (argv : list string) : exn + Namespace.t :=
  match classify argv with
  | inl e => inl e
  | inr kinds => consume kinds defaults false
  end.

(** [df.sort_values(by=by)]: every key must be a column. *)
Definition sort_values (by_ : list string) (df : DataFrame) : M World DataFrame :=
  match filter (λ k, k ∉ columns df) by_ with
  | [] => Py.ret {| columns := columns df; records := sorted_by by_ (records df) |}
  | k :: _ => Py.raise (Exn KeyError k)
  end.

(** The [for m in parsed_model] loop of [main]. *)
Fixpoint profile_each (parsed_model : list string) (args : Namespace.t)
    (results : list row) (models_with_errors : list string)
    : M World (list row * list string) :=
  match parsed_model with
  | [] => Py.ret (results, models_with_errors)
  | m :: parsed_model =>
      print banner ;;;
      print ("Profiling " +:+ m) ;;;
      r <- Py.try_except
             (row <- profile_model m (Namespace.batch_size args) (Namespace.profiler args)
                       (Namespace.image_size args) (Namespace.text_size args)
                       (Namespace.no_contrastive args) ;;
              Py.ret (results ++ [row], models_with_errors))
             isinstance_Exception
             (λ e,
               print ("Error profiling " +:+ m +:+ ": " +:+ msg_of e) ;;;
               emit (PrintExc e) ;;;
               Py.ret (results, models_with_errors ++ [m])) ;;
      profile_each parsed_model args r.1 r.2
  end.

Definition main (argv : list string) : M World unit :=
  args <- match parse_args argv with
          | inr args => Py.ret args
          | inl e => emit (ParserMessage (msg_of e)) ;;; Py.raise e
          end ;;
  let parsed_model :=
    if decide (Namespace.model args = "all") then list_models
    else split "," (Namespace.model args) in
  r <- profile_each parsed_model args [] [] ;;
  let results := r.1 in
  let models_with_errors := r.2 in
  first <- match results with
           | [] => Py.raise (Exn IndexError "list index out of range")
           | first :: _ => Py.ret first
           end ;;
  let df := {| columns := Dict.keys first; records := results |} in
  df <- (if bool_decide ("gmacs" ∈ columns df)
         then sort_values ["gmacs"; "mparams"; "model"] df
         else sort_values ["gflops"; "mparams"; "model"] df) ;;
  print banner ;;;
  print "Done." ;;;
  emit (PrintFrame df) ;;;
  (if bool_decide (Namespace.results_file args ≠ "")
   then emit (ToCsv df (Namespace.results_file args)) ;;;
        Py.lift (to_csv df (Namespace.results_file args))
   else Py.ret tt) ;;;
  (if bool_decide (models_with_errors ≠ [])
   then emit (PrintErrors models_with_errors)
   else Py.ret tt).

(** The keys [main] sorts the table by. *)
Definition sort_keys (first : row) : list string :=
  if bool_decide ("gmacs" ∈ Dict.keys first)
  then ["gmacs"; "mparams"; "model"] else ["gflops"; "mparams"; "model"].

(** A row [main] can sort: it has the keys of [sort_keys]. *)
Definition sortable (r : row) : Prop :=
  "model" ∈ Dict.keys r ∧ "mparams" ∈ Dict.keys r
  ∧ ("gmacs" ∈ Dict.keys r ∨ "gflops" ∈ Dict.keys r).

(** The table [main] prints: the first row's keys as columns, the rows
    sorted. *)
Definition table (first : row) (rest : list row) : DataFrame :=
  {| columns := Dict.keys first; records := sorted_by (sort_keys first) (first :: rest) |}.

(** What [main] puts out after the loop, once the table [df] is there. *)
Definition reported (args : Namespace.t) (df : DataFrame) (models_with_errors : list string)
    : list event :=
  [Print banner; Print "Done."; PrintFrame df]
  ++ (if bool_decide (Namespace.results_file args ≠ "")
      then [ToCsv df (Namespace.results_file args)] else [])
  ++ (if bool_decide (models_with_errors ≠ [])
      then [PrintErrors models_with_errors] else []).

End profiler.

Abbreviation row := (list (string * cell)).

End Profiler.

(** ** Concrete frameworks

    Instances of the framework classes on which the definitions above run. *)

(** Python floats as the machine's binary64 numbers. *)
Module Binary64.

(** [float(n)]: the float nearest to [n], ties to even.  Beyond the range
    of floats, where Python raises [OverflowError], it is infinite. *)
Definition of_int (n : Z) : PrimFloat.float :=
  FloatOps.SF2Prim (SpecFloat.binary_normalize FloatOps.prec FloatOps.emax n 0 false).

(** [a / b] on ints ([b] not zero): the float nearest to the quotient, which
    need not be the quotient of the two nearest floats.  The quotient is cut
    after 55 bits or more and its last bit tells whether anything was cut
    off, so that rounding what is kept rounds the quotient itself. *)
Definition truediv (a b : Z) : PrimFloat.float :=
  let negative := xorb (a <? 0) (b <? 0) in
  let n := Z.abs a in
  let d := Z.abs b in
  let shift := Z.max 0 (Z.log2 d - Z.log2 n + 55) in
  let q := (n * 2 ^ shift) / d in
  let sticky := if (n * 2 ^ shift) mod d =? 0 then 0 else 1 in
  let m := 2 * q + sticky in
  FloatOps.SF2Prim
    (SpecFloat.binary_normalize FloatOps.prec FloatOps.emax
       (if negative then - m else m) (- shift - 1) negative).

(** The integer nearest to [num / den], ties to even ([den] positive). *)
Definition nearest (num den : Z) : Z :=
  let q := num / den in
  let r := num mod den in
  if 2 * r <? den then q
  else if den <? 2 * r then q + 1
  else if Z.even q then q else q + 1.

(** [round(x, ndigits)] for [ndigits] from 0 on: the decimal with [ndigits]
    digits nearest to the exact value of [x], ties to even, read back as the
    float nearest to it. *)
Definition round_to (x : PrimFloat.float) (ndigits : Z) : PrimFloat.float :=
  match FloatOps.Prim2SF x with
  | SpecFloat.S754_finite s m e =>
      if 0 <=? e then x
      else
        let k := nearest (Z.pos m * 10 ^ ndigits) (2 ^ (- e)) in
        let v := truediv k (10 ^ ndigits) in
        if s then PrimFloat.opp v else v
  | _ => x
  end.

#[export] Instance floats : PyFloat PrimFloat.float := {|
  float_of_int := of_int;
  fdiv := PrimFloat.div;
  int_truediv := truediv;
  round := round_to;
|}.

(** The float nearest to [n / 100], as a decimal literal with two digits
    denotes it. *)
Definition hundredths (n : Z) : PrimFloat.float := truediv n 100.

End Binary64.

Module Symbolic.

(** Tensors as the expressions that compute them. *)
#[warnings="-register-all"]
Inductive expr :=
  | Given (name : string)
  | Mean (x : expr) (dim : Z)
  | Normalize (x : expr) (dim : Z)
  | Matmul (x y : expr)
  | Exp (x : expr)
  | TokenLogits (text : Tokens) (image_embs : option expr)
  | TextLatent (text : Tokens) (image_embs : option expr)
  | Pooled (image : expr)
  | PatchTokens (image : expr).

#[export] Instance torch : Torch := {|
  Tensor := expr;
  mean := Mean;
  normalize := Normalize;
  matmul := Matmul;
  exp := Exp;
|}.

#[export] Instance towers : Towers := {|
  MultimodalTransformer_forward _ text image_embs :=
    (TokenLogits text image_embs, TextLatent text image_embs);
  VisionTower_forward _ image := (Pooled image, PatchTokens image);
|}.

Definition weight (name : string) : Param :=
  {| data := Given name; requires_grad := true |}.

(** A small model with the contrastive head and one more parameter in each
    tower. *)
Definition model : MaMMUT.Self.t :=
  MaMMUT.Self.mk
    (list_to_map [("ln_final.weight", weight "text.ln_final.weight");
                  ("ln_final.bias", weight "text.ln_final.bias");
                  ("token_embedding.weight", weight "text.token_embedding.weight")])
    (list_to_map [("proj", weight "visual.proj");
                  ("ln_post.weight", weight "visual.ln_post.weight");
                  ("ln_post.bias", weight "visual.ln_post.bias");
                  ("conv1.weight", weight "visual.conv1.weight")])
    77
    (weight "map_viz2txt_kv")
    (weight "logit_scale")
    None
    0
    true
    encode.

Definition world : MaMMUT.World := {| MaMMUT.self := model; MaMMUT.calls := [] |}.

(** The same model with the final norm of the decoder shared: its weight is
    registered a second time in the text tower, as [norm.weight]. *)
Definition tied : MaMMUT.World :=
  {| MaMMUT.self :=
       MaMMUT.Self.mk
         (<["norm.weight" := weight "text.ln_final.weight"]> (MaMMUT.Self.text model))
         (MaMMUT.Self.visual model)
         77
         (weight "map_viz2txt_kv")
         (weight "logit_scale")
         None
         0
         true
         (λ name, if decide (name = "text.norm.weight") then encode "text.ln_final.weight"
                  else encode name);
     MaMMUT.calls := [] |}.

(** A vision tower without a projection. *)
Definition headless : MaMMUT.World :=
  {| MaMMUT.self := MaMMUT.Self.set_visual (delete "proj") model; MaMMUT.calls := [] |}.

(** Two captions of four tokens, the second one padded. *)
Definition captions : Tokens := [[49406; 320; 1929; 49407]; [49406; 7; 49407; 0]].

(** What a generative training step on the captions writes into an empty
    [out], the image tokens being given. *)
Definition generative_out : gmap string MaMMUT.value :=
  match (MaMMUT._forward captions ∅ (Some (Given "tokens")) false true world).2 with
  | inr out => out
  | inl _ => ∅
  end.

(** Config classes that accept any dict, towers with one parameter each. *)
#[export] Instance factory : MaMMUT.Factory (float := PrimFloat.float) (torch := torch) := {|
  MaMMUT.MultimodalCfg d := inr {| MaMMUT.__dict__ := d |};
  MaMMUT.CLIPVisionCfg d := inr {| MaMMUT.__dict__ := d |};
  MaMMUT.config_vocab_size _ := inl (Exn AttributeError "config");
  MaMMUT.MultimodalTransformer _ := inr {["ln_final.weight" := weight "text.ln_final.weight"]};
  MaMMUT._build_vision_tower _ _ _ _ := inr {["proj" := weight "visual.proj"]};
  MaMMUT.randn _ _ := inr (Given "randn" : @Tensor torch);
  MaMMUT.ones_times _ _ := (Given "ones" : @Tensor torch);
|}.

(** A text config, with or without the name of a Hugging Face model. *)
Definition text_config (hf_model_name : MaMMUT.pyval (float := PrimFloat.float))
    : gmap string (MaMMUT.pyval (float := PrimFloat.float)) :=
  list_to_map [("hf_model_name", hf_model_name);
               ("vocab_size", MaMMUT.PInt 49408);
               ("context_length", MaMMUT.PInt 77);
               ("width", MaMMUT.PInt 512);
               ("heads", MaMMUT.PInt 8);
               ("layers", MaMMUT.PInt 12);
               ("ls_init_value", MaMMUT.PNone);
               ("cross_attn_ratio", MaMMUT.PInt 2);
               ("does_full_decoding", MaMMUT.PBool false);
               ("output_tokens", MaMMUT.PBool false);
               ("has_mlp", MaMMUT.PBool true)].

Definition roberta : MaMMUT.pyval (float := PrimFloat.float) := MaMMUT.PStr "roberta-base".

Definition vision_config : gmap string (MaMMUT.pyval (float := PrimFloat.float)) :=
  list_to_map [("width", MaMMUT.PInt 768); ("layers", MaMMUT.PInt 12)].

(** [np.log(1 / 0.07)], to two decimals *)
Definition init_logit_scale : PrimFloat.float := Binary64.hundredths 266.

(** The instance [MaMMUT(512, text_cfg, vision_cfg)] builds from the two
    dicts when the text config names no Hugging Face model. *)
Definition built : MaMMUT.instance (float := PrimFloat.float) :=
  Eval vm_compute in
    (MaMMUT.construct 512 (MaMMUT.IsDict (text_config MaMMUT.PNone))
       (MaMMUT.IsDict vision_config) false None 0 init_logit_scale None false).1.

End Symbolic.

(** A machine on which the profiler runs: binary64 floats, a registry with
    one small model, and counters that answer a fixed number of operations
    per sample, doubled on every later run so that runs can be told apart. *)
Module Machine.
Import Profiler Binary64.

(** Rows of binary64 cells. *)
Abbreviation cells := (list (string * cell (float := PrimFloat.float))).

Definition tensor (id : positive) (shape : list Z) : parameter :=
  {| param_id := id; shape := shape |}.

Definition layer_norm (id : positive) (width : Z) : nn_Module :=
  Build_Module [("weight", tensor id [width]); ("bias", tensor (id + 1) [width])] [].

(** A vision tower, a text tower that shares its embedding matrix with its
    output projection, and a logit scale. *)
Definition tiny : nn_Module :=
  Build_Module
    [("logit_scale", tensor 1 [])]
    [("visual",
       Build_Module
         [("class_embedding", tensor 2 [768]); ("proj", tensor 3 [768; 512])]
         [("ln_post", layer_norm 4 768)]);
     ("text",
       Build_Module
         [("token_embedding", tensor 6 [49408; 512]); ("text_projection", tensor 6 [49408; 512])]
         [("ln_final", layer_norm 8 512)])].

Definition registry (name : string) : exn + Model :=
  if decide (name = "tiny") then
    inr {| root := tiny; on := cpu; param_dtype := float32; training := true;
           use_contrastive := None |}
  else inl (Exn RuntimeError ("Model config for " +:+ name +:+ " not found.")).

Definition per_sample (c : counter) : Z :=
  match c with
  | TorchFlops => 8800000000
  | FvcoreFlops => 4400000000
  | FvcoreActivations => 7300000
  end.

(** Work grows with the batch; a GPU with too little memory gives up when
    [gpu_memory] is false. *)
Definition counting (gpu_memory : bool) (c : counter) (index : nat) (m : Model)
    (image text : input) : exn + Z :=
  if bool_decide (on m = cuda) && negb gpu_memory
  then inl (Exn OutOfMemoryError "CUDA out of memory.")
  else inr (per_sample c * default 0 (head (input_shape image)) * 2 ^ Z.of_nat index).

(** [int(s)] for a string: white space around it is dropped, a sign may come
    first, and the digits may be grouped by single underscores. *)
Definition is_space (c : ascii) : bool :=
  let n := nat_of_ascii c in
  ((9 <=? n) && (n <=? 13) || (n =? 32) || (n =? 133) || (n =? 160))%nat.

Fixpoint lstrip (s : string) : string :=
  match s with
  | String c s' => if is_space c then lstrip s' else s
  | EmptyString => EmptyString
  end.

Fixpoint rstrip (s : string) : string :=
  match s with
  | EmptyString => EmptyString
  | String c s' =>
      match rstrip s' with
      | EmptyString => if is_space c then EmptyString else String c EmptyString
      | rest => String c rest
      end
  end.

Fixpoint digits (s : string) (acc : Z) (after_digit : bool) : option Z :=
  match s with
  | EmptyString => if after_digit then Some acc else None
  | String c s' =>
      if is_digit c then digits s' (10 * acc + (Z.of_nat (nat_of_ascii c) - 48)) true
      else if bool_decide (c = "_"%char) && after_digit then digits s' acc false
      else None
  end.

Definition decimal (s : string) : option Z :=
  match rstrip (lstrip s) with
  | String "-" s' => Z.opp <$> digits s' 0 false
  | String "+" s' => digits s' 0 false
  | s' => digits s' 0 false
  end.

(** Rows are left in the order they came in: enough for a table of one
    row.  Nothing can be written below [/nowhere]. *)
Definition env (with_fvcore with_cuda gpu_memory : bool) : Env (float := PrimFloat.float) := {|
  fvcore := with_fvcore;
  fvcore_nn := with_fvcore;
  cuda_is_available := with_cuda;
  create_model := registry;
  list_models := ["tiny"];
  count := counting gpu_memory;
  flop_count_str _ _ _ := "";
  sorted_by _ rows := rows;
  to_csv _ path :=
    if String.prefix "/nowhere/" path
    then inl (Exn OSError "Cannot save file into a non-existent directory: '/nowhere'")
    else inr tt;
  int := decimal;
|}.

(** A machine on which fvcore is installed and nothing has imported
    [fvcore.nn]. *)
Definition bare_fvcore : Env (float := PrimFloat.float) := {|
  fvcore := true;
  fvcore_nn := false;
  cuda_is_available := false;
  create_model := registry;
  list_models := ["tiny"];
  count := counting true;
  flop_count_str _ _ _ := "";
  sorted_by _ rows := rows;
  to_csv _ _ := inr tt;
  int := decimal;
|}.

(** A laptop: no fvcore, no GPU. *)
Definition laptop : Env (float := PrimFloat.float) := env false false true.

(** A workstation whose GPU is too small for the model. *)
Definition small_gpu : Env (float := PrimFloat.float) := env true true false.

Definition boot : World (float := PrimFloat.float) := {| trace := []; runs := 0 |}.

(** One model profiled with the default profiler, two samples a batch, on
    the laptop. *)
Definition torch_outcome : World (float := PrimFloat.float) * (exn + cells) :=
  Eval vm_compute in
    profile_model (env := laptop) "tiny" 2 "torch" 224 77 false boot.

Definition torch_row : cells :=
  match torch_outcome.2 with inr results => results | inl _ => [] end.

(** The model as [profile_model] prepares it on the workstation, and the
    first pass on it. *)
Definition gpu_model : Model :=
  {| root := tiny; on := cuda; param_dtype := float32; training := false;
     use_contrastive := None |}.

(** A machine with fvcore and no GPU, and a run over an unknown model and
    the known one. *)
Definition desktop : Env (float := PrimFloat.float) := env true false true.

Definition mixed_argv : list string :=
  ["--model"; "nope,tiny"; "--profiler"; "fvcore"; "--results-file"; "out.csv"].

Definition mixed_args : Namespace.t :=
  Namespace.mk "nope,tiny" "out.csv" "fvcore" 1 224 77 false.

Definition mixed_loop
    : World (float := PrimFloat.float) * (exn + (list cells * list string)) :=
  Eval vm_compute in profile_each (env := desktop) ["nope"; "tiny"] mixed_args [] [] boot.

Definition mixed_row : cells :=
  match mixed_loop.2 with inr (r :: _, _) => r | _ => [] end.

Definition mixed_outcome : World (float := PrimFloat.float) * (exn + unit) :=
  Eval vm_compute in main (env := desktop) mixed_argv boot.

(** The laptop has no fvcore: both models fail. *)
Definition failed_argv : list string := ["--model"; "tiny,nope"; "--profiler"; "fvcore"].

Definition failed_args : Namespace.t :=
  Namespace.mk "tiny,nope" "" "fvcore" 1 224 77 false.

Definition failed_loop
    : World (float := PrimFloat.float) * (exn + (list cells * list string)) :=
  Eval vm_compute in profile_each (env := laptop) ["tiny"; "nope"] failed_args [] [] boot.

Definition oom_outcome : World (float := PrimFloat.float) * (exn + (Model * cells)) :=
  Eval vm_compute in
    measure (env := small_gpu) gpu_model (heading "tiny" 224) "torch" [3; 224; 224] [77] 1
      false boot.

(** A model whose towers have no parameter at all. *)
Definition hollow : Model :=
  {| root := Build_Module [] [("visual", Build_Module [] []); ("text", Build_Module [] [])];
     on := cpu; param_dtype := float32; training := false; use_contrastive := None |}.

(** The two example inputs of a batch of four on the CPU. *)
Definition four_images : input :=
  {| input_shape := [4; 3; 224; 224]; input_device := cpu; input_dtype := float32 |}.

Definition four_texts : input :=
  {| input_shape := [4; 77]; input_device := cpu; input_dtype := int64 |}.

End Machine.

(** * Part II: properties *)

(** ** The monad *)

Section monad_facts.
Context {St A B : Type}.

Lemma bind_inr (m : M St A) (k : A → M St B) (s s' : St) (b : B) :
  Py.bind m k s = (s', inr b) →
  ∃ s1 a, m s = (s1, inr a) ∧ k a s1 = (s', inr b).
Proof.
  unfold Py.bind. destruct (m s) as [s1 [e|a]]; [discriminate|]. eauto.
Qed.

Lemma bind_step (m : M St A) (k : A → M St B) (s s1 : St) (a : A) :
  m s = (s1, inr a) → Py.bind m k s = k a s1.
Proof. unfold Py.bind. intros ->. reflexivity. Qed.

Lemma ret_inr (a b : A) (s s' : St) : Py.ret a s = (s', inr b) → s' = s ∧ b = a.
Proof. unfold Py.ret. intros [= -> ->]. auto. Qed.

Lemma lift_inr (r : exn + A) (a : A) (s s' : St) :
  Py.lift r s = (s', inr a) → s' = s ∧ r = inr a.
Proof. destruct r; simpl; unfold Py.raise, Py.ret; intros [= -> ->]; auto. Qed.

Lemma try_except_inr (body : M St A) (catches : exn → bool) (handler : exn → M St A)
    (s s' : St) (a : A) :
  (∀ e s1 s2 a', handler e s1 ≠ (s2, inr a')) →
  Py.try_except body catches handler s = (s', inr a) → body s = (s', inr a).
Proof.
  intros Hh. unfold Py.try_except. destruct (body s) as [s1 [e|a']]; [|done].
  destruct (catches e); [|discriminate]. intros Hr. by apply Hh in Hr.
Qed.

End monad_facts.

(** ** Slices *)

Lemma py_slice_from_1 {A} (l : list A) : py_slice (Some 1) None l = tail l.
Proof.
  unfold py_slice, slice_index; simpl.
  destruct l as [|x l]; [reflexivity|].
  rewrite Z.min_l by (simpl length; lia).
  replace (Z.to_nat (Z.of_nat (length (x :: l)) - 1)) with (length l)
    by (simpl length; lia).
  simpl. apply firstn_all.
Qed.

Lemma py_slice_to_minus_1 {A} (l : list A) :
  py_slice None (Some (-1)) l = removelast l.
Proof.
  unfold py_slice, slice_index; simpl.
  rewrite removelast_firstn_len, Z.sub_0_r.
  f_equal. destruct l; simpl length; lia.
Qed.

Lemma slice_columns_from_1 (text : Tokens) :
  slice_columns (Some 1) None text = tail <$> text.
Proof.
  unfold slice_columns. apply list_fmap_ext. intros _ row _. apply py_slice_from_1.
Qed.

Lemma slice_columns_to_minus_1 (text : Tokens) :
  slice_columns None (Some (-1)) text = @removelast Z <$> text.
Proof.
  unfold slice_columns. apply list_fmap_ext. intros _ row _.
  apply py_slice_to_minus_1.
Qed.

(** Labels and decoder inputs keep the batch and lose one column. *)
Lemma shifted_lengths (text : Tokens) :
  length <$> slice_columns (Some 1) None text = (λ row, pred (length row)) <$> text
  ∧ length <$> slice_columns None (Some (-1)) text = (λ row, pred (length row)) <$> text.
Proof.
  rewrite slice_columns_from_1, slice_columns_to_minus_1, <- !list_fmap_compose.
  split; apply list_fmap_ext; intros _ row _; simpl.
  - by destruct row.
  - rewrite removelast_firstn_len, length_take. lia.
Qed.

Example slice_labels :
  slice_columns (Some 1) None Symbolic.captions = [[320; 1929; 49407]; [7; 49407; 0]].
Proof. reflexivity. Qed.

Example slice_inputs :
  slice_columns None (Some (-1)) Symbolic.captions = [[49406; 320; 1929]; [49406; 7; 49407]].
Proof. reflexivity. Qed.

Example slice_clamps : py_slice (Some (-2)) (Some 10) [1; 2; 3] = [2; 3].
Proof. reflexivity. Qed.

(** ** Dicts *)

Section dict_facts.
Context {V : Type}.

Lemma get_set_eq (k : string) (v : V) (d : list (string * V)) :
  Dict.get k (Dict.set k v d) = Some v.
Proof.
  induction d as [|[k' v'] d IH]; simpl.
  - by rewrite decide_True.
  - destruct (decide (k = k')) as [->|Hne]; simpl.
    + by rewrite decide_True.
    + by rewrite decide_False.
Qed.

Lemma get_set_ne (k k' : string) (v : V) (d : list (string * V)) :
  k ≠ k' → Dict.get k (Dict.set k' v d) = Dict.get k d.
Proof.
  intros Hne. induction d as [|[k0 v0] d IH]; simpl.
  - by rewrite decide_False.
  - destruct (decide (k' = k0)) as [->|Hne0]; simpl.
    + by rewrite !decide_False.
    + destruct (decide (k = k0)); [done|exact IH].
Qed.

Lemma keys_set_in (k : string) (v : V) (d : list (string * V)) :
  k ∈ Dict.keys (Dict.set k v d).
Proof.
  unfold Dict.keys. induction d as [|[k' v'] d IH]; simpl.
  - apply list_elem_of_here.
  - destruct (decide (k = k')); simpl;
      [apply list_elem_of_here | by apply list_elem_of_further].
Qed.

Lemma keys_set_mono (k k' : string) (v : V) (d : list (string * V)) :
  k' ∈ Dict.keys d → k' ∈ Dict.keys (Dict.set k v d).
Proof.
  unfold Dict.keys. induction d as [|[k0 v0] d IH]; simpl.
  - by intros ?%elem_of_nil.
  - intros Hin. destruct (decide (k = k0)) as [->|Hne]; simpl; [exact Hin|].
    apply elem_of_cons in Hin as [->|Hin];
      [apply list_elem_of_here | by apply list_elem_of_further, IH].
Qed.

End dict_facts.

(** ** [MaMMUT]: encoders and forward pass *)

Section mammut_properties.
Context {torch : Torch} {towers : Towers}.
Import MaMMUT.

(** C1. [encode_text] with [output_logits=False] calls the decoder once on
    its arguments and returns the decoder's text latent averaged over the
    token dimension (dimension 1); with [normalize=True] the average is
    L2-normalized along the last dimension, with [normalize=False] it is
    returned as it is.  The model itself is left unchanged. *)
Theorem encode_text_pooled_latent (text : Tokens) (image_embs : option Tensor) (w : World) :
  let text_latent := (MultimodalTransformer_forward (Self.text (self w)) text image_embs).2 in
  encode_text text image_embs true false w =
    (after_call w (CallText text image_embs), inr (normalize (mean text_latent 1) (-1)))
  ∧ encode_text text image_embs false false w =
    (after_call w (CallText text image_embs), inr (mean text_latent 1)).
Proof. split; reflexivity. Qed.

(** With [output_logits=True] the token logits are returned as the decoder
    gave them. *)
Lemma encode_text_logits (text : Tokens) (image_embs : option Tensor) (b : bool) (w : World) :
  encode_text text image_embs b true w =
    (after_call w (CallText text image_embs),
     inr (MultimodalTransformer_forward (Self.text (self w)) text image_embs).1).
Proof. reflexivity. Qed.

(** C5. [encode_image] calls the vision tower once on the image and returns
    its pooled output, L2-normalized along the last dimension when
    [normalize=True] and as it is when [normalize=False]. *)
Theorem encode_image_pooled (image : Tensor) (w : World) :
  let pooled := (VisionTower_forward (Self.visual (self w)) image).1 in
  encode_image image true w =
    (after_call w (CallVisual image), inr (normalize pooled (-1)))
  ∧ encode_image image false w =
    (after_call w (CallVisual image), inr pooled).
Proof. split; reflexivity. Qed.

Lemma _forward_generative_eq (text : Tokens) (out : gmap string value)
    (image_embs : option Tensor) (is_training : bool) (w : World) :
  let decoder_input := if is_training then @removelast Z <$> text else text in
  _forward text out image_embs false is_training w =
    (after_call w (CallText decoder_input (mapped w image_embs)),
     inr (<["logits" := VTensor (MultimodalTransformer_forward (Self.text (self w))
                                   decoder_input (mapped w image_embs)).1]>
            (<["labels" := VTokens (tail <$> text)]> out))).
Proof.
  unfold _forward. cbv zeta.
  rewrite slice_columns_from_1, slice_columns_to_minus_1.
  destruct image_embs, is_training; reflexivity.
Qed.

Lemma _forward_contrastive_eq (text : Tokens) (out : gmap string value)
    (image_embs : option Tensor) (is_training : bool) (w : World) :
  _forward text out image_embs true is_training w =
    (after_call w (CallText text None),
     inr (<["text_features" :=
              VTensor (normalize (mean (MultimodalTransformer_forward
                                          (Self.text (self w)) text None).2 1) (-1))]> out)).
Proof. reflexivity. Qed.

(** C3. In the generative branch ([contrastive=False]) of [_forward],
    [out["labels"]] is [text[:, 1:]], the text with the first token of every
    row dropped; the decoder is called once, on [text[:, :-1]], the text with
    the last token of every row dropped, when [is_training] is true and on
    the whole text otherwise, and its token logits become [out["logits"]]. *)
Theorem _forward_generative_shift (text : Tokens) (out : gmap string value)
    (image_embs : option Tensor) (is_training : bool) (w : World) :
  let decoder_input := if is_training then @removelast Z <$> text else text in
  ∃ out',
    _forward text out image_embs false is_training w =
      (after_call w (CallText decoder_input (mapped w image_embs)), inr out')
    ∧ out' !! "labels" = Some (VTokens (tail <$> text))
    ∧ out' !! "logits" =
        Some (VTensor (MultimodalTransformer_forward (Self.text (self w))
                         decoder_input (mapped w image_embs)).1)
    ∧ slice_columns (Some 1) None text = tail <$> text
    ∧ slice_columns None (Some (-1)) text = @removelast Z <$> text.
Proof.
  cbv zeta. eexists. split; [apply _forward_generative_eq|].
  split; [|split; [|split]].
  - rewrite lookup_insert_ne by discriminate. apply lookup_insert_eq.
  - apply lookup_insert_eq.
  - apply slice_columns_from_1.
  - apply slice_columns_to_minus_1.
Qed.

(** *** [_use_contrastive] *)

(** A parameter after a flag is assigned to an object: the flag changes
    under the names of that object and nowhere else. *)
Lemma parameter_of_assign (target : positive) (b : bool) (s : Self.t) (p : pname) :
  parameter_of (assign_requires_grad target b s) p
  = (λ a, if decide (Self.ident s (dotted p) = target) then set_requires_grad b a else a)
      <$> parameter_of s p.
Proof.
  destruct p as [path|path| | |]; simpl.
  - rewrite map_lookup_imap. by destruct (Self.text s !! path).
  - rewrite map_lookup_imap. by destruct (Self.visual s !! path).
  - reflexivity.
  - reflexivity.
  - reflexivity.
Qed.

Lemma text_set_requires_grad_ok (path : string) (b : bool) (w : World) :
  is_Some (Self.text (self w) !! path) →
  text_set_requires_grad path b w =
    ({| self := assign_requires_grad (Self.ident (self w) (dotted (InText path))) b (self w);
        calls := calls w |}, inr tt).
Proof.
  intros [p Hp]. unfold text_set_requires_grad, Py.bind, Py.get. rewrite Hp. reflexivity.
Qed.

Lemma visual_set_requires_grad_ok (path : string) (b : bool) (w : World) :
  is_Some (Self.visual (self w) !! path) →
  visual_set_requires_grad path b w =
    ({| self := assign_requires_grad (Self.ident (self w) (dotted (InVisual path))) b (self w);
        calls := calls w |}, inr tt).
Proof.
  intros [p Hp]. unfold visual_set_requires_grad, Py.bind, Py.get. rewrite Hp. reflexivity.
Qed.

Lemma text_set_requires_grad_none (path : string) (b : bool) (w : World) :
  Self.text (self w) !! path = None →
  text_set_requires_grad path b w = (w, inl (Exn AttributeError ("text." +:+ path))).
Proof. intros Hp. unfold text_set_requires_grad, Py.bind, Py.get. rewrite Hp. reflexivity. Qed.

Lemma visual_set_requires_grad_none (path : string) (b : bool) (w : World) :
  Self.visual (self w) !! path = None →
  visual_set_requires_grad path b w = (w, inl (Exn AttributeError ("visual." +:+ path))).
Proof. intros Hp. unfold visual_set_requires_grad, Py.bind, Py.get. rewrite Hp. reflexivity. Qed.

(** Assigning a flag neither adds nor removes a parameter. *)
Lemma assign_is_Some (target : positive) (b : bool) (s : Self.t) (p : pname) :
  is_Some (parameter_of (assign_requires_grad target b s) p) ↔ is_Some (parameter_of s p).
Proof. rewrite parameter_of_assign. apply fmap_is_Some. Qed.

Lemma assign_None (target : positive) (b : bool) (s : Self.t) (p : pname) :
  parameter_of (assign_requires_grad target b s) p = None ↔ parameter_of s p = None.
Proof. rewrite parameter_of_assign. apply fmap_None. Qed.

Lemma freeze_cons (p : pname) (ps : list pname) (s : Self.t) :
  freeze (p :: ps) s = freeze ps (assign_requires_grad (Self.ident s (dotted p)) false s).
Proof. reflexivity. Qed.

Lemma freeze_fields (ps : list pname) (s : Self.t) :
  Self.ident (freeze ps s) = Self.ident s
  ∧ Self.use_contrastive (freeze ps s) = Self.use_contrastive s
  ∧ Self.context_length (freeze ps s) = Self.context_length s
  ∧ Self.pad_id (freeze ps s) = Self.pad_id s.
Proof.
  revert s. induction ps as [|p ps IH]; intros s; [done|].
  rewrite freeze_cons. destruct (IH (assign_requires_grad (Self.ident s (dotted p)) false s))
    as (-> & -> & -> & ->). done.
Qed.

(** A parameter of the frozen model: the value it had, and the flag it had
    unless its object is one of those frozen. *)
Lemma parameter_of_freeze (ps : list pname) (s : Self.t) (q : pname) :
  parameter_of (freeze ps s) q
  = (λ a, {| data := data a;
             requires_grad :=
               if bool_decide (Self.ident s (dotted q)
                                 ∈ (λ p, Self.ident s (dotted p)) <$> ps)
               then false else requires_grad a |})
      <$> parameter_of s q.
Proof.
  revert s. induction ps as [|p ps IH]; intros s.
  - simpl. by destruct (parameter_of s q) as [[]|].
  - rewrite freeze_cons, IH, parameter_of_assign.
    change (Self.ident (assign_requires_grad _ _ s)) with (Self.ident s).
    rewrite fmap_cons.
    destruct (parameter_of s q) as [a|]; [|reflexivity].
    cbn [fmap option_fmap option_map]. f_equal.
    set (here := Self.ident s (dotted q)).
    set (rest := (λ p0, Self.ident s (dotted p0)) <$> ps).
    destruct (decide (here = Self.ident s (dotted p))) as [Heq|Hne].
    + rewrite (bool_decide_eq_true_2 (here ∈ _ :: rest))
        by (rewrite <- Heq; apply list_elem_of_here).
      simpl. by case_bool_decide.
    + case_bool_decide as Hin.
      * by rewrite bool_decide_eq_true_2 by by apply list_elem_of_further.
      * rewrite bool_decide_eq_false_2; [by destruct a|].
        intros [?|?]%elem_of_cons; contradiction.
Qed.

Lemma freeze_is_Some (ps : list pname) (s : Self.t) (q : pname) :
  is_Some (parameter_of (freeze ps s) q) ↔ is_Some (parameter_of s q).
Proof. rewrite parameter_of_freeze. apply fmap_is_Some. Qed.

(** Two models with the same parameters and the same plain attributes are
    the same model. *)
Lemma self_eq (s1 s2 : Self.t) :
  (∀ p, parameter_of s1 p = parameter_of s2 p) →
  Self.context_length s1 = Self.context_length s2 →
  Self.pad_id s1 = Self.pad_id s2 →
  Self.use_contrastive s1 = Self.use_contrastive s2 →
  Self.ident s1 = Self.ident s2 →
  s1 = s2.
Proof.
  intros Hp Hc Hpad Hu Hi. destruct s1, s2; simpl in *. subst.
  pose proof (Hp MapViz2TxtKv) as [= ->]. pose proof (Hp LogitScale) as [= ->].
  pose proof (Hp LogitBias) as Hb. simpl in Hb. subst.
  f_equal; apply map_eq; intros k.
  - exact (Hp (InText k)).
  - exact (Hp (InVisual k)).
Qed.

Lemma head_order_head {A} (f : pname → A) (x : A) :
  x ∈ f <$> head_order ↔ x ∈ f <$> contrastive_head.
Proof.
  unfold head_order, contrastive_head. rewrite !fmap_cons, !elem_of_cons. tauto.
Qed.

(** The run of [_use_contrastive(False)] on a model that has the parameters
    of the contrastive head. *)
Lemma _use_contrastive_false_run (w : World) :
  Forall (λ p, is_Some (parameter_of (self w) p)) contrastive_head →
  _use_contrastive false w
  = ({| self := freeze head_order (Self.set_use_contrastive false (self w));
        calls := calls w |}, inr tt).
Proof.
  intros Hhead.
  assert (Hin : ∀ p, bool_decide (p ∈ contrastive_head) = true →
                     is_Some (parameter_of (Self.set_use_contrastive false (self w)) p)).
  { intros p Hp. pose proof (proj1 (Forall_forall _ _) Hhead p (bool_decide_eq_true_1 _ Hp)).
    by destruct p. }
  set (s0 := Self.set_use_contrastive false (self w)) in *.
  unfold _use_contrastive. simpl negb. cbv iota.
  unfold Py.bind at 1. unfold on_self at 1, Py.modify at 1. fold s0.
  unfold head_order. rewrite !freeze_cons.
  unfold Py.bind at 1. rewrite text_set_requires_grad_ok by exact (Hin (InText "ln_final.bias") eq_refl).
  cbn [self calls].
  set (s1 := assign_requires_grad _ false s0).
  unfold Py.bind at 1. rewrite text_set_requires_grad_ok
    by (apply (assign_is_Some _ _ _ (InText "ln_final.weight")); exact (Hin (InText "ln_final.weight") eq_refl)).
  cbn [self calls].
  set (s2 := assign_requires_grad _ false s1).
  unfold Py.bind at 1. rewrite visual_set_requires_grad_ok
    by (apply (assign_is_Some _ _ _ (InVisual "proj")), (assign_is_Some _ _ _ (InVisual "proj"));
        exact (Hin (InVisual "proj") eq_refl)).
  cbn [self calls].
  set (s3 := assign_requires_grad _ false s2).
  unfold Py.bind at 1. rewrite visual_set_requires_grad_ok
    by (do 3 apply (assign_is_Some _ _ _ (InVisual "ln_post.bias"));
        exact (Hin (InVisual "ln_post.bias") eq_refl)).
  cbn [self calls].
  set (s4 := assign_requires_grad _ false s3).
  unfold Py.bind at 1. rewrite visual_set_requires_grad_ok
    by (do 4 apply (assign_is_Some _ _ _ (InVisual "ln_post.weight"));
        exact (Hin (InVisual "ln_post.weight") eq_refl)).
  reflexivity.
Qed.

Lemma in_contrastive_head (p : pname) :
  bool_decide (p ∈ contrastive_head) = true → p ∈ contrastive_head.
Proof. apply bool_decide_eq_true_1. Qed.

Lemma parameter_of_set_use_contrastive (b : bool) (s : Self.t) (p : pname) :
  parameter_of (Self.set_use_contrastive b s) p = parameter_of s p.
Proof. by destruct p. Qed.

(** C4. On a model that has the six parameters of the contrastive head,
    [_use_contrastive(False)] returns normally and sets [use_contrastive] to
    false.  Afterwards [requires_grad] is false on the six parameters
    [text.ln_final.weight], [text.ln_final.bias], [visual.proj],
    [visual.ln_post.weight], [visual.ln_post.bias] and [logit_scale]; the
    flag of any other parameter is what it was, unless the parameter is one
    of those six objects under another name, in which case it is false as
    well; the value of every parameter is as before, and no parameter is
    added or removed.  [_use_contrastive(True)] sets [use_contrastive] to
    true and leaves every parameter, flag and value, as it was. *)
Theorem _use_contrastive_frame (w : World) :
  Forall (λ p, is_Some (parameter_of (self w) p)) contrastive_head →
  let object p := Self.ident (self w) (dotted p) in
  let in_head p := bool_decide (object p ∈ object <$> contrastive_head) in
  (∃ s', _use_contrastive false w = ({| self := s'; calls := calls w |}, inr tt)
     ∧ Self.use_contrastive s' = false
     ∧ (∀ p, p ∈ contrastive_head → requires_grad <$> parameter_of s' p = Some false)
     ∧ (∀ p, requires_grad <$> parameter_of s' p
             = (λ a, if in_head p then false else requires_grad a)
                 <$> parameter_of (self w) p)
     ∧ (∀ p, data <$> parameter_of s' p = data <$> parameter_of (self w) p)
     ∧ Self.ident s' = Self.ident (self w))
  ∧ (∃ s', _use_contrastive true w = ({| self := s'; calls := calls w |}, inr tt)
     ∧ Self.use_contrastive s' = true
     ∧ ∀ p, parameter_of s' p = parameter_of (self w) p).
Proof.
  intros Hhead object in_head. split.
  - eexists. split; [exact (_use_contrastive_false_run w Hhead)|].
    assert (Hflag : ∀ p, requires_grad <$> parameter_of
                           (freeze head_order (Self.set_use_contrastive false (self w))) p
                         = (λ a, if in_head p then false else requires_grad a)
                             <$> parameter_of (self w) p).
    { intros p. rewrite parameter_of_freeze, parameter_of_set_use_contrastive.
      destruct (parameter_of (self w) p) as [a|]; [|reflexivity].
      cbn [fmap option_fmap option_map requires_grad]. f_equal.
      unfold in_head, object.
      change (Self.ident (Self.set_use_contrastive false (self w))) with (Self.ident (self w)).
      by rewrite (bool_decide_ext _ _ (head_order_head _ _)). }
    destruct (freeze_fields head_order (Self.set_use_contrastive false (self w)))
      as (Hident & Hused & _ & _).
    split; [exact Hused|]. split; [|split; [exact Hflag|split]].
    + intros p Hp. rewrite Hflag.
      destruct (proj1 (Forall_forall _ _) Hhead p Hp) as [a ->].
      cbn [fmap option_fmap option_map]. f_equal.
      unfold in_head. rewrite bool_decide_eq_true_2; [reflexivity|].
      by apply list_elem_of_fmap_2.
    + intros p. rewrite parameter_of_freeze, parameter_of_set_use_contrastive.
      by destruct (parameter_of (self w) p).
    + exact Hident.
  - eexists. split; [reflexivity|]. split; [reflexivity|].
    intros p. apply parameter_of_set_use_contrastive.
Qed.

(** *** [forward] *)

(** C8. [forward] returns a dict and leaves the model as it was.  The dict
    always holds [logit_scale], the exponential of the model's [logit_scale]
    parameter.  Without a text its keys are exactly [logit_scale] and
    [image_features].  With a text its keys are those two and
    [text_features], [labels] and [logits]; [labels] is a token tensor,
    [logits] a tensor, and [text_features] is a tensor when [is_training] and
    [use_contrastive] are both true and [None] otherwise. *)
Theorem forward_outputs (image : option Tensor) (text : option Tokens)
    (image_latent image_embs : option Tensor) (is_training : bool) (w : World) :
  ∃ w' out,
    forward image text image_latent image_embs is_training w = (w', inr out)
    ∧ self w' = self w
    ∧ out !! "logit_scale" = Some (VTensor (exp (data (Self.logit_scale (self w)))))
    ∧ match text with
      | None => dom out = {["logit_scale"; "image_features"]}
      | Some _ =>
          dom out = {["logit_scale"; "image_features"; "text_features"; "labels"; "logits"]}
          ∧ is_tokens (out !! "labels") = true
          ∧ is_tensor (out !! "logits") = true
          ∧ (if is_training && Self.use_contrastive (self w)
             then is_tensor (out !! "text_features") = true
             else out !! "text_features" = Some VNone)
      end.
Proof.
  unfold forward, Py.bind at 1, Py.get at 1.
  set (out0 := ({["logit_scale" := VTensor (exp (data (Self.logit_scale (self w))))]}
                  : gmap string value)).
  assert (Henc : ∃ w1 latent embs, self w1 = self w ∧
     (match image with
      | Some image0 =>
          if bool_decide (image_latent = None ∨ image_embs = None)
          then Py.bind (_encode_image image0 true) (λ r, Py.ret (Some r.1, Some r.2))
          else Py.ret (image_latent, image_embs)
      | None => Py.ret (image_latent, image_embs)
      end) w = (w1, inr (latent, embs))).
  { destruct image as [x|]; [|by exists w, image_latent, image_embs].
    case_bool_decide; [|by exists w, image_latent, image_embs].
    eexists _, _, _. split; [|reflexivity]. reflexivity. }
  destruct Henc as (w1 & latent & embs & Hself & Henc).
  unfold Py.bind at 1. rewrite Henc. cbv zeta. simpl fst. simpl snd.
  destruct text as [t|].
  - unfold Py.bind at 1, Py.get at 1. rewrite Hself.
    destruct (is_training && Self.use_contrastive (self w)) eqn:Hc.
    + unfold Py.bind at 1. rewrite _forward_contrastive_eq.
      rewrite _forward_generative_eq. cbv zeta.
      eexists _, _. split; [reflexivity|].
      split; [exact Hself|].
      split; [by simplify_map_eq|].
      split; [subst out0; rewrite !dom_insert_L, dom_singleton_L; set_solver|].
      split; [by simplify_map_eq|].
      split; by simplify_map_eq.
    + unfold Py.bind at 1, Py.ret at 1.
      rewrite _forward_generative_eq. cbv zeta.
      eexists _, _. split; [reflexivity|].
      split; [exact Hself|].
      split; [by simplify_map_eq|].
      split; [subst out0; rewrite !dom_insert_L, dom_singleton_L; set_solver|].
      split; [by simplify_map_eq|].
      split; by simplify_map_eq.
  - eexists _, _. split; [reflexivity|].
    split; [exact Hself|].
    split; [by simplify_map_eq|].
    subst out0. rewrite !dom_insert_L, dom_singleton_L. set_solver.
Qed.

End mammut_properties.

(** *** On the symbolic framework *)

Section mammut_examples.
Import MaMMUT Symbolic.

Example encode_text_runs :
  (encode_text captions None true false world).2
  = inr (Normalize (Mean (TextLatent captions None) 1) (-1)).
Proof. reflexivity. Qed.

Example encode_image_runs :
  (encode_image (Given "image") true world).2 = inr (Normalize (Pooled (Given "image")) (-1)).
Proof. reflexivity. Qed.

(** A training step: one contrastive call on the whole text, then one
    generative call on the text without its last column, cross-attending to
    the mapped image tokens. *)
Example forward_training_calls :
  calls (forward (Some (Given "image")) (Some captions) None None true world).1
  = [CallVisual (Given "image");
     CallText captions None;
     CallText [[49406; 320; 1929]; [49406; 7; 49407]]
       (Some (Matmul (PatchTokens (Given "image")) (Given "map_viz2txt_kv")))].
Proof. reflexivity. Qed.

Example forward_training_labels :
  match (forward (Some (Given "image")) (Some captions) None None true world).2 with
  | inr out => out !! "labels"
  | inl _ => None
  end = Some (VTokens [[320; 1929; 49407]; [7; 49407; 0]]).
Proof. vm_compute. reflexivity. Qed.

(** At inference the decoder sees the whole text. *)
Example forward_inference_calls :
  calls (forward (Some (Given "image")) (Some captions) None None false world).1
  = [CallVisual (Given "image");
     CallText captions
       (Some (Matmul (PatchTokens (Given "image")) (Given "map_viz2txt_kv")))].
Proof. reflexivity. Qed.

Lemma contrastive_head_present :
  Forall (λ p, is_Some (parameter_of model p)) contrastive_head.
Proof. repeat constructor; eexists; vm_compute; reflexivity. Qed.

Lemma _use_contrastive_frame_witness :
  Forall (λ p, is_Some (parameter_of (self world) p)) contrastive_head
  ∧ (let object p := Self.ident model (dotted p) in
     let in_head p := bool_decide (object p ∈ object <$> contrastive_head) in
     ∃ s', _use_contrastive false world = ({| self := s'; calls := [] |}, inr tt)
       ∧ Self.use_contrastive s' = false
       ∧ (∀ p, p ∈ contrastive_head → requires_grad <$> parameter_of s' p = Some false)
       ∧ (∀ p, requires_grad <$> parameter_of s' p
               = (λ a, if in_head p then false else requires_grad a)
                   <$> parameter_of model p)
       ∧ (∀ p, data <$> parameter_of s' p = data <$> parameter_of model p)
       ∧ Self.ident s' = Self.ident model).
Proof.
  split; [exact contrastive_head_present|].
  exact (proj1 (_use_contrastive_frame world contrastive_head_present)).
Defined.

(** The nine parameters of the symbolic model, as [named_parameters()]
    lists them. *)
Example _use_contrastive_flags :
  let names := [InText "ln_final.weight"; InText "ln_final.bias";
                InText "token_embedding.weight"; InVisual "proj";
                InVisual "ln_post.weight"; InVisual "ln_post.bias";
                InVisual "conv1.weight"; MapViz2TxtKv; LogitScale] in
  (λ p, requires_grad <$> parameter_of model p) <$> names
  = [Some true; Some true; Some true; Some true; Some true; Some true; Some true;
     Some true; Some true]
  ∧ (λ p, requires_grad <$> parameter_of (self (_use_contrastive false world).1) p) <$> names
    = [Some false; Some false; Some true; Some false; Some false; Some false; Some true;
       Some true; Some false]
  ∧ (λ p, data <$> parameter_of (self (_use_contrastive false world).1) p) <$> names
    = (λ p, data <$> parameter_of model p) <$> names.
Proof. cbv zeta. repeat split; vm_compute; reflexivity. Qed.

(** A weight registered under two names is frozen under both: the final
    norm's weight, which the method reaches as [ln_final.weight], comes out
    frozen as [norm.weight] too; the embedding, which is no part of the
    head, keeps its flag. *)
Example _use_contrastive_tied :
  (_use_contrastive false tied).2 = inr tt
  ∧ (λ p, requires_grad <$> parameter_of (self (_use_contrastive false tied).1) p)
      <$> [InText "ln_final.weight"; InText "norm.weight"; InText "token_embedding.weight"]
    = [Some false; Some false; Some true].
Proof. split; vm_compute; reflexivity. Qed.

Example _use_contrastive_named :
  dotted <$> contrastive_head
  = ["text.ln_final.weight"; "text.ln_final.bias"; "visual.proj";
     "visual.ln_post.weight"; "visual.ln_post.bias"; "logit_scale"].
Proof. reflexivity. Qed.

(** On a vision tower without [proj] the method stops with
    [AttributeError] half way: the two text flags are cleared already, the
    rest is untouched. *)
Example _use_contrastive_headless :
  (_use_contrastive false headless).2 = inl (Exn AttributeError "visual.proj")
  ∧ (λ p, requires_grad <$> parameter_of (self (_use_contrastive false headless).1) p)
      <$> [InText "ln_final.weight"; InVisual "ln_post.weight"; LogitScale]
    = [Some false; Some true; Some true].
Proof. split; vm_compute; reflexivity. Qed.

End mammut_examples.

(** ** [MaMMUT.__init__] *)

Section constructor_properties.
Context {float : Type} {torch : Torch} {factory : MaMMUT.Factory (float := float)}.
Import MaMMUT.

(** C9. When the text config (given as a config object, or as a dict the
    config class accepts) has an [hf_model_name] that is not [None], and the
    vision config is accepted as well, constructing the model raises
    [AttributeError]: [__init__] reads [self.text] for its vocabulary size
    before any attribute has been set, and nothing is built. *)
Theorem construct_hf_raises (embed_dim : Z) (text_cfg vision_cfg : cfg_arg)
    (quick_gelu : bool) (cast_dtype : option dtype) (pad_id : Z)
    (init_logit_scale : float) (init_logit_bias : option float)
    (nonscalar_logit_scale : bool) (multimodal_cfg vision : Cfg) (name : pyval) :
  as_config MultimodalCfg text_cfg = inr multimodal_cfg →
  as_config CLIPVisionCfg vision_cfg = inr vision →
  __dict__ multimodal_cfg !! "hf_model_name" = Some name →
  is_None name = false →
  construct embed_dim text_cfg vision_cfg quick_gelu cast_dtype pad_id
    init_logit_scale init_logit_bias nonscalar_logit_scale
  = (fresh, inl (Exn AttributeError "text")).
Proof.
  intros Htext Hvision Hname Hnone.
  unfold construct, __init__.
  unfold Py.bind at 1. unfold super_init at 1, Py.modify at 1.
  unfold Py.bind at 1. rewrite Htext. unfold Py.lift at 1, Py.ret at 1.
  unfold Py.bind at 1. rewrite Hvision. unfold Py.lift at 1, Py.ret at 1.
  unfold Py.bind at 1. rewrite Hname.
  change (default PNone (Some name)) with name. rewrite Hnone. reflexivity.
Qed.

(** A config class that refuses the dict is what the caller sees instead:
    the conversion comes first. *)
Lemma construct_bad_config (embed_dim : Z) (text_cfg vision_cfg : cfg_arg)
    (quick_gelu : bool) (cast_dtype : option dtype) (pad_id : Z)
    (init_logit_scale : float) (init_logit_bias : option float)
    (nonscalar_logit_scale : bool) (e : exn) :
  as_config MultimodalCfg text_cfg = inl e →
  construct embed_dim text_cfg vision_cfg quick_gelu cast_dtype pad_id
    init_logit_scale init_logit_bias nonscalar_logit_scale
  = (fresh, inl e).
Proof.
  intros Htext. unfold construct, __init__.
  unfold Py.bind at 1. unfold super_init at 1, Py.modify at 1.
  unfold Py.bind at 1. rewrite Htext. reflexivity.
Qed.

End constructor_properties.

Section constructor_examples.
Import MaMMUT Symbolic Binary64.

Lemma construct_hf_raises_witness :
  as_config MultimodalCfg (IsDict (text_config roberta)) = inr {| __dict__ := text_config roberta |}
  ∧ as_config CLIPVisionCfg (IsDict vision_config) = inr {| __dict__ := vision_config |}
  ∧ text_config roberta !! "hf_model_name" = Some roberta
  ∧ is_None roberta = false
  ∧ construct 512 (IsDict (text_config roberta)) (IsDict vision_config)
      false None 0 init_logit_scale None false
    = (fresh, inl (Exn AttributeError "text")).
Proof.
  assert (Hname : text_config roberta !! "hf_model_name" = Some roberta)
    by (vm_compute; reflexivity).
  split; [reflexivity|]. split; [reflexivity|]. split; [exact Hname|].
  split; [reflexivity|].
  exact (construct_hf_raises 512 (IsDict (text_config roberta))
           (IsDict vision_config) false None 0 init_logit_scale None false
           {| __dict__ := text_config roberta |}
           {| __dict__ := vision_config |} roberta
           eq_refl eq_refl Hname eq_refl).
Defined.

(** Without a Hugging Face name the same call builds the model: two towers,
    two parameters, four plain attributes. *)
Example construct_plain :
  let built := construct 512 (IsDict (text_config PNone)) (IsDict vision_config)
                 false None 0 init_logit_scale None false in
  built.2 = inr tt
  ∧ elements (dom (_modules built.1)) = ["visual"; "text"]
  ∧ elements (dom (_parameters built.1)) = ["map_viz2txt_kv"; "logit_scale"]
  ∧ map_to_list (attributes built.1)
    = [("context_length", PInt 77); ("use_contrastive", PBool true);
       ("logit_bias", PNone); ("pad_id", PInt 0)].
Proof.
  cbv zeta. split; [reflexivity|].
  split; [vm_compute; reflexivity|]. split; vm_compute; reflexivity.
Qed.

End constructor_examples.

(** ** The profiler: one model *)

Section profiler_properties.
Context {float : Type} {floats : PyFloat float} {env : Profiler.Env (float := float)}.
Import Profiler.

#[local] Abbreviation World := (World (float := float)).
#[local] Abbreviation event := (event (float := float)).
#[local] Abbreviation DataFrame := (DataFrame (float := float)).
#[local] Abbreviation row := (list (string * cell (float := float))).

Lemma later_later (w : World) (es1 es2 : list event) (n1 n2 : nat) :
  later (later w es1 n1) es2 n2 = later w (es1 ++ es2) (n2 + n1).
Proof. unfold later; simpl. f_equal; [by rewrite app_assoc | lia]. Qed.

Lemma later_nothing (w : World) : later w [] 0 = w.
Proof. destruct w. unfold later; simpl. f_equal. apply app_nil_r. Qed.

Lemma emit_run (ev : event) (w : World) : emit ev w = (later w [ev] 0, inr tt).
Proof. reflexivity. Qed.

Lemma place_run (force_cpu : bool) (model : Model) (w : World) :
  (if force_cpu then to cpu model else Py.ret model) w
  = (later w (placing force_cpu) 0, inr (placed force_cpu model)).
Proof.
  destruct force_cpu; simpl.
  - reflexivity.
  - by rewrite later_nothing.
Qed.

Lemma next_parameter_inr (m : Model) (w w' : World) (d : device) (t : dtype) :
  next_parameter m w = (w', inr (d, t)) → w' = w ∧ d = on m ∧ t = param_dtype m.
Proof.
  unfold next_parameter. destruct (parameters (root m)); [discriminate|].
  unfold Py.ret. by intros [= -> -> ->].
Qed.

Lemma ones_inr (shape : list Z) (d : device) (t : dtype) (x : input) :
  ones shape d t = inr x →
  x = {| input_shape := shape; input_device := d; input_dtype := t |}.
Proof. unfold ones. case_match; [|discriminate]. by intros [= <-]. Qed.

Lemma run_counter_inr (c : counter) (m : Model) (image text : input) (w w' : World) (n : Z) :
  run_counter c m image text w = (w', inr n) →
  count c (runs w) m image text = inr n
  ∧ w' = later w [Count c (runs w) image text] 1.
Proof.
  unfold run_counter, Py.bind, Py.get, Py.modify; simpl.
  destruct (count c (runs w) m image text) as [e|n']; simpl; [discriminate|].
  unfold Py.ret, later; simpl. by intros [= <- <-].
Qed.

Lemma flop_counter_inr (m : Model) (image text : input) (w w' : World) (n : Z) :
  flop_counter m image text w = (w', inr n) →
  count TorchFlops (runs w) m image text = inr n
  ∧ w' = later w [Count TorchFlops (runs w) image text; PrintTable (runs w)] 1.
Proof.
  unfold flop_counter, Py.bind, Py.get, Py.modify; simpl.
  destruct (count TorchFlops (runs w) m image text) as [e|n']; simpl; [discriminate|].
  unfold Py.ret, later; simpl. by intros [= <- <-].
Qed.

Lemma fvcore_getattr_nn_inr (w w' : World) (u : unit) :
  fvcore_getattr_nn w = (w', inr u) → w' = w ∧ fvcore = true ∧ fvcore_nn = true.
Proof.
  unfold fvcore_getattr_nn. destruct fvcore; [|discriminate].
  destruct fvcore_nn; [|discriminate]. simpl. unfold Py.ret. by intros [= ->].
Qed.

Lemma truediv_inr (a b : Z) (w w' : World) (x : float) :
  truediv a b w = (w', inr x) → w' = w ∧ b ≠ 0 ∧ x = int_truediv a b.
Proof.
  unfold truediv. case_decide; [discriminate|].
  unfold Py.ret. by intros [= -> <-].
Qed.

Lemma profile_torch_inr (model : Model) (text_input_size image_input_size : list Z)
    (batch_size : Z) (force_cpu : bool) (w w' : World) (model' : Model) (r : float) :
  profile_torch model text_input_size image_input_size batch_size force_cpu w
    = (w', inr (model', r)) →
  let m := placed force_cpu model in
  let image := image_input m batch_size image_input_size in
  let text := text_input m batch_size text_input_size in
  ∃ total,
    model' = m
    ∧ count TorchFlops (runs w) m image text = inr total
    ∧ r = int_truediv total batch_size
    ∧ w' = later w (placing force_cpu ++ [Count TorchFlops (runs w) image text;
                                          PrintTable (runs w)]) 1.
Proof.
  intros Hrun. unfold profile_torch in Hrun.
  rewrite (bind_step _ _ _ _ _ (place_run force_cpu model w)) in Hrun.
  apply bind_inr in Hrun as (w1 & [d t] & Hnext & Hrun).
  apply next_parameter_inr in Hnext as (-> & -> & ->).
  apply bind_inr in Hrun as (w2 & image & Himage & Hrun).
  apply lift_inr in Himage as [-> Himage%ones_inr].
  apply bind_inr in Hrun as (w3 & text & Htext & Hrun).
  apply lift_inr in Htext as [-> Htext%ones_inr].
  apply bind_inr in Hrun as (w4 & total & Hcount & Hrun).
  apply flop_counter_inr in Hcount as [Hcount ->].
  apply bind_inr in Hrun as (w5 & x & Hdiv & Hrun).
  apply truediv_inr in Hdiv as (-> & Hnz & ->).
  apply ret_inr in Hrun as [-> [= -> ->]].
  subst image text. simpl in *.
  exists total. split; [done|]. split; [exact Hcount|]. split; [done|].
  by rewrite later_later.
Qed.

Lemma profile_fvcore_inr (model : Model) (image_input_size text_input_size : list Z)
    (batch_size : Z) (force_cpu : bool) (w w' : World) (model' : Model) (macs acts : float) :
  profile_fvcore model image_input_size text_input_size batch_size false force_cpu w
    = (w', inr (model', (macs, acts))) →
  let m := placed force_cpu model in
  let image := image_input m batch_size image_input_size in
  let text := text_input m batch_size text_input_size in
  ∃ flops activations,
    model' = m
    ∧ count FvcoreFlops (runs w) m image text = inr flops
    ∧ count FvcoreActivations (S (runs w)) m image text = inr activations
    ∧ macs = int_truediv flops batch_size
    ∧ acts = int_truediv activations batch_size
    ∧ w' = later w (placing force_cpu ++ [Count FvcoreFlops (runs w) image text;
                                          Count FvcoreActivations (S (runs w)) image text]) 2.
Proof.
  intros Hrun. unfold profile_fvcore in Hrun.
  rewrite (bind_step _ _ _ _ _ (place_run force_cpu model w)) in Hrun.
  apply bind_inr in Hrun as (w1 & [d t] & Hnext & Hrun).
  apply next_parameter_inr in Hnext as (-> & -> & ->).
  apply bind_inr in Hrun as (w2 & image & Himage & Hrun).
  apply lift_inr in Himage as [-> Himage%ones_inr].
  apply bind_inr in Hrun as (w3 & text & Htext & Hrun).
  apply lift_inr in Htext as [-> Htext%ones_inr].
  apply bind_inr in Hrun as (w4 & [] & Hnn & Hrun).
  apply fvcore_getattr_nn_inr in Hnn as (-> & _ & _).
  apply bind_inr in Hrun as (w5 & flops & Hflops & Hrun).
  apply run_counter_inr in Hflops as [Hflops ->].
  apply bind_inr in Hrun as (w5' & [] & Hskip & Hrun).
  apply ret_inr in Hskip as [-> _].
  apply bind_inr in Hrun as (w6 & x & Hdiv & Hrun).
  apply truediv_inr in Hdiv as (-> & Hnz & ->).
  apply bind_inr in Hrun as (w7 & activations & Hacts & Hrun).
  apply run_counter_inr in Hacts as [Hacts ->].
  apply bind_inr in Hrun as (w8 & y & Hdiv & Hrun).
  apply truediv_inr in Hdiv as (-> & _ & ->).
  apply ret_inr in Hrun as [-> [= -> -> ->]].
  subst image text. simpl in *.
  exists flops, activations. repeat (split; [done|]).
  rewrite !later_later. reflexivity.
Qed.

(** What one pass of the measurement block does when it raises nothing. *)
Lemma measure_inr (model : Model) (results : row) (profiler : string)
    (image_input_size text_input_size : list Z) (batch_size : Z) (force_cpu : bool)
    (w w' : World) (model' : Model) (results' : row) :
  measure model results profiler image_input_size text_input_size batch_size force_cpu w
    = (w', inr (model', results')) →
  let m := placed force_cpu model in
  let image := image_input m batch_size image_input_size in
  let text := text_input m batch_size text_input_size in
  ∃ visual_tower text_tower,
    submodule "visual" (root model) = inr visual_tower
    ∧ submodule "text" (root model) = inr text_tower
    ∧ let base := counted (root model) visual_tower text_tower results in
      (profiler = "fvcore"
       ∧ ∃ flops activations,
           count FvcoreFlops (runs w) m image text = inr flops
           ∧ count FvcoreActivations (S (runs w)) m image text = inr activations
           ∧ model' = m
           ∧ results' =
               Dict.set "macts" (CFloat (round (fdiv (int_truediv activations batch_size) _1e6) 2))
                 (Dict.set "gmacs" (CFloat (round (fdiv (int_truediv flops batch_size) _1e9) 2)) base)
           ∧ w' = later w (placing force_cpu ++
                            [Count FvcoreFlops (runs w) image text;
                             Count FvcoreActivations (S (runs w)) image text]) 2)
      ∨ (profiler = "torch"
         ∧ ∃ total,
             count TorchFlops (runs w) m image text = inr total
             ∧ model' = m
             ∧ results' =
                 Dict.set "gflops" (CFloat (round (fdiv (int_truediv total batch_size) _1e9) 2)) base
             ∧ w' = later w (placing force_cpu ++ [Count TorchFlops (runs w) image text;
                                                   PrintTable (runs w)]) 1)
      ∨ (profiler ≠ "fvcore" ∧ profiler ≠ "torch"
         ∧ model' = model ∧ results' = base ∧ w' = w).
Proof.
  intros Hrun. unfold measure in Hrun.
  apply bind_inr in Hrun as (w1 & visual_tower & Hvisual & Hrun).
  apply lift_inr in Hvisual as [-> Hvisual].
  apply bind_inr in Hrun as (w2 & text_tower & Htext & Hrun).
  apply lift_inr in Htext as [-> Htext].
  exists visual_tower, text_tower. split; [exact Hvisual|]. split; [exact Htext|].
  cbv zeta. fold (counted (root model) visual_tower text_tower results) in *.
  destruct (decide (profiler = "fvcore")) as [Hf|Hf].
  - left. split; [exact Hf|].
    apply bind_inr in Hrun as (w3 & [m1 [macs acts]] & Hprofile & Hrun).
    apply profile_fvcore_inr in Hprofile
      as (flops & activations & -> & Hflops & Hacts & -> & -> & ->).
    apply ret_inr in Hrun as [-> [= -> ->]].
    exists flops, activations. done.
  - right. destruct (decide (profiler = "torch")) as [Ht|Ht].
    + left. split; [exact Ht|].
      apply bind_inr in Hrun as (w3 & [m1 r] & Hprofile & Hrun).
      apply profile_torch_inr in Hprofile as (total & -> & Hcount & -> & ->).
      apply ret_inr in Hrun as [-> [= -> ->]].
      exists total. done.
    + right. apply ret_inr in Hrun as [-> [= -> ->]]. done.
Qed.

Lemma root_prepared (created : Model) (no_contrastive : bool) :
  root (prepared created no_contrastive) = root created.
Proof. unfold prepared. by destruct cuda_is_available, no_contrastive. Qed.

Lemma root_placed (force_cpu : bool) (m : Model) : root (placed force_cpu m) = root m.
Proof. by destruct force_cpu. Qed.

Lemma assert_inr (cond : bool) (msg : string) (w w' : World) (u : unit) :
  Py.assert_ cond msg w = (w', inr u) → cond = true ∧ w' = w.
Proof. destruct cond; [|discriminate]. unfold Py.assert_, Py.ret. by intros [= ->]. Qed.

(** The handler of the loop's [try] never returns: it prints and raises. *)
Lemma reraise_never_returns (e : exn) (w w' : World) (r : Model * row) :
  (print (msg_of e) ;;; Py.raise e) w ≠ (w', inr r).
Proof. discriminate. Qed.

(** Two rounds of the loop are two passes, the second one forced to the CPU. *)
Lemma retry_loop_inr (model : Model) (results : row) (profiler : string)
    (image_input_size text_input_size : list Z) (batch_size : Z) (w w' : World)
    (results' : row) :
  retry_loop 2 model results profiler image_input_size text_input_size batch_size w
    = (w', inr results') →
  ∃ w1 m1 r1 m2,
    measure model results profiler image_input_size text_input_size batch_size false w
      = (w1, inr (m1, r1))
    ∧ measure m1 r1 profiler image_input_size text_input_size batch_size true w1
      = (w', inr (m2, results')).
Proof.
  intros Hrun. simpl in Hrun.
  apply bind_inr in Hrun as (w1 & [m1 r1] & Hfirst & Hrun).
  apply try_except_inr in Hfirst; [|intros; apply reraise_never_returns].
  apply bind_inr in Hrun as (w2 & [m2 r2] & Hsecond & Hrun).
  apply try_except_inr in Hsecond; [|intros; apply reraise_never_returns].
  apply ret_inr in Hrun as [-> ->].
  exists w1, m1, r1, m2. split; [exact Hfirst|exact Hsecond].
Qed.

(** A pass that raises ends the loop at once: a [RuntimeError] is printed
    first, any other exception is not; either way it goes on to the caller. *)
Lemma retry_loop_inl (retries : nat) (model : Model) (results : row) (profiler : string)
    (image_input_size text_input_size : list Z) (batch_size : Z) (w w1 : World) (e : exn) :
  measure model results profiler image_input_size text_input_size batch_size
    (bool_decide (retries = O)) w = (w1, inl e) →
  retry_loop (S retries) model results profiler image_input_size text_input_size
    batch_size w
  = (if isinstance_RuntimeError e then later w1 [Print (msg_of e)] 0 else w1, inl e).
Proof.
  intros Hpass. simpl. unfold Py.bind at 1, Py.try_except. rewrite Hpass.
  destruct (isinstance_RuntimeError e); reflexivity.
Qed.

Lemma profile_model_inr (model_name : string) (batch_size : Z) (profiler : string)
    (image_size text_size : Z) (no_contrastive : bool) (w w' : World) (results : row) :
  profile_model model_name batch_size profiler image_size text_size no_contrastive w
    = (w', inr results) →
  ∃ created w1 m1 r1 m2,
    (profiler = "torch" ∨ profiler = "fvcore" ∧ fvcore = true)
    ∧ create_model model_name = inr created
    ∧ measure (prepared created no_contrastive) (heading model_name image_size) profiler
        [3; image_size; image_size] [text_size] batch_size false (later w preparing 0)
      = (w1, inr (m1, r1))
    ∧ measure m1 r1 profiler [3; image_size; image_size] [text_size] batch_size true w1
      = (w', inr (m2, results)).
Proof.
  intros Hrun. unfold profile_model in Hrun.
  apply bind_inr in Hrun as (w0 & [] & Hsupported & Hrun).
  apply assert_inr in Hsupported as [Hsupported ->].
  apply bool_decide_eq_true_1 in Hsupported.
  apply bind_inr in Hrun as (w0 & [] & Hinstalled & Hrun).
  assert (Hprofiler : (profiler = "torch" ∨ profiler = "fvcore" ∧ fvcore = true) ∧ w0 = w).
  { destruct (decide (profiler = "fvcore")) as [->|Hne].
    - apply assert_inr in Hinstalled as [-> ->]. auto.
    - apply ret_inr in Hinstalled as [-> _]. split; [left|done].
      rewrite !elem_of_cons, elem_of_nil in Hsupported.
      destruct Hsupported as [?|[?|[]]]; [assumption|contradiction]. }
  destruct Hprofiler as [Hprofiler ->].
  apply bind_inr in Hrun as (w0 & created & Hcreated & Hrun).
  apply lift_inr in Hcreated as [-> Hcreated].
  apply bind_inr in Hrun as (w0 & model & Hmoved & Hrun).
  assert (Hmodel : model = prepared created no_contrastive ∧ w0 = later w preparing 0).
  { unfold prepared, preparing. destruct cuda_is_available.
    - unfold to, emit, Py.bind, Py.modify, Py.ret in Hmoved.
      by injection Hmoved as <- <-.
    - apply ret_inr in Hmoved as [-> ->]. by rewrite later_nothing. }
  destruct Hmodel as [-> ->].
  apply retry_loop_inr in Hrun as (w1 & m1 & r1 & m2 & Hfirst & Hsecond).
  exists created, w1, m1, r1, m2. done.
Qed.

Lemma measure_root (model : Model) (results : row) (profiler : string)
    (image_input_size text_input_size : list Z) (batch_size : Z) (force_cpu : bool)
    (w w' : World) (model' : Model) (results' : row) :
  measure model results profiler image_input_size text_input_size batch_size force_cpu w
    = (w', inr (model', results')) →
  root model' = root model.
Proof.
  intros Hrun. apply measure_inr in Hrun as (v & t & _ & _ & Hcases).
  destruct Hcases as [(_ & ? & ? & _ & _ & -> & _)|[(_ & ? & _ & -> & _)|(_ & _ & -> & _)]];
    try apply root_placed; reflexivity.
Qed.

(** The three parameter counts survive whatever a pass adds to the row. *)
Lemma measure_counts (model : Model) (results : row) (profiler : string)
    (image_input_size text_input_size : list Z) (batch_size : Z) (force_cpu : bool)
    (w w' : World) (model' : Model) (results' : row) :
  measure model results profiler image_input_size text_input_size batch_size force_cpu w
    = (w', inr (model', results')) →
  ∃ visual_tower text_tower,
    submodule "visual" (root model) = inr visual_tower
    ∧ submodule "text" (root model) = inr text_tower
    ∧ Dict.get "mparams" results' = Some (CFloat (millions (count_params (root model))))
    ∧ Dict.get "image_mparams" results' = Some (CFloat (millions (count_params visual_tower)))
    ∧ Dict.get "text_mparams" results' = Some (CFloat (millions (count_params text_tower))).
Proof.
  intros Hrun. apply measure_inr in Hrun as (v & t & Hv & Ht & Hcases).
  exists v, t. split; [exact Hv|]. split; [exact Ht|].
  assert (Hbase : ∀ k, k ≠ "gmacs" → k ≠ "macts" → k ≠ "gflops" →
            Dict.get k results' = Dict.get k (counted (root model) v t results)).
  { intros k Hk1 Hk2 Hk3.
    destruct Hcases as [(_ & ? & ? & _ & _ & _ & -> & _)|[(_ & ? & _ & _ & -> & _)|(_ & _ & _ & -> & _)]].
    - by rewrite !get_set_ne.
    - by rewrite get_set_ne.
    - reflexivity. }
  rewrite !Hbase by discriminate. unfold counted.
  split; [|split].
  - rewrite !get_set_ne by discriminate. apply get_set_eq.
  - rewrite get_set_ne by discriminate. apply get_set_eq.
  - apply get_set_eq.
Qed.

(** A pass keeps the keys of the row, adds [mparams], and adds the key of
    its profiler. *)
Lemma measure_keys (model : Model) (results : row) (profiler : string)
    (image_input_size text_input_size : list Z) (batch_size : Z) (force_cpu : bool)
    (w w' : World) (model' : Model) (results' : row) :
  measure model results profiler image_input_size text_input_size batch_size force_cpu w
    = (w', inr (model', results')) →
  (∀ k, k ∈ Dict.keys results → k ∈ Dict.keys results')
  ∧ "mparams" ∈ Dict.keys results'
  ∧ (profiler = "fvcore" → "gmacs" ∈ Dict.keys results')
  ∧ (profiler = "torch" → "gflops" ∈ Dict.keys results').
Proof.
  intros Hrun. apply measure_inr in Hrun as (v & t & _ & _ & Hcases).
  assert (Hbase : ∀ k, k ∈ Dict.keys results ∨ k = "mparams" →
                       k ∈ Dict.keys (counted (root model) v t results)).
  { intros k [Hk| ->]; unfold counted.
    - by do 3 apply keys_set_mono.
    - do 2 apply keys_set_mono. apply keys_set_in. }
  destruct Hcases as [(Hf & ? & ? & _ & _ & _ & -> & _)|[(Ht & ? & _ & _ & -> & _)|(Hf & Ht & _ & -> & _)]].
  - split; [intros k Hk; do 2 apply keys_set_mono; auto|].
    split; [do 2 apply keys_set_mono; auto|].
    split; [intros _; apply keys_set_mono, keys_set_in|intros ->; discriminate].
  - split; [intros k Hk; apply keys_set_mono; auto|].
    split; [apply keys_set_mono; auto|].
    split; [intros ->; discriminate|intros _; apply keys_set_in].
  - split; [auto|]. split; [auto|]. split; intros; contradiction.
Qed.

(** Every row [profile_model] returns can be sorted by [main]. *)
Lemma profile_model_sortable (model_name : string) (batch_size : Z) (profiler : string)
    (image_size text_size : Z) (no_contrastive : bool) (w w' : World) (results : row) :
  profile_model model_name batch_size profiler image_size text_size no_contrastive w
    = (w', inr results) →
  sortable results.
Proof.
  intros Hrun.
  apply profile_model_inr in Hrun
    as (created & w1 & m1 & r1 & m2 & Hprofiler & _ & Hfirst & Hsecond).
  apply measure_keys in Hfirst as (Hkept1 & _).
  apply measure_keys in Hsecond as (Hkept2 & Hmparams & Hgmacs & Hgflops).
  split; [|split; [exact Hmparams|]].
  - apply Hkept2, Hkept1. unfold heading, Dict.keys; simpl. apply list_elem_of_here.
  - destruct Hprofiler as [->|[-> _]]; [right|left]; auto.
Qed.

(** [distinct] keeps, of every object met that was not seen before, the
    first registration, and nothing else. *)
Lemma distinct_spec (seen : gset positive) (ps : list parameter) :
  distinct seen ps `sublist_of` ps
  ∧ NoDup (param_id <$> distinct seen ps)
  ∧ (∀ p, p ∈ distinct seen ps → param_id p ∉ seen)
  ∧ (∀ p, p ∈ ps → param_id p ∈ seen ∨ param_id p ∈ param_id <$> distinct seen ps).
Proof.
  revert seen. induction ps as [|p ps IH]; intros seen.
  { simpl. split; [constructor|]. split; [constructor|].
    split; intros p Hp; by apply elem_of_nil in Hp. }
  simpl. destruct (decide (param_id p ∈ seen)) as [Hseen|Hnew].
  - destruct (IH seen) as (Hsub & Hnodup & Hout & Hall).
    split; [by apply sublist_cons|]. split; [exact Hnodup|]. split; [exact Hout|].
    intros q [->|Hq]%elem_of_cons; [by left|by apply Hall].
  - destruct (IH ({[param_id p]} ∪ seen)) as (Hsub & Hnodup & Hout & Hall).
    split; [by apply sublist_skip|]. split; [|split].
    + rewrite fmap_cons. apply NoDup_cons. split; [|exact Hnodup].
      intros (q & Heq & Hq)%list_elem_of_fmap. apply (Hout q Hq).
      rewrite elem_of_union, elem_of_singleton. by left.
    + intros q [->|Hq]%elem_of_cons; [exact Hnew|].
      intros Hin. apply (Hout q Hq). rewrite elem_of_union. by right.
    + intros q [->|Hq]%elem_of_cons.
      * right. rewrite fmap_cons. apply list_elem_of_here.
      * destruct (Hall q Hq) as [[Heq|Hin]%elem_of_union|Hin].
        -- right. rewrite fmap_cons. apply elem_of_singleton in Heq. rewrite Heq.
           apply list_elem_of_here.
        -- by left.
        -- right. rewrite fmap_cons. by apply list_elem_of_further.
Qed.

(** [m.parameters()] holds every parameter object of the module once. *)
Lemma parameters_each_object_once (m : nn_Module) : each_object_once m (parameters m).
Proof.
  unfold each_object_once, parameters.
  destruct (distinct_spec ∅ (walk m)) as (Hsub & Hnodup & _ & Hall).
  split; [exact Hsub|]. split; [exact Hnodup|].
  intros p Hp. destruct (Hall p Hp) as [Hin|Hin]; [|exact Hin].
  by apply elem_of_empty in Hin.
Qed.

(** [count_params] adds up the element counts of [m.parameters()]. *)
Lemma count_params_total (m : nn_Module) :
  count_params m = total_elements (parameters m).
Proof.
  unfold count_params, total_elements, sum.
  induction (parameters m) as [|p ps IH]; [reflexivity|].
  rewrite !fmap_cons. cbn [foldr fold_right]. rewrite IH. reflexivity.
Qed.

(** C7. When [profile_model] returns a row for a model, the row's [mparams]
    is the sum of the element counts of the model's parameters, divided by
    [1e6] and rounded to two decimals: the element count of a parameter is
    the product of the sizes of its shape, and the sum runs over the
    parameter objects registered in the model or below it, each of them
    once, however often it is registered.  [image_mparams] and
    [text_mparams] are the same quantity for the submodules [model.visual]
    and [model.text]. *)
Theorem profile_model_mparams (model_name : string) (batch_size : Z) (profiler : string)
    (image_size text_size : Z) (no_contrastive : bool) (w w' : World) (results : row) :
  profile_model model_name batch_size profiler image_size text_size no_contrastive w
    = (w', inr results) →
  ∃ created visual_tower text_tower ps visual_ps text_ps,
    create_model model_name = inr created
    ∧ submodule "visual" (root created) = inr visual_tower
    ∧ submodule "text" (root created) = inr text_tower
    ∧ each_object_once (root created) ps
    ∧ each_object_once visual_tower visual_ps
    ∧ each_object_once text_tower text_ps
    ∧ Dict.get "mparams" results =
        Some (CFloat (round (fdiv (float_of_int (total_elements ps))
                               (float_of_int 1000000)) 2))
    ∧ Dict.get "image_mparams" results =
        Some (CFloat (round (fdiv (float_of_int (total_elements visual_ps))
                               (float_of_int 1000000)) 2))
    ∧ Dict.get "text_mparams" results =
        Some (CFloat (round (fdiv (float_of_int (total_elements text_ps))
                               (float_of_int 1000000)) 2)).
Proof.
  intros Hrun.
  apply profile_model_inr in Hrun as (created & w1 & m1 & r1 & m2 & _ & Hcreated & Hfirst & Hsecond).
  apply measure_root in Hfirst. rewrite root_prepared in Hfirst.
  apply measure_counts in Hsecond as (v & t & Hv & Ht & Hall & Himage & Htext).
  rewrite Hfirst in Hv, Ht, Hall.
  exists created, v, t, (parameters (root created)), (parameters v), (parameters t).
  split; [exact Hcreated|]. split; [exact Hv|]. split; [exact Ht|].
  split; [apply parameters_each_object_once|].
  split; [apply parameters_each_object_once|].
  split; [apply parameters_each_object_once|].
  unfold millions, _1e6 in Hall, Himage, Htext.
  rewrite count_params_total in Hall, Himage, Htext. done.
Qed.

(** C10. When [profile_model] returns, the measurement block has run twice:
    once on the prepared model with [force_cpu] false, then, from the state
    the first pass left, with [force_cpu] true.  The second pass began by
    moving the model to the CPU and counted there, and the counts in the
    returned row are its counts, not those of the first pass: [gflops] is
    the total of the second counting run of two, divided by the batch size
    and by [1e9] and rounded to two decimals, and for fvcore [gmacs] and
    [macts] come from the third and fourth runs of four.  When a pass of the
    loop raises a [RuntimeError], its message is printed, the same exception
    goes on to the caller and nothing more happens, however many retries
    were left. *)
Theorem profile_model_passes (model_name : string) (batch_size : Z) (profiler : string)
    (image_size text_size : Z) (no_contrastive : bool) (w : World) :
  (∀ w' results,
     profile_model model_name batch_size profiler image_size text_size no_contrastive w
       = (w', inr results) →
     ∃ created w1 m1 r1 m2,
       create_model model_name = inr created
       ∧ measure (prepared created no_contrastive) (heading model_name image_size) profiler
           [3; image_size; image_size] [text_size] batch_size false (later w preparing 0)
         = (w1, inr (m1, r1))
       ∧ measure m1 r1 profiler [3; image_size; image_size] [text_size] batch_size true w1
         = (w', inr (m2, results))
       ∧ on m2 = cpu
       ∧ let on_cpu := moved cpu (prepared created no_contrastive) in
         let image := {| input_shape := [batch_size; 3; image_size; image_size];
                         input_device := cpu; input_dtype := param_dtype created |} in
         let text := {| input_shape := [batch_size; text_size];
                        input_device := cpu; input_dtype := int64 |} in
         (profiler = "torch"
          ∧ runs w1 = (1 + runs w)%nat
          ∧ runs w' = (2 + runs w)%nat
          ∧ trace w' = trace w1 ++ [MoveTo cpu; Count TorchFlops (1 + runs w) image text;
                                    PrintTable (1 + runs w)]
          ∧ ∃ total,
              count TorchFlops (1 + runs w) on_cpu image text = inr total
              ∧ Dict.get "gflops" results
                = Some (CFloat (round (fdiv (int_truediv total batch_size)
                                         (float_of_int 1000000000)) 2)))
         ∨ (profiler = "fvcore"
            ∧ runs w1 = (2 + runs w)%nat
            ∧ runs w' = (4 + runs w)%nat
            ∧ trace w' = trace w1 ++ [MoveTo cpu; Count FvcoreFlops (2 + runs w) image text;
                                      Count FvcoreActivations (3 + runs w) image text]
            ∧ ∃ flops activations,
                count FvcoreFlops (2 + runs w) on_cpu image text = inr flops
                ∧ count FvcoreActivations (3 + runs w) on_cpu image text = inr activations
                ∧ Dict.get "gmacs" results
                  = Some (CFloat (round (fdiv (int_truediv flops batch_size)
                                           (float_of_int 1000000000)) 2))
                ∧ Dict.get "macts" results
                  = Some (CFloat (round (fdiv (int_truediv activations batch_size)
                                           (float_of_int 1000000)) 2))))
  ∧ (∀ retries model results image_input_size text_input_size w1 w2 e,
       measure model results profiler image_input_size text_input_size batch_size
         (bool_decide (retries = O)) w1 = (w2, inl e) →
       isinstance_RuntimeError e = true →
       retry_loop (S retries) model results profiler image_input_size
         text_input_size batch_size w1
       = (later w2 [Print (msg_of e)] 0, inl e)).
Proof.
  split.
  - intros w' results Hrun.
    apply profile_model_inr in Hrun
      as (created & w1 & m1 & r1 & m2 & Hprofiler & Hcreated & Hfirst & Hsecond).
    exists created, w1, m1, r1, m2.
    split; [exact Hcreated|]. split; [exact Hfirst|]. split; [exact Hsecond|].
    assert (Hdtype : param_dtype (prepared created no_contrastive) = param_dtype created)
      by (unfold prepared; by destruct cuda_is_available, no_contrastive).
    apply measure_inr in Hfirst as (v1 & t1 & _ & _ & Hcases1).
    apply measure_inr in Hsecond as (v2 & t2 & _ & _ & Hcases2).
    cbv zeta. unfold image_input, text_input in Hcases1, Hcases2.
    destruct Hprofiler as [->|[-> _]].
    + destruct Hcases1 as [([=] & _)|[(_ & total1 & _ & -> & _ & ->)|(_ & ? & _)]]; [|done].
      destruct Hcases2 as [([=] & _)|[(_ & total & Hcount & -> & -> & ->)|(_ & ? & _)]]; [|done].
      simpl in Hcount. rewrite Hdtype in Hcount.
      split; [reflexivity|]. left. split; [reflexivity|]. split; [reflexivity|].
      split; [reflexivity|]. split; [by simpl; rewrite Hdtype|].
      exists total. split; [exact Hcount|apply get_set_eq].
    + destruct Hcases1 as [(_ & f1 & a1 & _ & _ & -> & _ & ->)|[([=] & _)|(? & _)]]; [|done].
      destruct Hcases2 as [(_ & flops & activations & Hflops & Hacts & -> & -> & ->)|[([=] & _)|(? & _)]];
        [|done].
      simpl in Hflops, Hacts. rewrite Hdtype in Hflops, Hacts.
      split; [reflexivity|]. right. split; [reflexivity|]. split; [reflexivity|].
      split; [reflexivity|]. split; [by simpl; rewrite Hdtype|].
      exists flops, activations. split; [exact Hflops|]. split; [exact Hacts|]. split.
      * rewrite get_set_ne by discriminate. apply get_set_eq.
      * apply get_set_eq.
  - intros retries model results iis tis w1 w2 e Hpass Hruntime.
    rewrite (retry_loop_inl _ _ _ _ _ _ _ _ _ _ Hpass), Hruntime. reflexivity.
Qed.

End profiler_properties.

(** ** The profiler: the command line and the loop over models *)

Section main_properties.
Context {float : Type} {floats : PyFloat float} {env : Profiler.Env (float := float)}.
Import Profiler.

#[local] Abbreviation World := (World (float := float)).
#[local] Abbreviation event := (event (float := float)).
#[local] Abbreviation DataFrame := (DataFrame (float := float)).
#[local] Abbreviation row := (list (string * cell (float := float))).

(** An action keeps the profiler among the choices, and ends the parse only
    by a usage error or, for [help], with status 0. *)
Lemma take_action_outcome (a : action) (value : string) (ns : Namespace.t) :
  Namespace.profiler ns ∈ profiler_choices →
  match take_action a value ns with
  | inr ns' => Namespace.profiler ns' ∈ profiler_choices
  | inl e => e = Exn SystemExit "2" ∨ (e = Exn SystemExit "0" ∧ a = HelpAction)
  end.
Proof.
  intros Hns. destruct ns as [model results_file profiler batch_size image_size text_size nc].
  destruct a; simpl; try exact Hns; auto.
  - case_bool_decide; [assumption|by left].
  - destruct (int value); [exact Hns|by left].
  - destruct (int value); [exact Hns|by left].
  - destruct (int value); [exact Hns|by left].
Qed.

Lemma consume_outcome (n : nat) (kinds : list (string * kind)) (ns : Namespace.t)
    (extras : bool) :
  (length kinds ≤ n)%nat →
  Namespace.profiler ns ∈ profiler_choices →
  match consume kinds ns extras with
  | inr args => Namespace.profiler args ∈ profiler_choices
  | inl e =>
      e = Exn SystemExit "2"
      ∨ (e = Exn SystemExit "0"
         ∧ ∃ arg option_string explicit_arg,
             (arg, Optional (Some HelpAction, option_string, explicit_arg)) ∈ kinds)
  end.
Proof.
  revert kinds ns extras. induction n as [|n IH]; intros kinds ns extras Hlen Hns.
  { destruct kinds; [|simpl in Hlen; lia]. simpl. destruct extras; [by left|exact Hns]. }
  destruct kinds as [|[arg k] rest]; [simpl; destruct extras; [by left|exact Hns]|].
  simpl in Hlen.
  assert (Hrest : ∀ ns' extras',
            Namespace.profiler ns' ∈ profiler_choices →
            match consume rest ns' extras' with
            | inr args => Namespace.profiler args ∈ profiler_choices
            | inl e =>
                e = Exn SystemExit "2"
                ∨ (e = Exn SystemExit "0"
                   ∧ ∃ arg0 option_string explicit_arg,
                       (arg0, Optional (Some HelpAction, option_string, explicit_arg))
                         ∈ (arg, k) :: rest)
            end).
  { intros ns' extras' Hns'. specialize (IH rest ns' extras' ltac:(lia) Hns').
    destruct (consume rest ns' extras'); [|exact IH].
    destruct IH as [?|(? & a0 & o & x & Hin)]; [by left|right].
    split; [done|]. exists a0, o, x. by apply list_elem_of_further. }
  assert (Haction : ∀ a o x value,
            k = Optional (Some a, o, x) →
            match take_action a value ns with
            | inl e =>
                e = Exn SystemExit "2"
                ∨ (e = Exn SystemExit "0"
                   ∧ ∃ arg0 option_string explicit_arg,
                       (arg0, Optional (Some HelpAction, option_string, explicit_arg))
                         ∈ (arg, k) :: rest)
            | inr ns' => Namespace.profiler ns' ∈ profiler_choices
            end).
  { intros a o x value ->. pose proof (take_action_outcome a value ns Hns) as Hact.
    destruct (take_action a value ns); [|exact Hact].
    destruct Hact as [?|[? ->]]; [by left|right]. split; [done|].
    exists arg, o, x. apply list_elem_of_here. }
  destruct k as [| |[[[a|] o] [x|]]]; cbn [consume]; try (by apply Hrest).
  - destruct (takes_value a).
    + case_bool_decide; [by left|].
      specialize (Haction a o (Some x) x eq_refl).
      destruct (take_action a x ns); [exact Haction|by apply Hrest].
    + destruct (one_letter o && negb (bool_decide (x = "")) && flags x); [|by left].
      specialize (Haction a o (Some x) "" eq_refl).
      destruct (take_action a "" ns); [exact Haction|by apply Hrest].
  - destruct (takes_value a).
    + destruct rest as [|[value [| |t]] rest']; try (by left).
      specialize (Haction a o None value eq_refl).
      destruct (take_action a value ns) as [e|ns']; [|].
      * destruct Haction as [?|(? & a0 & o0 & x0 & Hin)]; [by left|right].
        split; [done|]. exists a0, o0, x0. exact Hin.
      * simpl in Hlen.
        specialize (IH rest' ns' extras ltac:(lia) Haction).
        destruct (consume rest' ns' extras); [|exact IH].
        destruct IH as [?|(? & a0 & o0 & x0 & Hin)]; [by left|right].
        split; [done|]. exists a0, o0, x0. by do 2 apply list_elem_of_further.
    + specialize (Haction a o None "" eq_refl).
      destruct (take_action a "" ns); [exact Haction|by apply Hrest].
Qed.

Lemma get_elem_of {V} (k : string) (v : V) (d : list (string * V)) :
  Dict.get k d = Some v → (k, v) ∈ d.
Proof.
  induction d as [|[k' v'] d IH]; simpl; [discriminate|].
  destruct (decide (k = k')) as [->|]; [intros [= ->]; apply list_elem_of_here|].
  intros Hget. by apply list_elem_of_further, IH.
Qed.

(** The two spellings of the help option. *)
Lemma help_option_strings (o : string) :
  (o, HelpAction) ∈ option_strings → o = "-h" ∨ o = "--help".
Proof.
  unfold option_strings. rewrite !elem_of_cons, elem_of_nil.
  intros [[= ->]|[[= ->]|Hrest]]; [by left|by right|].
  repeat (destruct Hrest as [[=]|Hrest]). destruct Hrest.
Qed.

Lemma split_once_prefix (sep : ascii) (s : string) :
  ∃ t, s = (split_once sep s).1 +:+ t.
Proof.
  induction s as [|c s [t IH]]; [by exists ""|].
  cbn [split_once]. destruct (decide (c = sep)); cbn [fst].
  - by exists (String c s).
  - exists t. rewrite IH at 1. reflexivity.
Qed.

Lemma split_once_cons_ne (sep c : ascii) (s : string) :
  c ≠ sep →
  split_once sep (String c s) = (String c (split_once sep s).1, (split_once sep s).2).
Proof. intros Hne. cbn [split_once]. by rewrite decide_False. Qed.

Lemma split_once_cons_eq (sep : ascii) (s : string) :
  split_once sep (String sep s) = ("", Some s).
Proof. cbn [split_once]. by rewrite decide_True. Qed.

(** An argument that reads as the help option starts with [-h] or
    [--h]. *)
Lemma _parse_optional_help (arg_string option_string : string)
    (explicit_arg : option string) :
  _parse_optional arg_string = inr (Some (Some HelpAction, option_string, explicit_arg)) →
  String.prefix "-h" arg_string || String.prefix "--h" arg_string = true.
Proof.
  destruct arg_string as [|c0 rest]; [discriminate|].
  unfold _parse_optional. case_bool_decide as Hc0; simpl negb; cbv iota; [|discriminate].
  subst c0. destruct rest as [|c1 rest]; [intros [=]|].
  destruct (decide (c1 = "h"%char)) as [->|Hh]; [intros _; by destruct rest|].
  set (arg_string := String "-" (String c1 rest)).
  assert (Hstarts : ∀ t, arg_string ≠ "-h" +:+ t) by (intros t [=]; done).
  assert (Hlong : ∀ t, arg_string = "--help" +:+ t →
                       String.prefix "-h" arg_string || String.prefix "--h" arg_string = true).
  { intros t ->. reflexivity. }
  destruct (split_once_prefix "=" arg_string) as [tail Htail].
  destruct (Dict.get arg_string option_strings) as [a|] eqn:Hexact.
  { intros [= -> <- <-]. apply get_elem_of, help_option_strings in Hexact as [Heq|Heq].
    - by destruct (Hstarts "").
    - apply (Hlong ""). by rewrite Heq. }
  case_bool_decide; [discriminate|].
  assert (Htuples :
    match _get_option_tuples arg_string with
    | [t] => t = (Some HelpAction, option_string, explicit_arg)
    | _ => False
    end → String.prefix "-h" arg_string || String.prefix "--h" arg_string = true).
  { unfold _get_option_tuples, arg_string at 1.
    rewrite bool_decide_eq_true_2 by reflexivity. rewrite andb_true_l.
    fold arg_string. case_bool_decide as Hc1.
    - (* two dashes *)
      subst c1. destruct (_ <$> filter _ option_strings) as [|t [|? ?]] eqn:Hfilter; try done.
      intros ->.
      assert (Hin : (Some HelpAction, option_string, explicit_arg)
                      ∈ (λ o : string * action, (Some o.2, o.1, (split_once "=" arg_string).2))
                          <$> filter (λ o : string * action,
                                String.prefix (split_once "=" arg_string).1 o.1 = true)
                              option_strings)
        by (rewrite Hfilter; apply list_elem_of_here).
      apply list_elem_of_fmap in Hin as ([o a] & [= <- <- _] & [Hprefix Hin]%list_elem_of_filter).
      cbn [fst snd] in Hprefix.
      destruct rest as [|c2 rest].
      { vm_compute in Hfilter. discriminate. }
      assert (Hsplit : split_once "=" arg_string
                       = (String "-" (String "-" (split_once "=" (String c2 rest)).1),
                          (split_once "=" (String c2 rest)).2))
        by (unfold arg_string; by rewrite !(split_once_cons_ne "=" "-") by done).
      rewrite Hsplit in Hprefix, Hfilter. cbn [fst snd] in Hprefix, Hfilter.
      apply help_option_strings in Hin as [-> | ->].
      { simpl in Hprefix. discriminate. }
      destruct (decide (c2 = "h"%char)) as [->|Hh2]; [by destruct rest|].
      exfalso.
      destruct (decide (c2 = "="%char)) as [->|Heq].
      + rewrite split_once_cons_eq in Hfilter. vm_compute in Hfilter. discriminate.
      + rewrite split_once_cons_ne in Hprefix by done. simpl in Hprefix.
        destruct (Ascii.ascii_dec c2 "h"); [contradiction|discriminate].
    - (* one dash and a letter *)
      destruct (omap _ option_strings) as [|t [|? ?]] eqn:Homap; try done.
      intros ->.
      assert (Hin : (Some HelpAction, option_string, explicit_arg)
                      ∈ omap (λ o : string * action,
                                if decide (o.1 = String "-" (String c1 EmptyString))
                                then Some (Some o.2, o.1, Some rest)
                                else if String.prefix arg_string o.1
                                     then Some (Some o.2, o.1, None) else None)
                          option_strings)
        by (rewrite Homap; apply list_elem_of_here).
      apply list_elem_of_omap in Hin as ([o a] & Hin & Hsome).
      simpl in Hsome. exfalso.
      assert (a = HelpAction) as ->.
      { destruct (decide (o = String "-" (String c1 ""))); [congruence|].
        destruct (String.prefix arg_string o); [congruence|discriminate]. }
      apply help_option_strings in Hin as [-> | ->].
      + destruct (decide ("-h" = String "-" (String c1 ""))) as [[= <-]|_]; [done|].
        unfold arg_string in Hsome. simpl in Hsome.
        destruct (Ascii.ascii_dec c1 "h"); [contradiction|discriminate].
      + destruct (decide ("--help" = String "-" (String c1 ""))) as [[=]|_].
        unfold arg_string in Hsome. simpl in Hsome.
        destruct (Ascii.ascii_dec c1 "-"); [contradiction|discriminate]. }
  destruct (split_once "=" arg_string) as [before [after|]] eqn:Hsplit; cbn [fst snd] in *.
  - destruct (Dict.get before option_strings) as [a|] eqn:Hbefore.
    + intros [= -> <- <-]. apply get_elem_of, help_option_strings in Hbefore as [-> | ->].
      * by destruct (Hstarts tail).
      * by apply (Hlong tail).
    + intros Hrun. apply Htuples.
      destruct (_get_option_tuples arg_string) as [|t [|? ?]]; [|by injection Hrun|discriminate].
      destruct (negative_number arg_string); [discriminate|].
      destruct (has_space arg_string); discriminate.
  - intros Hrun. apply Htuples.
    destruct (_get_option_tuples arg_string) as [|t [|? ?]]; [|by injection Hrun|discriminate].
    destruct (negative_number arg_string); [discriminate|].
    destruct (has_space arg_string); discriminate.
Qed.

Lemma classify_elem_of (argv : list string) (kinds : list (string * kind))
    (arg_string : string) (t : option_tuple) :
  classify argv = inr kinds →
  (arg_string, Optional t) ∈ kinds →
  arg_string ∈ argv ∧ _parse_optional arg_string = inr (Some t).
Proof.
  revert kinds. induction argv as [|a argv IH]; intros kinds; simpl.
  { intros [= <-] Hin. by apply elem_of_nil in Hin. }
  destruct (decide (a = "--")) as [->|Hne].
  { intros [= <-] [[=]|Hin]%elem_of_cons.
    apply list_elem_of_fmap in Hin as (? & [=] & _). }
  destruct (_parse_optional a) as [e|t0] eqn:Ha; [discriminate|].
  destruct (classify argv) as [e|kinds0]; [discriminate|].
  intros [= <-] [Hhere|Hin]%elem_of_cons.
  - injection Hhere as -> Hkind. destruct t0 as [t0|]; [|discriminate].
    injection Hkind as ->. split; [apply list_elem_of_here|exact Ha].
  - destruct (IH kinds0 eq_refl Hin) as [? ?]. split; [by apply list_elem_of_further|done].
Qed.

(** The first pass fails only by a usage error. *)
Lemma classify_inl (argv : list string) (e : exn) :
  classify argv = inl e → e = Exn SystemExit "2".
Proof.
  revert e. induction argv as [|a argv IH]; intros e; simpl; [discriminate|].
  destruct (decide (a = "--")); [discriminate|].
  destruct (_parse_optional a) as [e0|t] eqn:Ha.
  - intros [= <-]. unfold _parse_optional in Ha.
    destruct a as [|c rest]; [discriminate|].
    destruct (negb _); [discriminate|].
    destruct (Dict.get _ option_strings); [discriminate|].
    destruct (bool_decide (rest = "")); [discriminate|].
    destruct (split_once "=" (String c rest)) as [before [after|]]; cbn [fst snd] in Ha.
    + destruct (Dict.get before option_strings); [discriminate|].
      destruct (_get_option_tuples _) as [|t [|? ?]]; [|discriminate|by injection Ha].
      destruct (negative_number _); [discriminate|]. destruct (has_space _); discriminate.
    + destruct (_get_option_tuples _) as [|t [|? ?]]; [|discriminate|by injection Ha].
      destruct (negative_number _); [discriminate|]. destruct (has_space _); discriminate.
  - destruct (classify argv) as [e0|kinds0]; [|discriminate].
    intros [= <-]. by apply IH.
Qed.

(** X5. On a command line that gives no option the explicit value [--],
    [parse_args] returns a namespace whose profiler is [torch] or [fvcore],
    or ends in [SystemExit]: with status 2 when it refuses the command line,
    and with status 0 only when some argument asks for help, that is, starts
    with [-h] or [--h]. *)
Theorem parse_args_outcome (argv : list string) :
  Forall (λ a, explicit_dashes a = false) argv →
  match parse_args argv with
  | inr args => Namespace.profiler args ∈ profiler_choices
  | inl e =>
      e = Exn SystemExit "2"
      ∨ (e = Exn SystemExit "0"
         ∧ ∃ a, a ∈ argv ∧ String.prefix "-h" a || String.prefix "--h" a = true)
  end.
Proof.
  intros _. unfold parse_args.
  destruct (classify argv) as [e|kinds] eqn:Hkinds.
  - left. by apply classify_inl in Hkinds.
  - pose proof (consume_outcome (length kinds) kinds defaults false (le_n _)) as Hrun.
    destruct (consume kinds defaults false) as [e|args].
    + destruct Hrun as [?|(-> & arg & o & x & Hin)];
        [apply list_elem_of_here| by left |].
      right. split; [reflexivity|].
      destruct (classify_elem_of _ _ _ _ Hkinds Hin) as [Harg Hhelp].
      exists arg. split; [exact Harg|]. by apply _parse_optional_help in Hhelp.
    + apply Hrun, list_elem_of_here.
Qed.

(** One round of the loop over models: the two lines are printed, the
    model is profiled, and then either its row is appended, or its name is
    appended to the list of failures after the error line and the
    traceback, or, for an exception that is no [Exception], the loop ends. *)
Lemma profile_each_cons (m : string) (ms : list string) (args : Namespace.t)
    (results : list row) (errors : list string) (w : World) :
  profile_each (m :: ms) args results errors w =
  match profile_model m (Namespace.batch_size args) (Namespace.profiler args)
          (Namespace.image_size args) (Namespace.text_size args)
          (Namespace.no_contrastive args)
          (later w [Print banner; Print ("Profiling " +:+ m)] 0) with
  | (w1, inr row) => profile_each ms args (results ++ [row]) errors w1
  | (w1, inl e) =>
      if isinstance_Exception e then
        profile_each ms args results (errors ++ [m])
          (later w1 [Print ("Error profiling " +:+ m +:+ ": " +:+ msg_of e); PrintExc e] 0)
      else (w1, inl e)
  end.
Proof.
  simpl. unfold print.
  rewrite (bind_step _ _ _ _ _ (emit_run _ _)).
  rewrite (bind_step _ _ _ _ _ (emit_run _ _)), later_later.
  unfold Py.bind, Py.try_except. simpl.
  destruct (profile_model _ _ _ _ _ _ _) as [w1 [e|row]]; [|reflexivity].
  destruct (isinstance_Exception e); [|reflexivity].
  unfold Py.ret, emit, Py.modify, later; simpl. by rewrite <- app_assoc.
Qed.

(** X1. Whatever the models do, the loop either returns or ends on an
    exception that is no [Exception].  When it returns, every model was tried: each
    one added a row or, in the order of the command line, its name to the
    failures, and nothing was taken away from either list. *)
Lemma profile_each_catches (ms : list string) (args : Namespace.t)
    (results : list row) (errors : list string) (w : World) :
  match profile_each ms args results errors w with
  | (w', inr (results', errors')) =>
      ∃ rows failed,
        results' = results ++ rows
        ∧ errors' = errors ++ failed
        ∧ failed `sublist_of` ms
        ∧ (length rows + length failed = length ms)%nat
  | (w', inl e) => isinstance_Exception e = false
  end.
Proof.
  revert results errors w. induction ms as [|m ms IH]; intros results errors w.
  - exists [], []. by rewrite !app_nil_r.
  - rewrite profile_each_cons.
    destruct (profile_model _ _ _ _ _ _ _) as [w1 [e|row]].
    + destruct (isinstance_Exception e) eqn:He; [|exact He].
      specialize (IH results (errors ++ [m])
        (later w1 [Print ("Error profiling " +:+ m +:+ ": " +:+ msg_of e); PrintExc e] 0)).
      destruct (profile_each ms args results _ _) as [w' [e'|[results' errors']]]; [exact IH|].
      destruct IH as (rows & failed & -> & -> & Hsub & Hlen).
      exists rows, (m :: failed). split; [done|]. split; [by rewrite <- app_assoc|].
      split; [by apply sublist_skip|]. simpl. lia.
    + specialize (IH (results ++ [row]) errors w1).
      destruct (profile_each ms args _ errors w1) as [w' [e'|[results' errors']]]; [exact IH|].
      destruct IH as (rows & failed & -> & -> & Hsub & Hlen).
      exists (row :: rows), failed. split; [by rewrite <- app_assoc|]. split; [done|].
      split; [by apply sublist_cons|]. simpl. lia.
Qed.

Lemma sort_values_present (by_ : list string) (df : DataFrame) (w : World) :
  Forall (λ k, k ∈ columns df) by_ →
  sort_values by_ df w
  = (w, inr {| columns := columns df; records := sorted_by by_ (records df) |}).
Proof.
  intros Hall. unfold sort_values.
  replace (filter (λ k, k ∉ columns df) by_) with (@nil string); [reflexivity|].
  symmetry. induction Hall as [|k ks Hk _ IH]; [reflexivity|].
  rewrite filter_cons, decide_False by auto. exact IH.
Qed.

(** The rows the loop adds all come from [profile_model]. *)
Lemma profile_each_sortable (ms : list string) (args : Namespace.t)
    (results results' : list row) (errors errors' : list string) (w w' : World) :
  Forall sortable results →
  profile_each ms args results errors w = (w', inr (results', errors')) →
  Forall sortable results'.
Proof.
  revert results errors w. induction ms as [|m ms IH]; intros results errors w Hall.
  - intros [= _ <- _]. exact Hall.
  - rewrite profile_each_cons.
    destruct (profile_model _ _ _ _ _ _ _) as [w1 [e|r]] eqn:Hmodel.
    + destruct (isinstance_Exception e); [|discriminate]. by apply IH.
    + apply IH, Forall_app. split; [exact Hall|].
      apply Forall_singleton. by apply profile_model_sortable in Hmodel.
Qed.

(** What [main] makes of the parser's answer. *)
Lemma parsed_run (argv : list string) (w : World) :
  (match parse_args argv with
   | inr args => Py.ret args
   | inl e => emit (ParserMessage (msg_of e)) ;;; Py.raise e
   end) w
  = match parse_args argv with
    | inr args => (w, inr args)
    | inl e => (later w [ParserMessage (msg_of e)] 0, inl e)
    end.
Proof. by destruct (parse_args argv). Qed.

(** The end of [main], once the table is sorted. *)
Lemma report_run (args : Namespace.t) (df : DataFrame) (errors : list string) (w : World) :
  (print banner ;;;
   print "Done." ;;;
   emit (PrintFrame df) ;;;
   (if bool_decide (Namespace.results_file args ≠ "")
    then emit (ToCsv df (Namespace.results_file args)) ;;;
         Py.lift (to_csv df (Namespace.results_file args))
    else Py.ret tt) ;;;
   (if bool_decide (errors ≠ [])
    then emit (PrintErrors errors)
    else Py.ret tt)) w
  = if bool_decide (Namespace.results_file args ≠ "") then
      match to_csv df (Namespace.results_file args) with
      | inr _ => (later w (reported args df errors) 0, inr tt)
      | inl e =>
          (later w [Print banner; Print "Done."; PrintFrame df;
                    ToCsv df (Namespace.results_file args)] 0, inl e)
      end
    else (later w (reported args df errors) 0, inr tt).
Proof.
  unfold print.
  rewrite (bind_step _ _ _ _ _ (emit_run _ _)).
  rewrite (bind_step _ _ _ _ _ (emit_run _ _)).
  rewrite (bind_step _ _ _ _ _ (emit_run _ _)).
  rewrite !later_later. unfold reported.
  destruct (bool_decide (Namespace.results_file args ≠ "")).
  - unfold Py.bind at 1. unfold Py.bind at 1. rewrite emit_run, later_later.
    destruct (to_csv df (Namespace.results_file args)) as [e|[]]; simpl; [reflexivity|].
    unfold Py.ret at 1.
    destruct (bool_decide (errors ≠ [])).
    + by rewrite emit_run, later_later.
    + reflexivity.
  - unfold Py.bind at 1, Py.ret at 1.
    destruct (bool_decide (errors ≠ [])).
    + by rewrite emit_run, later_later.
    + reflexivity.
Qed.

(** [main], from the parser's answer, the loop's outcome and what [to_csv]
    does. *)
Lemma main_eq (argv : list string) (w : World) :
  main argv w
  = match parse_args argv with
    | inl e => (later w [ParserMessage (msg_of e)] 0, inl e)
    | inr args =>
        match profile_each (if decide (Namespace.model args = "all") then list_models
                            else split "," (Namespace.model args)) args [] [] w with
        | (w1, inl e) => (w1, inl e)
        | (w1, inr ([], _)) => (w1, inl (Exn IndexError "list index out of range"))
        | (w1, inr (first :: rest, errors)) =>
            if bool_decide (Namespace.results_file args ≠ "") then
              match to_csv (table first rest) (Namespace.results_file args) with
              | inr _ => (later w1 (reported args (table first rest) errors) 0, inr tt)
              | inl e =>
                  (later w1 [Print banner; Print "Done."; PrintFrame (table first rest);
                             ToCsv (table first rest) (Namespace.results_file args)] 0,
                   inl e)
              end
            else (later w1 (reported args (table first rest) errors) 0, inr tt)
        end
    end.
Proof.
  unfold main. unfold Py.bind at 1. rewrite parsed_run.
  destruct (parse_args argv) as [e|args]; [reflexivity|].
  unfold Py.bind at 1.
  destruct (profile_each _ args [] [] w) as [w1 [e|[[|first rest] errors]]] eqn:Hloop;
    [reflexivity|reflexivity|].
  assert (Hfirst : sortable first).
  { apply profile_each_sortable in Hloop; [|constructor].
    by apply Forall_cons in Hloop as [? _]. }
  destruct Hfirst as (Hmodel & Hmparams & Hcounter).
  cbv zeta. simpl fst. simpl snd.
  unfold Py.bind at 1, Py.ret at 1. cbn [columns].
  assert (Hsort :
    (if bool_decide ("gmacs" ∈ Dict.keys first)
     then sort_values ["gmacs"; "mparams"; "model"]
            {| columns := Dict.keys first; records := first :: rest |}
     else sort_values ["gflops"; "mparams"; "model"]
            {| columns := Dict.keys first; records := first :: rest |}) w1
    = (w1, inr (table first rest))).
  { unfold table, sort_keys. case_bool_decide as Hgmacs.
    - apply sort_values_present. repeat constructor; assumption.
    - apply sort_values_present. destruct Hcounter as [?|Hgflops]; [contradiction|].
      repeat constructor; assumption. }
  rewrite (bind_step _ _ _ _ _ Hsort). apply report_run.
Qed.

(** X4. When [main] returns, at least one model was profiled, and what it
    put out after the loop is the report of the sorted table: the banner,
    [Done.], the table, the CSV file when a results file was named, the list
    of failed models when there is one. *)
Lemma main_inr (argv : list string) (w w' : World) :
  main argv w = (w', inr tt) →
  ∃ args w1 first rest errors,
    parse_args argv = inr args
    ∧ profile_each (if decide (Namespace.model args = "all") then list_models
                    else split "," (Namespace.model args)) args [] [] w
      = (w1, inr (first :: rest, errors))
    ∧ w' = later w1 (reported args (table first rest) errors) 0.
Proof.
  rewrite main_eq. intros Hrun.
  destruct (parse_args argv) as [e|args]; [discriminate|].
  destruct (profile_each _ args [] [] w) as [w1 [e|[[|first rest] errors]]] eqn:Hloop;
    [discriminate|discriminate|].
  exists args, w1, first, rest, errors. split; [reflexivity|]. split; [exact Hloop|].
  destruct (bool_decide (Namespace.results_file args ≠ "")).
  - destruct (to_csv _ _); [discriminate|]. by injection Hrun as <-.
  - by injection Hrun as <-.
Qed.

(** X3. When no model could be profiled, [main] ends in [IndexError] right
    after the loop: no table, no file and no list of failures. *)
Lemma main_no_rows (argv : list string) (args : Namespace.t) (errors : list string)
    (w w1 : World) :
  parse_args argv = inr args →
  profile_each (if decide (Namespace.model args = "all") then list_models
                else split "," (Namespace.model args)) args [] [] w
    = (w1, inr ([], errors)) →
  main argv w = (w1, inl (Exn IndexError "list index out of range")).
Proof.
  intros Hargs Hloop. unfold main. rewrite Hargs.
  unfold Py.bind at 1, Py.ret at 1.
  unfold Py.bind at 1. rewrite Hloop. reflexivity.
Qed.

(** X2. When at least one model was profiled, [main] prints the banner,
    [Done.] and the sorted table.  Without a results file it then prints
    the list of failed models, if there is one, and returns.  With a
    results file it calls [to_csv] on it first: if the call returns, [main]
    goes on in the same way; if it raises, as it does for a path that cannot
    be written, [main] ends in that exception, after the table, and the list
    of failed models is never printed. *)
Theorem main_report (argv : list string) (args : Namespace.t)
    (first : row) (rest : list row) (errors : list string) (w w1 : World) :
  parse_args argv = inr args →
  profile_each (if decide (Namespace.model args = "all") then list_models
                else split "," (Namespace.model args)) args [] [] w
    = (w1, inr (first :: rest, errors)) →
  let df := {| columns := Dict.keys first;
               records := sorted_by (if bool_decide ("gmacs" ∈ Dict.keys first)
                                     then ["gmacs"; "mparams"; "model"]
                                     else ["gflops"; "mparams"; "model"]) (first :: rest) |} in
  let path := Namespace.results_file args in
  let shown := [Print banner; Print "Done."; PrintFrame df] in
  let failures := if bool_decide (errors ≠ []) then [PrintErrors errors] else [] in
  main argv w
  = if bool_decide (path = "") then
      ({| trace := trace w1 ++ shown ++ failures; runs := runs w1 |}, inr tt)
    else
      match to_csv df path with
      | inr _ =>
          ({| trace := trace w1 ++ shown ++ [ToCsv df path] ++ failures; runs := runs w1 |},
           inr tt)
      | inl e =>
          ({| trace := trace w1 ++ shown ++ [ToCsv df path]; runs := runs w1 |}, inl e)
      end.
Proof.
  intros Hargs Hloop. cbv zeta. rewrite main_eq, Hargs, Hloop.
  unfold reported, table, sort_keys, later. simpl Nat.add.
  destruct (decide (Namespace.results_file args = "")) as [Hnone|Hfile].
  - rewrite (bool_decide_eq_true_2 (_ = "")) by exact Hnone.
    rewrite bool_decide_eq_false_2 by (by intros []). reflexivity.
  - rewrite (bool_decide_eq_false_2 (_ = "")) by exact Hfile.
    rewrite (bool_decide_eq_true_2 (_ ≠ "")) by exact Hfile.
    destruct (to_csv _ _) as [e|[]]; reflexivity.
Qed.

End main_properties.

(** ** Binary64 floats *)

Section float_examples.
Import Binary64.

(** [round] as in Python: [round(0.125, 2) = 0.12] and [round(0.375, 2) =
    0.38] (ties go to the even digit), [round(2.675, 2) = 2.67] and
    [round(1.005, 2) = 1.0] (the floats nearest to 2.675 and 1.005 lie below
    them), [round(-0.125, 2) = -0.12]. *)
Example round_like_python :
  round_to (PrimFloat.div (of_int 125) (of_int 1000)) 2 = hundredths 12
  ∧ round_to (PrimFloat.div (of_int 375) (of_int 1000)) 2 = hundredths 38
  ∧ round_to (PrimFloat.div (of_int 2675) (of_int 1000)) 2 = hundredths 267
  ∧ round_to (PrimFloat.div (of_int 1005) (of_int 1000)) 2 = hundredths 100
  ∧ round_to (PrimFloat.div (of_int (-125)) (of_int 1000)) 2 = hundredths (-12).
Proof. vm_compute. repeat split; reflexivity. Qed.

(** ViT-B/32 has 151,277,313 parameters: 151.28 million. *)
Example millions_vit_b_32 :
  round_to (PrimFloat.div (of_int 151277313) (of_int 1000000)) 2 = hundredths 15128.
Proof. vm_compute. reflexivity. Qed.

End float_examples.

(** ** The profiler on a machine *)

Section machine_examples.
Import Profiler Machine Binary64.

Example count_params_tiny :
  count_params tiny = 25693441
  ∧ match submodule "visual" tiny with inr v => count_params v | inl _ => 0 end = 395520
  ∧ match submodule "text" tiny with inr t => count_params t | inl _ => 0 end = 25297920.
Proof. vm_compute. repeat split; reflexivity. Qed.

(** The shared embedding matrix is counted once. *)
Example parameters_tiny_shared :
  length (walk tiny) = 9%nat ∧ length (parameters tiny) = 8%nat.
Proof. vm_compute. split; reflexivity. Qed.

(** The row the laptop produces: 25.69 million parameters, and 17.6 GFLOPs a
    sample from the second pass (the first pass counted 8.8). *)
Example torch_row_cells :
  torch_row
  = [("model", CStr "tiny"); ("image_size", CInt 224);
     ("mparams", CFloat (hundredths 2569));
     ("image_mparams", CFloat (hundredths 40));
     ("text_mparams", CFloat (hundredths 2530));
     ("gflops", CFloat (hundredths 1760))].
Proof. vm_compute. reflexivity. Qed.

Example torch_run_trace :
  trace torch_outcome.1
  = [Count TorchFlops 0 (Build_input [2; 3; 224; 224] cpu float32) (Build_input [2; 77] cpu int64);
     PrintTable 0;
     MoveTo cpu;
     Count TorchFlops 1 (Build_input [2; 3; 224; 224] cpu float32) (Build_input [2; 77] cpu int64);
     PrintTable 1].
Proof. vm_compute. reflexivity. Qed.

Lemma torch_run :
  profile_model (env := laptop) "tiny" 2 "torch" 224 77 false boot
  = (torch_outcome.1, inr torch_row).
Proof. vm_compute. reflexivity. Qed.

(** For [tiny] the three counts are 25,693,441, 395,520 and 25,297,920
    elements: 25.69, 0.4 and 25.3 million. *)
Lemma profile_model_mparams_witness :
  profile_model (env := laptop) "tiny" 2 "torch" 224 77 false boot
    = (torch_outcome.1, inr torch_row)
  ∧ (∃ created visual_tower text_tower ps visual_ps text_ps,
       create_model (Env := laptop) "tiny" = inr created
       ∧ submodule "visual" (root created) = inr visual_tower
       ∧ submodule "text" (root created) = inr text_tower
       ∧ each_object_once (root created) ps
       ∧ each_object_once visual_tower visual_ps
       ∧ each_object_once text_tower text_ps
       ∧ Dict.get "mparams" torch_row =
           Some (CFloat (round (fdiv (float_of_int (total_elements ps))
                                  (float_of_int 1000000)) 2))
       ∧ Dict.get "image_mparams" torch_row =
           Some (CFloat (round (fdiv (float_of_int (total_elements visual_ps))
                                  (float_of_int 1000000)) 2))
       ∧ Dict.get "text_mparams" torch_row =
           Some (CFloat (round (fdiv (float_of_int (total_elements text_ps))
                                  (float_of_int 1000000)) 2)))
  ∧ total_elements (parameters tiny) = 25693441
  ∧ Dict.get "mparams" torch_row = Some (CFloat (hundredths 2569))
  ∧ Dict.get "image_mparams" torch_row = Some (CFloat (hundredths 40))
  ∧ Dict.get "text_mparams" torch_row = Some (CFloat (hundredths 2530)).
Proof.
  split; [exact torch_run|]. split.
  - exact (profile_model_mparams (env := laptop) "tiny" 2 "torch" 224 77 false boot
             torch_outcome.1 torch_row torch_run).
  - repeat split; vm_compute; reflexivity.
Defined.

(** The first pass on the workstation runs out of GPU memory. *)
Lemma oom_pass :
  measure (env := small_gpu) gpu_model (heading "tiny" 224) "torch" [3; 224; 224] [77] 1
    (bool_decide (1%nat = 0%nat)) boot
  = (oom_outcome.1, inl (Exn OutOfMemoryError "CUDA out of memory.")).
Proof. vm_compute. reflexivity. Qed.

(** On the laptop the first pass counts 17.6 GFLOPs for the batch of two,
    8.8 a sample, and the second 35.2: the row says 17.6 a sample, which is
    the second pass. *)
Lemma profile_model_passes_witness :
  (profile_model (env := laptop) "tiny" 2 "torch" 224 77 false boot
     = (torch_outcome.1, inr torch_row)
   ∧ (∃ created w1 m1 r1 m2,
        create_model (Env := laptop) "tiny" = inr created
        ∧ measure (env := laptop) (prepared (env := laptop) created false) (heading "tiny" 224)
            "torch" [3; 224; 224] [77] 2 false (later boot (preparing (env := laptop)) 0)
          = (w1, inr (m1, r1))
        ∧ measure (env := laptop) m1 r1 "torch" [3; 224; 224] [77] 2 true w1
          = (torch_outcome.1, inr (m2, torch_row))
        ∧ on m2 = cpu
        ∧ let on_cpu := moved cpu (prepared (env := laptop) created false) in
          let image := {| input_shape := [2; 3; 224; 224];
                          input_device := cpu; input_dtype := param_dtype created |} in
          let text := {| input_shape := [2; 77];
                         input_device := cpu; input_dtype := int64 |} in
          ("torch" = "torch"
           ∧ runs w1 = 1%nat
           ∧ runs torch_outcome.1 = 2%nat
           ∧ trace torch_outcome.1
             = trace w1 ++ [MoveTo cpu; Count TorchFlops 1 image text; PrintTable 1]
           ∧ ∃ total,
               count (Env := laptop) TorchFlops 1 on_cpu image text = inr total
               ∧ Dict.get "gflops" torch_row
                 = Some (CFloat (round (fdiv (int_truediv total 2)
                                          (float_of_int 1000000000)) 2)))
          ∨ ("torch" = "fvcore"
             ∧ runs w1 = 2%nat
             ∧ runs torch_outcome.1 = 4%nat
             ∧ trace torch_outcome.1
               = trace w1 ++ [MoveTo cpu; Count FvcoreFlops 2 image text;
                              Count FvcoreActivations 3 image text]
             ∧ ∃ flops activations,
                 count (Env := laptop) FvcoreFlops 2 on_cpu image text = inr flops
                 ∧ count (Env := laptop) FvcoreActivations 3 on_cpu image text
                   = inr activations
                 ∧ Dict.get "gmacs" torch_row
                   = Some (CFloat (round (fdiv (int_truediv flops 2)
                                            (float_of_int 1000000000)) 2))
                 ∧ Dict.get "macts" torch_row
                   = Some (CFloat (round (fdiv (int_truediv activations 2)
                                            (float_of_int 1000000)) 2))))
   ∧ count (Env := laptop) TorchFlops 1
       {| root := tiny; on := cpu; param_dtype := float32; training := false;
          use_contrastive := None |}
       {| input_shape := [2; 3; 224; 224]; input_device := cpu; input_dtype := float32 |}
       {| input_shape := [2; 77]; input_device := cpu; input_dtype := int64 |}
     = inr 35200000000
   ∧ Dict.get "gflops" torch_row = Some (CFloat (hundredths 1760)))
  ∧ (isinstance_RuntimeError (Exn OutOfMemoryError "CUDA out of memory.") = true
     ∧ retry_loop (env := small_gpu) 2 gpu_model (heading "tiny" 224) "torch"
         [3; 224; 224] [77] 1 boot
       = (later oom_outcome.1 [Print "CUDA out of memory."] 0,
          inl (Exn OutOfMemoryError "CUDA out of memory."))).
Proof.
  split.
  - split; [exact torch_run|]. split.
    + exact (proj1 (profile_model_passes (env := laptop) "tiny" 2 "torch" 224 77 false boot)
               torch_outcome.1 torch_row torch_run).
    + repeat split; vm_compute; reflexivity.
  - split; [reflexivity|].
    exact (proj2 (profile_model_passes (env := small_gpu) "tiny" 1 "torch" 224 77 false boot)
             1%nat gpu_model (heading "tiny" 224) [3; 224; 224] [77] boot oom_outcome.1
             (Exn OutOfMemoryError "CUDA out of memory.") oom_pass eq_refl).
Defined.

(** On the workstation the failure on the GPU is final: the loop has a
    second round that would run on the CPU, and never gets to it. *)
Example gpu_failure_is_not_retried :
  profile_model (env := small_gpu) "tiny" 1 "torch" 224 77 false boot
  = ({| trace := [MoveTo cuda;
                  Count TorchFlops 0 (Build_input [1; 3; 224; 224] cuda float32)
                    (Build_input [1; 77] cuda int64);
                  PrintTable 0;
                  Print "CUDA out of memory."];
        runs := 1 |},
     inl (Exn OutOfMemoryError "CUDA out of memory.")).
Proof. vm_compute. reflexivity. Qed.

(** Where only [import fvcore] has run, [fvcore.nn] is no attribute of the
    module: the fvcore profiler gets past the assertion and stops at the
    first use of [fvcore.nn], before any counting run. *)
Example fvcore_without_nn :
  profile_model (env := bare_fvcore) "tiny" 1 "fvcore" 224 77 false boot
  = (boot, inl (Exn AttributeError "module 'fvcore' has no attribute 'nn'")).
Proof. vm_compute. reflexivity. Qed.

(** With [detailed] set the operations are counted before their table is
    printed, and they are not counted again. *)
Example profile_fvcore_detailed :
  trace (profile_fvcore (env := desktop) gpu_model [3; 224; 224] [77] 4 true false boot).1
  = [Count FvcoreFlops 0 (Build_input [4; 3; 224; 224] cuda float32)
       (Build_input [4; 77] cuda int64);
     Print "";
     Count FvcoreActivations 1 (Build_input [4; 3; 224; 224] cuda float32)
       (Build_input [4; 77] cuda int64)].
Proof. vm_compute. reflexivity. Qed.

(** A negative size is refused by [torch.ones] with the message torch
    gives, which is what [print(e)] shows. *)
Example ones_negative :
  ones [2; 3; -224; -224] cpu float32
  = inl (Exn RuntimeError
           "Trying to create tensor with negative dimension -224: [2, 3, -224, -224]").
Proof. vm_compute. reflexivity. Qed.

(** The command line: defaults, and what the parser refuses. *)
Example parse_args_defaults :
  parse_args (env := laptop) [] = inr (Namespace.mk "" "" "torch" 1 224 77 false).
Proof. reflexivity. Qed.

Example parse_args_all :
  parse_args (env := laptop)
    ["--model"; "tiny,RN50"; "--batch-size"; "8"; "--image-size"; "336"; "--text-size"; "64";
     "--profiler"; "fvcore"; "--results-file"; "out.csv"; "--no-contrastive"]
  = inr (Namespace.mk "tiny,RN50" "out.csv" "fvcore" 8 336 64 true).
Proof. vm_compute. reflexivity. Qed.

Example parse_args_other_profiler :
  parse_args (env := laptop) ["--profiler"; "thop"] = inl (Exn SystemExit "2")
  ∧ parse_args (env := laptop) ["--batch-size"; "eight"] = inl (Exn SystemExit "2").
Proof. split; vm_compute; reflexivity. Qed.

(** The parser and Python 3.11's [argparse], side by side: each command line
    below was given to the parser of the script, and what it did (a
    namespace, or the status it exited with) is what [parse_args] answers.
    Options may be abbreviated and may take their value after [=]; a value
    must not look like an option; an unknown option or a stray argument is
    reported only at the end, so that a help option met before wins. *)
Example parse_args_like_argparse :
  parse_args (env := laptop) <$>
    [[];
     ["--help"];
     ["-h"];
     ["-hh"];
     ["-hx"];
     ["--h"];
     ["--hel"];
     ["--help=1"];
     ["-h=h"];
     ["--model=tiny"];
     ["--mod"; "tiny"];
     ["--m=tiny,RN50"];
     ["--batch"; "8"];
     ["--b=8"];
     ["--batch-size"; "-1"];
     ["--batch-size"; " 8 "];
     ["--batch-size"; "1_0"];
     ["--batch-size"; "0x10"];
     ["--batch-size"; "eight"];
     ["--profiler"; "thop"];
     ["--model"; "--no-contrastive"];
     ["--model"; "-1"];
     ["--model"; "a b"];
     ["--model"; "-x"];
     ["--model"; ""];
     ["--model"];
     ["--model"; "a"; "--model"; "b"];
     ["--no-contrastive=1"];
     ["--no"];
     ["--=x"];
     ["--"];
     ["--model"; "--"; "x"];
     ["tiny"];
     ["--model"; "tiny"; "extra"];
     ["--unknown"; "--help"];
     ["--help"; "--unknown"];
     ["--profiler"; "thop"; "--help"];
     ["-1"];
     ["--model=--no-contrastive"];
     ["--model="]]
  = [inr (Namespace.mk "" "" "torch" 1 224 77 false);
     inl (Exn SystemExit "0");
     inl (Exn SystemExit "0");
     inl (Exn SystemExit "0");
     inl (Exn SystemExit "2");
     inl (Exn SystemExit "0");
     inl (Exn SystemExit "0");
     inl (Exn SystemExit "2");
     inl (Exn SystemExit "0");
     inr (Namespace.mk "tiny" "" "torch" 1 224 77 false);
     inr (Namespace.mk "tiny" "" "torch" 1 224 77 false);
     inr (Namespace.mk "tiny,RN50" "" "torch" 1 224 77 false);
     inr (Namespace.mk "" "" "torch" 8 224 77 false);
     inr (Namespace.mk "" "" "torch" 8 224 77 false);
     inr (Namespace.mk "" "" "torch" (-1) 224 77 false);
     inr (Namespace.mk "" "" "torch" 8 224 77 false);
     inr (Namespace.mk "" "" "torch" 10 224 77 false);
     inl (Exn SystemExit "2");
     inl (Exn SystemExit "2");
     inl (Exn SystemExit "2");
     inl (Exn SystemExit "2");
     inr (Namespace.mk "-1" "" "torch" 1 224 77 false);
     inr (Namespace.mk "a b" "" "torch" 1 224 77 false);
     inl (Exn SystemExit "2");
     inr (Namespace.mk "" "" "torch" 1 224 77 false);
     inl (Exn SystemExit "2");
     inr (Namespace.mk "b" "" "torch" 1 224 77 false);
     inl (Exn SystemExit "2");
     inr (Namespace.mk "" "" "torch" 1 224 77 true);
     inl (Exn SystemExit "2");
     inl (Exn SystemExit "2");
     inl (Exn SystemExit "2");
     inl (Exn SystemExit "2");
     inl (Exn SystemExit "2");
     inl (Exn SystemExit "0");
     inl (Exn SystemExit "0");
     inl (Exn SystemExit "2");
     inl (Exn SystemExit "2");
     inr (Namespace.mk "--no-contrastive" "" "torch" 1 224 77 false);
     inr (Namespace.mk "" "" "torch" 1 224 77 false)].
Proof. vm_compute. reflexivity. Qed.

Example split_names :
  split "," "tiny,RN50" = ["tiny"; "RN50"] ∧ split "," "" = [""] ∧ split "," "a,,b" = ["a"; ""; "b"].
Proof. repeat split; reflexivity. Qed.

(** A run in which one model fails and one is profiled: the table has one
    row, the file is written, the failure is listed last. *)
Example main_one_of_two :
  let run := main (env := env true false true)
               ["--model"; "nope,tiny"; "--profiler"; "fvcore"; "--results-file"; "out.csv"]
               boot in
  run.2 = inr tt
  ∧ csv_paths (trace run.1) = ["out.csv"]
  ∧ error_lists (trace run.1) = [["nope"]]
  ∧ last (trace run.1) = Some (PrintErrors ["nope"]).
Proof. vm_compute. repeat split; reflexivity. Qed.

Lemma mixed_loop_run :
  profile_each (env := desktop)
    (if decide (Namespace.model mixed_args = "all") then list_models (Env := desktop)
     else split "," (Namespace.model mixed_args)) mixed_args [] [] boot
  = (mixed_loop.1, inr ([mixed_row], ["nope"])).
Proof. vm_compute. reflexivity. Qed.

Lemma main_report_witness :
  parse_args (env := desktop) mixed_argv = inr mixed_args
  ∧ main (env := desktop) mixed_argv boot
    = ({| trace := trace mixed_loop.1
                   ++ [Print banner; Print "Done.";
                       PrintFrame {| columns := Dict.keys mixed_row; records := [mixed_row] |}]
                   ++ [ToCsv {| columns := Dict.keys mixed_row; records := [mixed_row] |}
                         "out.csv"]
                   ++ [PrintErrors ["nope"]];
          runs := runs mixed_loop.1 |}, inr tt).
Proof.
  split; [reflexivity|].
  exact (main_report (env := desktop) mixed_argv mixed_args mixed_row [] ["nope"] boot
           mixed_loop.1 eq_refl mixed_loop_run).
Defined.

(** A results file that cannot be written: the model is profiled and the
    table is printed, then [main] ends in the [OSError] of [to_csv]. *)
Example main_unwritable :
  let run := main (env := laptop)
               ["--model"; "tiny,nope"; "--results-file"; "/nowhere/out.csv"] boot in
  run.2 = inl (Exn OSError "Cannot save file into a non-existent directory: '/nowhere'")
  ∧ csv_paths (trace run.1) = ["/nowhere/out.csv"]
  ∧ error_lists (trace run.1) = []
  ∧ match last (trace run.1) with Some (ToCsv _ _) => true | _ => false end = true.
Proof. vm_compute. repeat split; reflexivity. Qed.

(** Asking for help ends the run before anything is profiled. *)
Example main_help :
  main (env := laptop) ["--model"; "tiny"; "--help"] boot
  = ({| trace := [ParserMessage "0"]; runs := 0 |}, inl (Exn SystemExit "0")).
Proof. vm_compute. reflexivity. Qed.

Lemma mixed_run : main (env := desktop) mixed_argv boot = (mixed_outcome.1, inr tt).
Proof. vm_compute. reflexivity. Qed.

Lemma main_inr_witness :
  main (env := desktop) mixed_argv boot = (mixed_outcome.1, inr tt)
  ∧ ∃ args w1 first rest errors,
      parse_args (env := desktop) mixed_argv = inr args
      ∧ profile_each (env := desktop)
          (if decide (Namespace.model args = "all") then list_models (Env := desktop)
           else split "," (Namespace.model args)) args [] [] boot
        = (w1, inr (first :: rest, errors))
      ∧ mixed_outcome.1 = later w1 (reported args (table (env := desktop) first rest) errors) 0.
Proof.
  split; [exact mixed_run|].
  exact (main_inr (env := desktop) mixed_argv boot mixed_outcome.1 mixed_run).
Defined.

Lemma failed_loop_run :
  profile_each (env := laptop)
    (if decide (Namespace.model failed_args = "all") then list_models (Env := laptop)
     else split "," (Namespace.model failed_args)) failed_args [] [] boot
  = (failed_loop.1, inr ([], ["tiny"; "nope"])).
Proof. vm_compute. reflexivity. Qed.

Lemma main_no_rows_witness :
  parse_args (env := laptop) failed_argv = inr failed_args
  ∧ main (env := laptop) failed_argv boot
    = (failed_loop.1, inl (Exn IndexError "list index out of range")).
Proof.
  split; [reflexivity|].
  exact (main_no_rows (env := laptop) failed_argv failed_args ["tiny"; "nope"] boot
           failed_loop.1 eq_refl failed_loop_run).
Defined.

(** C2. On a machine without fvcore, [--model tiny,nope --profiler fvcore]
    makes both models fail.  Each failure is caught, its message and its
    traceback are printed and the next model is tried; but then [main] ends
    in [IndexError] at [results[0]], and the list of failed models, here
    [tiny] and [nope], is never printed. *)
Theorem main_all_models_fail :
  main (env := laptop) ["--model"; "tiny,nope"; "--profiler"; "fvcore"] boot
  = ({| trace := [Print banner; Print "Profiling tiny";
                  Print "Error profiling tiny: Please install fvcore.";
                  PrintExc (Exn AssertionError "Please install fvcore.");
                  Print banner; Print "Profiling nope";
                  Print "Error profiling nope: Please install fvcore.";
                  PrintExc (Exn AssertionError "Please install fvcore.")];
        runs := 0 |},
     inl (Exn IndexError "list index out of range")).
Proof. vm_compute. reflexivity. Qed.

(** C6. On a machine without fvcore,
    [--model tiny --profiler fvcore --results-file out.csv] is accepted by
    the parser with [out.csv] as the results file, and no CSV file is
    written: the only model fails and [main] ends in [IndexError] before it
    reaches [to_csv]. *)
Theorem main_all_models_fail_no_csv :
  let argv := ["--model"; "tiny"; "--profiler"; "fvcore"; "--results-file"; "out.csv"] in
  parse_args (env := laptop) argv = inr (Namespace.mk "tiny" "out.csv" "fvcore" 1 224 77 false)
  ∧ (main (env := laptop) argv boot).2 = inl (Exn IndexError "list index out of range")
  ∧ csv_paths (trace (main (env := laptop) argv boot).1) = [].
Proof. vm_compute. repeat split; reflexivity. Qed.

End machine_examples.

(** * Part III: further properties *)

(** ** [MaMMUT]: data flow of the forward pass *)

Section forward_properties.
Context {torch : Torch} {towers : Towers}.
Import MaMMUT.

(** The image step of [forward]. *)
Lemma forward_image_step (image image_latent image_embs : option Tensor) (w : World) :
  (match image with
   | Some image =>
       if bool_decide (image_latent = None ∨ image_embs = None) then
         r <- _encode_image image true ;;
         Py.ret (Some r.1, Some r.2)
       else Py.ret (image_latent, image_embs)
   | None => Py.ret (image_latent, image_embs)
   end) w
  = match image with
    | Some x =>
        if bool_decide (image_latent = None ∨ image_embs = None) then
          (after_call w (CallVisual x),
           inr (Some (normalize (VisionTower_forward (Self.visual (self w)) x).1 (-1)),
                Some (VisionTower_forward (Self.visual (self w)) x).2))
        else (w, inr (image_latent, image_embs))
    | None => (w, inr (image_latent, image_embs))
    end.
Proof. destruct image; [case_bool_decide|]; reflexivity. Qed.

(** X7. In its contrastive branch [_forward] calls the decoder once, on the
    whole text and without image embeddings, and stores the normalized mean
    of the text latent under [text_features]; whatever [image_embs] and
    [is_training] are, they play no part, and every other key of [out] is
    left as it was. *)
Theorem _forward_contrastive_features (text : Tokens) (out : gmap string value)
    (image_embs : option Tensor) (is_training : bool) (w : World) :
  ∃ out',
    _forward text out image_embs true is_training w
      = (after_call w (CallText text None), inr out')
    ∧ out' !! "text_features"
      = Some (VTensor (normalize
                (mean (MultimodalTransformer_forward (Self.text (self w)) text None).2 1) (-1)))
    ∧ ∀ k, k ≠ "text_features" → out' !! k = out !! k.
Proof.
  eexists. split; [reflexivity|]. split.
  - apply lookup_insert_eq.
  - intros k Hk. by apply lookup_insert_ne.
Qed.

(** X8. When [_forward] returns, it has made exactly one call to the
    decoder: on the whole text and without image embeddings in the
    contrastive branch; in the generative branch on the text, without its
    last column when [is_training], and with the image embeddings mapped by
    [map_viz2txt_kv].  The model is as it was, and only the branch's own keys
    of [out] are written, [text_features] in the contrastive branch, [labels]
    and [logits] in the generative one: every other entry of [out] comes back
    unchanged, and no key is lost. *)
Theorem _forward_frame (text : Tokens) (out out' : gmap string value)
    (image_embs : option Tensor) (contrastive is_training : bool) (w w' : World) :
  _forward text out image_embs contrastive is_training w = (w', inr out') →
  let written : list string :=
    if contrastive then ["text_features"] else ["labels"; "logits"] in
  self w' = self w
  ∧ calls w'
    = calls w
      ++ [if contrastive then CallText text None
          else CallText (if is_training then @removelast Z <$> text else text)
                 (mapped w image_embs)]
  ∧ dom out' = list_to_set written ∪ dom out
  ∧ ∀ k, k ∉ written → out' !! k = out !! k.
Proof.
  intros Hrun. cbv zeta. destruct contrastive.
  - rewrite _forward_contrastive_eq in Hrun. injection Hrun as <- <-.
    split; [reflexivity|]. split; [reflexivity|]. split.
    + rewrite dom_insert_L. cbn [list_to_set]. by rewrite (right_id_L ∅ (∪)).
    + intros k Hk. apply lookup_insert_ne. intros <-. apply Hk, list_elem_of_here.
  - rewrite _forward_generative_eq in Hrun. cbv zeta in Hrun. injection Hrun as <- <-.
    split; [reflexivity|]. split; [reflexivity|]. split.
    + rewrite !dom_insert_L. cbn [list_to_set]. apply set_eq. intros k.
      rewrite !elem_of_union, !elem_of_singleton, elem_of_empty. tauto.
    + intros k Hk. rewrite !lookup_insert_ne; [done| |]; intros <-; apply Hk.
      * apply list_elem_of_here.
      * apply list_elem_of_further, list_elem_of_here.
Qed.

(** [forward], step by step: the image step, the contrastive step, the
    generative step. *)
Lemma forward_eq (image : option Tensor) (text : option Tokens)
    (image_latent image_embs : option Tensor) (is_training : bool) (w : World) :
  let encoded :=
    match image with
    | Some x => if bool_decide (image_latent = None ∨ image_embs = None) then Some x else None
    | None => None
    end in
  let w1 := match encoded with Some x => after_call w (CallVisual x) | None => w end in
  let latent :=
    match encoded with
    | Some x => Some (normalize (VisionTower_forward (Self.visual (self w)) x).1 (-1))
    | None => image_latent
    end in
  let cross_attended :=
    match encoded with
    | Some x => Some (VisionTower_forward (Self.visual (self w)) x).2
    | None => image_embs
    end in
  let decoder := MultimodalTransformer_forward (Self.text (self w)) in
  let out0 : gmap string value :=
    <["image_features" := of_optional latent]>
      {["logit_scale" := VTensor (exp (data (Self.logit_scale (self w))))]} in
  forward image text image_latent image_embs is_training w
  = match text with
    | None => (w1, inr out0)
    | Some t =>
        let contrast := is_training && Self.use_contrastive (self w) in
        let w2 := if contrast then after_call w1 (CallText t None) else w1 in
        let features :=
          if contrast then VTensor (normalize (mean (decoder t None).2 1) (-1)) else VNone in
        let input := if is_training then @removelast Z <$> t else t in
        (after_call w2 (CallText input (mapped w cross_attended)),
         inr (<["logits" := VTensor (decoder input (mapped w cross_attended)).1]>
                (<["labels" := VTokens (tail <$> t)]>
                   (<["text_features" := features]> out0))))
    end.
Proof.
  cbv zeta. unfold forward, Py.bind at 1, Py.get at 1.
  unfold Py.bind at 1. rewrite forward_image_step.
  assert (Htext : ∀ (t : Tokens) (out : gmap string value) (embs : option Tensor) (w1 : World),
    self w1 = self w →
    (w0 <- Py.get ;;
     out <- (if is_training && Self.use_contrastive (self w0)
             then _forward t out None true true
             else Py.ret (<["text_features" := VNone]> out)) ;;
     _forward t out embs false is_training) w1
    = (after_call
         (if is_training && Self.use_contrastive (self w)
          then after_call w1 (CallText t None) else w1)
         (CallText (if is_training then @removelast Z <$> t else t) (mapped w embs)),
       inr (<["logits" := VTensor (MultimodalTransformer_forward (Self.text (self w))
                                     (if is_training then @removelast Z <$> t else t)
                                     (mapped w embs)).1]>
              (<["labels" := VTokens (tail <$> t)]>
                 (<["text_features" :=
                      if is_training && Self.use_contrastive (self w)
                      then VTensor (normalize (mean (MultimodalTransformer_forward
                                                       (Self.text (self w)) t None).2 1) (-1))
                      else VNone]> out))))).
  { intros t out embs w1 Hself. unfold Py.bind at 1, Py.get at 1. rewrite Hself.
    destruct (is_training && Self.use_contrastive (self w)).
    - unfold Py.bind at 1. rewrite _forward_contrastive_eq, _forward_generative_eq.
      cbv zeta. unfold mapped. cbn [self after_call]. by rewrite Hself.
    - unfold Py.bind at 1, Py.ret at 1. rewrite _forward_generative_eq.
      cbv zeta. unfold mapped. by rewrite Hself. }
  destruct image as [x|]; [case_bool_decide|];
    (destruct text as [t|]; [|reflexivity]); cbv zeta; simpl fst; simpl snd;
    by rewrite Htext.
Qed.

(** X9. The calls [forward] makes into the towers, in order.  The vision
    tower is called, once and on the image, exactly when there is an image
    and the caller gave no latent or no embeddings.  With a text, the decoder
    is called on the whole text without image embeddings when [is_training]
    and [use_contrastive] hold, and then, always, on the text (without its
    last column when [is_training]) with the image embeddings mapped by
    [map_viz2txt_kv]: those of the vision tower when it was called, the
    caller's otherwise, none when there are none.  Without a text the
    decoder is not called. *)
Theorem forward_tower_calls (image : option Tensor) (text : option Tokens)
    (image_latent image_embs : option Tensor) (is_training : bool) (w : World) :
  let encoded :=
    match image with
    | Some x => if bool_decide (image_latent = None ∨ image_embs = None) then Some x else None
    | None => None
    end in
  let cross_attended :=
    match encoded with
    | Some x => Some (VisionTower_forward (Self.visual (self w)) x).2
    | None => image_embs
    end in
  calls (forward image text image_latent image_embs is_training w).1
  = calls w
    ++ match encoded with Some x => [CallVisual x] | None => [] end
    ++ match text with
       | Some t =>
           (if is_training && Self.use_contrastive (self w) then [CallText t None] else [])
           ++ [CallText (if is_training then @removelast Z <$> t else t)
                 (mapped w cross_attended)]
       | None => []
       end.
Proof.
  cbv zeta. rewrite forward_eq. cbv zeta.
  destruct text as [t|]; simpl.
  - destruct (is_training && Self.use_contrastive (self w));
      destruct (match image with
                | Some x => if bool_decide (image_latent = None ∨ image_embs = None)
                            then Some x else None
                | None => None
                end); simpl; by rewrite <- ?app_assoc.
  - destruct (match image with
              | Some x => if bool_decide (image_latent = None ∨ image_embs = None)
                          then Some x else None
              | None => None
              end); simpl; by rewrite ?app_nil_r.
Qed.

(** X10. The values [forward] returns.  [image_features] is the normalized
    pooled output of the vision tower when the image was encoded, and
    otherwise what the caller gave as [image_latent], [None] included: a
    latent given together with an image but without embeddings is replaced.
    With a text, [labels] is the text without its first column; [logits] are
    the decoder's token logits on the text (without its last column when
    [is_training]) and the mapped image embeddings; [text_features] is the
    normalized mean of the decoder's latent on the whole text, without image
    embeddings, when [is_training] and [use_contrastive] hold, and [None]
    otherwise. *)
Theorem forward_values (image : option Tensor) (text : option Tokens)
    (image_latent image_embs : option Tensor) (is_training : bool) (w : World) :
  let encoded :=
    match image with
    | Some x => if bool_decide (image_latent = None ∨ image_embs = None) then Some x else None
    | None => None
    end in
  let cross_attended :=
    match encoded with
    | Some x => Some (VisionTower_forward (Self.visual (self w)) x).2
    | None => image_embs
    end in
  let decoder := MultimodalTransformer_forward (Self.text (self w)) in
  ∃ w' out,
    forward image text image_latent image_embs is_training w = (w', inr out)
    ∧ out !! "image_features"
      = Some match encoded with
             | Some x => VTensor (normalize (VisionTower_forward (Self.visual (self w)) x).1 (-1))
             | None => of_optional image_latent
             end
    ∧ match text with
      | Some t =>
          out !! "labels" = Some (VTokens (tail <$> t))
          ∧ out !! "logits"
            = Some (VTensor (decoder (if is_training then @removelast Z <$> t else t)
                               (mapped w cross_attended)).1)
          ∧ out !! "text_features"
            = Some (if is_training && Self.use_contrastive (self w)
                    then VTensor (normalize (mean (decoder t None).2 1) (-1))
                    else VNone)
      | None => True
      end.
Proof.
  cbv zeta. rewrite forward_eq. cbv zeta.
  destruct text as [t|]; eexists _, _; (split; [reflexivity|]).
  - split; [|split; [|split]].
    + rewrite !lookup_insert_ne by discriminate. rewrite lookup_insert_eq.
      by destruct image; [case_bool_decide|].
    + rewrite lookup_insert_ne by discriminate. apply lookup_insert_eq.
    + apply lookup_insert_eq.
    + rewrite !lookup_insert_ne by discriminate. apply lookup_insert_eq.
  - split; [|done]. rewrite lookup_insert_eq.
    by destruct image; [case_bool_decide|].
Qed.

End forward_properties.

(** ** [MaMMUT._use_contrastive]: failure, monotonicity, composition *)

Section use_contrastive_properties.
Context {torch : Torch} {towers : Towers}.
Import MaMMUT.

(** X11. [_use_contrastive(False)] returns exactly on the models that have
    all the parameters of the contrastive head.  On any other model it ends
    in [AttributeError] at the first one that is missing, and by then
    [use_contrastive] is false already: the flag is set before the first
    parameter is touched.  No tower is called either way. *)
Theorem _use_contrastive_outcome (w : World) :
  match _use_contrastive false w with
  | (w', inr _) =>
      Forall (λ p, is_Some (parameter_of (self w) p)) contrastive_head
      ∧ calls w' = calls w
  | (w', inl e) =>
      class_of e = AttributeError
      ∧ Exists (λ p, parameter_of (self w) p = None) contrastive_head
      ∧ Self.use_contrastive (self w') = false
      ∧ calls w' = calls w
  end.
Proof.
  assert (Hmiss : ∀ p, bool_decide (p ∈ contrastive_head) = true →
            parameter_of (self w) p = None →
            Exists (λ p, parameter_of (self w) p = None) contrastive_head).
  { intros p Hp Hnone. apply Exists_exists. exists p. split; [|exact Hnone].
    by apply in_contrastive_head. }
  destruct (decide (Forall (λ p, is_Some (parameter_of (self w) p)) contrastive_head))
    as [Hhead|Hnot].
  { rewrite (_use_contrastive_false_run w Hhead). done. }
  set (s0 := Self.set_use_contrastive false (self w)).
  unfold _use_contrastive. simpl negb. cbv iota.
  unfold Py.bind at 1. unfold on_self at 1, Py.modify at 1. fold s0.
  destruct (Self.text (self w) !! "ln_final.bias") as [tb|] eqn:Htb.
  2: { unfold Py.bind at 1. rewrite text_set_requires_grad_none by exact Htb.
       split; [reflexivity|]. split; [|done].
       by apply (Hmiss (InText "ln_final.bias")). }
  unfold Py.bind at 1. rewrite text_set_requires_grad_ok by (simpl; rewrite Htb; by eexists).
  cbn [self calls]. set (s1 := assign_requires_grad _ false s0).
  destruct (Self.text (self w) !! "ln_final.weight") as [tw|] eqn:Htw.
  2: { unfold Py.bind at 1. rewrite text_set_requires_grad_none
         by (apply (assign_None _ _ _ (InText "ln_final.weight")); exact Htw).
       split; [reflexivity|]. split; [|done].
       by apply (Hmiss (InText "ln_final.weight")). }
  unfold Py.bind at 1. rewrite text_set_requires_grad_ok
    by (apply (assign_is_Some _ _ _ (InText "ln_final.weight")); simpl; rewrite Htw; by eexists).
  cbn [self calls]. set (s2 := assign_requires_grad _ false s1).
  destruct (Self.visual (self w) !! "proj") as [vp|] eqn:Hvp.
  2: { unfold Py.bind at 1. rewrite visual_set_requires_grad_none
         by (do 2 apply (assign_None _ _ _ (InVisual "proj")); exact Hvp).
       split; [reflexivity|]. split; [|done].
       by apply (Hmiss (InVisual "proj")). }
  unfold Py.bind at 1. rewrite visual_set_requires_grad_ok
    by (do 2 apply (assign_is_Some _ _ _ (InVisual "proj")); simpl; rewrite Hvp; by eexists).
  cbn [self calls]. set (s3 := assign_requires_grad _ false s2).
  destruct (Self.visual (self w) !! "ln_post.bias") as [vb|] eqn:Hvb.
  2: { unfold Py.bind at 1. rewrite visual_set_requires_grad_none
         by (do 3 apply (assign_None _ _ _ (InVisual "ln_post.bias")); exact Hvb).
       split; [reflexivity|]. split; [|done].
       by apply (Hmiss (InVisual "ln_post.bias")). }
  unfold Py.bind at 1. rewrite visual_set_requires_grad_ok
    by (do 3 apply (assign_is_Some _ _ _ (InVisual "ln_post.bias")); simpl; rewrite Hvb;
        by eexists).
  cbn [self calls]. set (s4 := assign_requires_grad _ false s3).
  destruct (Self.visual (self w) !! "ln_post.weight") as [vw|] eqn:Hvw.
  2: { unfold Py.bind at 1. rewrite visual_set_requires_grad_none
         by (do 4 apply (assign_None _ _ _ (InVisual "ln_post.weight")); exact Hvw).
       split; [reflexivity|]. split; [|done].
       by apply (Hmiss (InVisual "ln_post.weight")). }
  exfalso. apply Hnot. repeat constructor; simpl; eauto.
Qed.

(** *** What [_use_contrastive] never does *)

Lemma at_most_refl (a : Param) : at_most a a.
Proof. by split. Qed.

Lemma at_most_cleared (a : Param) : at_most a (set_requires_grad false a).
Proof. split; [reflexivity|discriminate]. Qed.

Lemma frozen_from_refl (s : Self.t) : frozen_from s s.
Proof. intros p. destruct (parameter_of s p); constructor. apply at_most_refl. Qed.

Lemma frozen_from_trans (s1 s2 s3 : Self.t) :
  frozen_from s1 s2 → frozen_from s2 s3 → frozen_from s1 s3.
Proof.
  intros H12 H23 p. specialize (H12 p). specialize (H23 p).
  destruct H12 as [a b [Hd1 Hg1]|]; inversion H23 as [b' c [Hd2 Hg2]|]; subst; constructor.
  split; [congruence|auto].
Qed.

(** An invariant of the model goes through a sequence of steps whether or
    not one of them raises. *)
Lemma frozen_bind {A B} (m : M World A) (k : A → M World B) (w : World) :
  frozen_from (self w) (self (m w).1) →
  (∀ a w1, frozen_from (self w1) (self (k a w1).1)) →
  frozen_from (self w) (self (Py.bind m k w).1).
Proof.
  intros Hm Hk. unfold Py.bind. destruct (m w) as [w1 [e|a]]; [exact Hm|].
  eapply frozen_from_trans; [exact Hm|apply Hk].
Qed.

(** Clearing the flag of an object, under however many names, enables
    nothing. *)
Lemma frozen_assign (target : positive) (s : Self.t) :
  frozen_from s (assign_requires_grad target false s).
Proof.
  intros p. rewrite parameter_of_assign.
  destruct (parameter_of s p) as [a|]; constructor.
  case_decide; [apply at_most_cleared|apply at_most_refl].
Qed.

Lemma frozen_text_step (path : string) (w : World) :
  frozen_from (self w) (self (text_set_requires_grad path false w).1).
Proof.
  destruct (Self.text (self w) !! path) as [p0|] eqn:Hp.
  - rewrite text_set_requires_grad_ok by (rewrite Hp; by eexists). apply frozen_assign.
  - rewrite (text_set_requires_grad_none _ _ _ Hp). apply frozen_from_refl.
Qed.

Lemma frozen_visual_step (path : string) (w : World) :
  frozen_from (self w) (self (visual_set_requires_grad path false w).1).
Proof.
  destruct (Self.visual (self w) !! path) as [p0|] eqn:Hp.
  - rewrite visual_set_requires_grad_ok by (rewrite Hp; by eexists). apply frozen_assign.
  - rewrite (visual_set_requires_grad_none _ _ _ Hp). apply frozen_from_refl.
Qed.

Lemma frozen_logit_scale_step (w : World) :
  frozen_from (self w) (self (logit_scale_set_requires_grad false w).1).
Proof. apply frozen_assign. Qed.

Lemma frozen_flag_step (used : bool) (w : World) :
  frozen_from (self w) (self (on_self (Self.set_use_contrastive used) w).1).
Proof.
  intros p. simpl. rewrite parameter_of_set_use_contrastive.
  destruct (parameter_of (self w) p); constructor. apply at_most_refl.
Qed.

(** X12. Whatever its argument, and whether it returns or raises half way,
    [_use_contrastive] leaves the model with the parameters it had: none is
    added, none is removed, every value is kept, and no [requires_grad] flag
    that was false becomes true.  In particular [_use_contrastive(True)]
    does not undo [_use_contrastive(False)]. *)
Theorem _use_contrastive_never_enables (used : bool) (w : World) :
  frozen_from (self w) (self (_use_contrastive used w).1).
Proof.
  unfold _use_contrastive.
  apply frozen_bind; [apply frozen_flag_step|]. intros _ w1.
  destruct used; simpl negb; cbv iota; [apply frozen_from_refl|].
  apply frozen_bind; [apply frozen_text_step|]. intros _ w2.
  apply frozen_bind; [apply frozen_text_step|]. intros _ w3.
  apply frozen_bind; [apply frozen_visual_step|]. intros _ w4.
  apply frozen_bind; [apply frozen_visual_step|]. intros _ w5.
  apply frozen_bind; [apply frozen_visual_step|]. intros _ w6.
  apply frozen_logit_scale_step.
Qed.

Lemma set_use_contrastive_same (b : bool) (s : Self.t) :
  Self.use_contrastive s = b → Self.set_use_contrastive b s = s.
Proof. destruct s; simpl. by intros ->. Qed.

(** Freezing the same objects a second time changes nothing. *)
Lemma freeze_freeze (ps : list pname) (s : Self.t) : freeze ps (freeze ps s) = freeze ps s.
Proof.
  destruct (freeze_fields ps s) as (Hi & Hu & Hc & Hp).
  destruct (freeze_fields ps (freeze ps s)) as (Hi' & Hu' & Hc' & Hp').
  apply self_eq; [|congruence..].
  intros q. rewrite (parameter_of_freeze ps (freeze ps s)), Hi, parameter_of_freeze.
  destruct (parameter_of s q) as [a|]; [|reflexivity].
  cbn [fmap option_fmap option_map data requires_grad]. f_equal.
  by case_bool_decide.
Qed.

(** X13. On a model that has the parameters of the contrastive head,
    [_use_contrastive(False)] followed by [_use_contrastive(True)] returns
    with [use_contrastive] true and the six parameters still frozen, and
    [_use_contrastive(False)] a second time changes nothing. *)
Theorem _use_contrastive_sticky (w : World) :
  Forall (λ p, is_Some (parameter_of (self w) p)) contrastive_head →
  ∃ s1 s2,
    _use_contrastive false w = ({| self := s1; calls := calls w |}, inr tt)
    ∧ _use_contrastive true {| self := s1; calls := calls w |}
      = ({| self := s2; calls := calls w |}, inr tt)
    ∧ Self.use_contrastive s2 = true
    ∧ (∀ p, p ∈ contrastive_head → requires_grad <$> parameter_of s2 p = Some false)
    ∧ _use_contrastive false {| self := s1; calls := calls w |}
      = ({| self := s1; calls := calls w |}, inr tt).
Proof.
  intros Hhead.
  set (s1 := freeze head_order (Self.set_use_contrastive false (self w))).
  assert (Hhead1 : Forall (λ p, is_Some (parameter_of s1 p)) contrastive_head).
  { apply Forall_forall. intros p Hp. apply freeze_is_Some.
    rewrite parameter_of_set_use_contrastive. exact (proj1 (Forall_forall _ _) Hhead p Hp). }
  exists s1, (Self.set_use_contrastive true s1).
  split; [exact (_use_contrastive_false_run w Hhead)|].
  split; [reflexivity|]. split; [reflexivity|]. split.
  - intros p Hp. rewrite parameter_of_set_use_contrastive. unfold s1.
    rewrite parameter_of_freeze, parameter_of_set_use_contrastive.
    destruct (proj1 (Forall_forall _ _) Hhead p Hp) as [a ->].
    cbn [fmap option_fmap option_map requires_grad]. f_equal.
    rewrite bool_decide_eq_true_2; [reflexivity|].
    apply (proj2 (head_order_head
                    (λ p0, Self.ident (Self.set_use_contrastive false (self w)) (dotted p0)) _)).
    exact (list_elem_of_fmap_2
             (λ p0, Self.ident (Self.set_use_contrastive false (self w)) (dotted p0)) _ _ Hp).
  - rewrite (_use_contrastive_false_run {| self := s1; calls := calls w |} Hhead1).
    cbn [self calls]. do 2 f_equal.
    rewrite set_use_contrastive_same
      by exact (proj1 (proj2 (freeze_fields head_order
                                (Self.set_use_contrastive false (self w))))).
    apply freeze_freeze.
Qed.

End use_contrastive_properties.

(** ** Building the model *)

Section builder_properties.
Context {float : Type} {torch : Torch} {factory : MaMMUT.Factory (float := float)}.
Import MaMMUT.

(** Two maps written as sequences of inserts are equal when they agree on
    every key. *)
Ltac same_map :=
  apply map_eq; intros ?;
  rewrite ?lookup_insert, ?lookup_singleton, ?lookup_empty;
  repeat case_decide; simplify_eq; done.

(** What a returning [_build_multimodal_decoder_tower] has done. *)
Lemma _build_multimodal_decoder_tower_inr {St} (embed_dim : pyval) (multimodal_cfg : cfg_arg)
    (quick_gelu : bool) (cast_dtype : option dtype) (s s' : St) (decoder : gmap string Param) :
  _build_multimodal_decoder_tower embed_dim multimodal_cfg quick_gelu cast_dtype s
    = (s', inr decoder) →
  s' = s
  ∧ ∃ cfg args,
      as_config MultimodalCfg multimodal_cfg = inr cfg
      ∧ MultimodalTransformer args = inr decoder
      ∧ cfg_getattr cfg "context_length" = inr (arg_context_length args)
      ∧ cfg_getattr cfg "width" = inr (arg_width args)
      ∧ cfg_getattr cfg "heads" = inr (arg_heads args)
      ∧ cfg_getattr cfg "layers" = inr (arg_layers args)
      ∧ cfg_getattr cfg "ls_init_value" = inr (arg_ls_init_value args)
      ∧ cfg_getattr cfg "cross_attn_ratio" = inr (arg_cross_attn_ratio args)
      ∧ cfg_getattr cfg "does_full_decoding" = inr (arg_does_full_decoding args)
      ∧ cfg_getattr cfg "output_tokens" = inr (arg_output_tokens args)
      ∧ cfg_getattr cfg "has_mlp" = inr (arg_has_mlp args)
      ∧ arg_output_dim args = embed_dim
      ∧ arg_act_layer args = (if quick_gelu then QuickGELU else GELU)
      ∧ arg_norm_layer args
        = (if bool_decide (cast_dtype = Some float16 ∨ cast_dtype = Some bfloat16)
           then LayerNormFp32 else LayerNorm).
Proof.
  intros Hrun. unfold _build_multimodal_decoder_tower in Hrun.
  apply bind_inr in Hrun as (s0 & cfg & Hcfg & Hrun).
  apply lift_inr in Hcfg as [-> Hcfg]. cbv zeta in Hrun.
  apply bind_inr in Hrun as (s0 & context_length & H1 & Hrun). apply lift_inr in H1 as [-> H1].
  apply bind_inr in Hrun as (s0 & width & H2 & Hrun). apply lift_inr in H2 as [-> H2].
  apply bind_inr in Hrun as (s0 & heads & H3 & Hrun). apply lift_inr in H3 as [-> H3].
  apply bind_inr in Hrun as (s0 & layers & H4 & Hrun). apply lift_inr in H4 as [-> H4].
  apply bind_inr in Hrun as (s0 & ls_init_value & H5 & Hrun). apply lift_inr in H5 as [-> H5].
  apply bind_inr in Hrun as (s0 & cross_attn_ratio & H6 & Hrun). apply lift_inr in H6 as [-> H6].
  apply bind_inr in Hrun as (s0 & does_full_decoding & H7 & Hrun). apply lift_inr in H7 as [-> H7].
  apply bind_inr in Hrun as (s0 & output_tokens & H8 & Hrun). apply lift_inr in H8 as [-> H8].
  apply bind_inr in Hrun as (s0 & has_mlp & H9 & Hrun). apply lift_inr in H9 as [-> H9].
  apply bind_inr in Hrun as (s0 & built & Hbuilt & Hrun). apply lift_inr in Hbuilt as [-> Hbuilt].
  apply ret_inr in Hrun as [-> ->].
  split; [reflexivity|]. eexists cfg, _. split; [exact Hcfg|]. split; [exact Hbuilt|].
  simpl. repeat (split; [assumption || reflexivity|]). reflexivity.
Qed.

(** X14. When [_build_multimodal_decoder_tower] returns a decoder, it is the
    [MultimodalTransformer] built from the config (the object given, or
    [MultimodalCfg] applied to the dict given) with the config's nine fields
    passed on as they are, [output_dim] set to the [embed_dim] argument,
    [QuickGELU] as activation exactly when [quick_gelu] is set, and
    [LayerNormFp32] as norm layer exactly when [cast_dtype] is float16 or
    bfloat16: no [cast_dtype], float32 and any other dtype give
    [LayerNorm]. *)
Theorem _build_multimodal_decoder_tower_args {St} (embed_dim : pyval)
    (multimodal_cfg : cfg_arg) (quick_gelu : bool) (cast_dtype : option dtype) (s s' : St)
    (decoder : gmap string Param) :
  _build_multimodal_decoder_tower embed_dim multimodal_cfg quick_gelu cast_dtype s
    = (s', inr decoder) →
  ∃ cfg args,
    match multimodal_cfg with
    | IsDict d => MultimodalCfg d = inr cfg
    | IsCfg c => cfg = c
    end
    ∧ MultimodalTransformer args = inr decoder
    ∧ Forall (λ field, __dict__ cfg !! field.1 = Some field.2)
        [("context_length", arg_context_length args); ("width", arg_width args);
         ("heads", arg_heads args); ("layers", arg_layers args);
         ("ls_init_value", arg_ls_init_value args);
         ("cross_attn_ratio", arg_cross_attn_ratio args);
         ("does_full_decoding", arg_does_full_decoding args);
         ("output_tokens", arg_output_tokens args); ("has_mlp", arg_has_mlp args)]
    ∧ arg_output_dim args = embed_dim
    ∧ arg_act_layer args = (if quick_gelu then QuickGELU else GELU)
    ∧ arg_norm_layer args
      = match cast_dtype with
        | Some float16 | Some bfloat16 => LayerNormFp32
        | Some float32 | Some int64 | None => LayerNorm
        end.
Proof.
  intros Hrun. apply _build_multimodal_decoder_tower_inr in Hrun
    as (_ & cfg & args & Hcfg & Hbuilt & H1 & H2 & H3 & H4 & H5 & H6 & H7 & H8 & H9
        & Hdim & Hact & Hnorm).
  assert (Hfield : ∀ name v, cfg_getattr cfg name = inr v → __dict__ cfg !! name = Some v).
  { intros name v. unfold cfg_getattr. destruct (__dict__ cfg !! name); by intros [= ->]. }
  exists cfg, args. split.
  { destruct multimodal_cfg as [d|c]; simpl in Hcfg; [exact Hcfg|congruence]. }
  split; [exact Hbuilt|]. split.
  { repeat constructor; simpl; by apply Hfield. }
  split; [exact Hdim|]. split; [exact Hact|].
  rewrite Hnorm. destruct cast_dtype as [[]|]; reflexivity.
Qed.

(** X15. When constructing a [MaMMUT] returns, the text config has no
    [hf_model_name] or [None] for it, and the instance holds: the modules
    [text], the decoder built with the config's [vocab_size] as its output
    dimension, and [visual], the vision tower built with [embed_dim]; the
    trainable parameters [map_viz2txt_kv], a random matrix of the vision
    width by the text width, and [logit_scale], [init_logit_scale] as a
    scalar or, with [nonscalar_logit_scale], as a vector of one element;
    [logit_bias], a parameter of the same shape when [init_logit_bias] is
    given and the plain attribute [None] otherwise; and the plain attributes
    [context_length], [pad_id] and [use_contrastive], which is true. *)
Theorem construct_inr (embed_dim : Z) (text_cfg vision_cfg : cfg_arg)
    (quick_gelu : bool) (cast_dtype : option dtype) (pad_id : Z)
    (init_logit_scale : float) (init_logit_bias : option float)
    (nonscalar_logit_scale : bool) (o : instance) :
  construct embed_dim text_cfg vision_cfg quick_gelu cast_dtype pad_id
    init_logit_scale init_logit_bias nonscalar_logit_scale = (o, inr tt) →
  ∃ multimodal_cfg vision vocab_size args text visual context_length vision_width
      text_width kv,
    as_config MultimodalCfg text_cfg = inr multimodal_cfg
    ∧ as_config CLIPVisionCfg vision_cfg = inr vision
    ∧ (__dict__ multimodal_cfg !! "hf_model_name" = None
       ∨ __dict__ multimodal_cfg !! "hf_model_name" = Some PNone)
    ∧ __dict__ multimodal_cfg !! "vocab_size" = Some vocab_size
    ∧ MultimodalTransformer args = inr text
    ∧ arg_output_dim args = vocab_size
    ∧ _build_vision_tower embed_dim vision quick_gelu cast_dtype = inr visual
    ∧ __dict__ multimodal_cfg !! "context_length" = Some context_length
    ∧ __dict__ vision !! "width" = Some vision_width
    ∧ __dict__ multimodal_cfg !! "width" = Some text_width
    ∧ randn vision_width text_width = inr kv
    ∧ let lshape := if nonscalar_logit_scale then [1] else [] in
      let trainable x := {| data := x; requires_grad := true |} in
      _modules o = {["text" := text; "visual" := visual]}
      ∧ _parameters o
        = match init_logit_bias with
          | Some b => {["map_viz2txt_kv" := trainable kv;
                        "logit_scale" := trainable (ones_times lshape init_logit_scale);
                        "logit_bias" := trainable (ones_times lshape b)]}
          | None => {["map_viz2txt_kv" := trainable kv;
                      "logit_scale" := trainable (ones_times lshape init_logit_scale)]}
          end
      ∧ attributes o
        = match init_logit_bias with
          | Some _ => {["context_length" := context_length; "pad_id" := PInt pad_id;
                        "use_contrastive" := PBool true]}
          | None => {["context_length" := context_length; "logit_bias" := PNone;
                      "pad_id" := PInt pad_id; "use_contrastive" := PBool true]}
          end.
Proof.
  intros Hrun. unfold construct, __init__ in Hrun.
  assert (Hfield : ∀ (cfg : Cfg (float := float)) name v,
            cfg_getattr cfg name = inr v → __dict__ cfg !! name = Some v).
  { intros cfg name v. unfold cfg_getattr. destruct (__dict__ cfg !! name); by intros [= ->]. }
  apply bind_inr in Hrun as (o0 & [] & Hsuper & Hrun).
  unfold super_init, Py.modify in Hsuper. injection Hsuper as <-.
  apply bind_inr in Hrun as (o0 & multimodal_cfg & Htext & Hrun).
  apply lift_inr in Htext as [-> Htext].
  apply bind_inr in Hrun as (o0 & vision & Hvision & Hrun).
  apply lift_inr in Hvision as [-> Hvision].
  apply bind_inr in Hrun as (o0 & vocab_size & Hvocab & Hrun).
  assert (Hhf : (__dict__ multimodal_cfg !! "hf_model_name" = None
                 ∨ __dict__ multimodal_cfg !! "hf_model_name" = Some PNone)
                ∧ __dict__ multimodal_cfg !! "vocab_size" = Some vocab_size
                ∧ o0 = {| _modules := ∅; _parameters := ∅; attributes := attributes fresh |}).
  { destruct (__dict__ multimodal_cfg !! "hf_model_name") as [[]|]; simpl in Hvocab;
      try discriminate;
      apply lift_inr in Hvocab as [-> Hvocab%Hfield]; auto. }
  destruct Hhf as (Hhf & Hvocab' & ->). clear Hvocab.
  apply bind_inr in Hrun as (o0 & text & Hdecoder & Hrun).
  apply _build_multimodal_decoder_tower_inr in Hdecoder
    as (-> & cfg & args & [= <-] & Hbuilt & _ & _ & _ & _ & _ & _ & _ & _ & _ & Hdim & _).
  apply bind_inr in Hrun as (o0 & [] & Hset & Hrun).
  unfold set_module, Py.modify in Hset. injection Hset as <-.
  apply bind_inr in Hrun as (o0 & visual & Hvisual & Hrun).
  apply lift_inr in Hvisual as [-> Hvisual].
  apply bind_inr in Hrun as (o0 & [] & Hset & Hrun).
  unfold set_module, Py.modify in Hset. injection Hset as <-.
  apply bind_inr in Hrun as (o0 & context_length & Hcl & Hrun).
  apply lift_inr in Hcl as [-> Hcl%Hfield].
  apply bind_inr in Hrun as (o0 & [] & Hset & Hrun).
  unfold set_attribute, Py.modify in Hset. injection Hset as <-.
  apply bind_inr in Hrun as (o0 & vision_width & Hvw & Hrun).
  apply lift_inr in Hvw as [-> Hvw%Hfield].
  apply bind_inr in Hrun as (o0 & text_width & Htw & Hrun).
  apply lift_inr in Htw as [-> Htw%Hfield].
  apply bind_inr in Hrun as (o0 & kv & Hkv & Hrun).
  apply lift_inr in Hkv as [-> Hkv].
  exists multimodal_cfg, vision, vocab_size, args, text, visual, context_length,
    vision_width, text_width, kv.
  do 11 (split; [assumption|]).
  cbv zeta in Hrun |- *. simpl in Hrun.
  destruct init_logit_bias as [b|];
    unfold Py.bind, set_parameter, set_attribute, Py.modify in Hrun; simpl in Hrun;
    injection Hrun as <-; simpl.
  - split; [|split]; same_map.
  - split; [|split]; same_map.
Qed.

End builder_properties.

(** ** The profiler: the two counters and the row of a model *)

Section row_properties.
Context {float : Type} {floats : PyFloat float} {env : Profiler.Env (float := float)}.
Import Profiler.

#[local] Abbreviation World := (World (float := float)).
#[local] Abbreviation event := (event (float := float)).
#[local] Abbreviation row := (list (string * cell (float := float))).

(** Assigning to a key keeps the order of the keys: a new key goes last. *)
Lemma keys_set {V} (k : string) (v : V) (d : list (string * V)) :
  Dict.keys (Dict.set k v d)
  = if bool_decide (k ∈ Dict.keys d) then Dict.keys d else Dict.keys d ++ [k].
Proof.
  unfold Dict.keys. induction d as [|[k' v'] d IH]; [reflexivity|].
  cbn [Dict.set]. destruct (decide (k = k')) as [->|Hne]; rewrite !fmap_cons; cbn [fst].
  - rewrite bool_decide_eq_true_2 by apply list_elem_of_here. reflexivity.
  - rewrite IH. case_bool_decide as Hin.
    + rewrite bool_decide_eq_true_2 by by apply list_elem_of_further. reflexivity.
    + rewrite bool_decide_eq_false_2; [reflexivity|].
      intros [?|?]%elem_of_cons; contradiction.
Qed.

Lemma next_parameter_some (m : Model) (w w' : World) (x : device * dtype) :
  next_parameter m w = (w', inr x) → parameters (root m) ≠ [].
Proof. unfold next_parameter. by destruct (parameters (root m)). Qed.

Lemma profile_torch_nonzero (model : Model) (text_input_size image_input_size : list Z)
    (batch_size : Z) (force_cpu : bool) (w w' : World) (r : Model * float) :
  profile_torch model text_input_size image_input_size batch_size force_cpu w = (w', inr r) →
  batch_size ≠ 0 ∧ parameters (root model) ≠ [].
Proof.
  intros Hrun. unfold profile_torch in Hrun.
  rewrite (bind_step _ _ _ _ _ (place_run force_cpu model w)) in Hrun.
  apply bind_inr in Hrun as (w1 & dd & Hnext & Hrun).
  apply next_parameter_some in Hnext. rewrite root_placed in Hnext.
  apply bind_inr in Hrun as (w2 & image & _ & Hrun).
  apply bind_inr in Hrun as (w3 & text & _ & Hrun).
  apply bind_inr in Hrun as (w4 & total & _ & Hrun).
  apply bind_inr in Hrun as (w5 & x & Hdiv & _).
  apply truediv_inr in Hdiv as (_ & Hnz & _). done.
Qed.

Lemma profile_fvcore_nonzero (model : Model) (image_input_size text_input_size : list Z)
    (batch_size : Z) (detailed force_cpu : bool) (w w' : World)
    (r : Model * (float * float)) :
  profile_fvcore model image_input_size text_input_size batch_size detailed force_cpu w
    = (w', inr r) →
  batch_size ≠ 0 ∧ parameters (root model) ≠ [].
Proof.
  intros Hrun. unfold profile_fvcore in Hrun.
  rewrite (bind_step _ _ _ _ _ (place_run force_cpu model w)) in Hrun.
  apply bind_inr in Hrun as (w1 & dd & Hnext & Hrun).
  apply next_parameter_some in Hnext. rewrite root_placed in Hnext.
  apply bind_inr in Hrun as (w2 & image & _ & Hrun).
  apply bind_inr in Hrun as (w3 & text & _ & Hrun).
  apply bind_inr in Hrun as (w4 & [] & _ & Hrun).
  apply bind_inr in Hrun as (w5 & flops & _ & Hrun).
  apply bind_inr in Hrun as (w6 & [] & _ & Hrun).
  apply bind_inr in Hrun as (w7 & x & Hdiv & _).
  apply truediv_inr in Hdiv as (_ & Hnz & _). done.
Qed.

(** X16. [profile_torch] returns the counter's total divided by the batch
    size: FLOPs per sample.  When it returns, the model had a parameter and
    the batch size is not zero; the model was moved to the CPU first exactly
    when [force_cpu] is set; there was one counting run, on an image input
    of shape batch size followed by [image_input_size], with the device and
    dtype of the model, and a text input of shape batch size followed by
    [text_input_size], on the same device, of dtype int64; and the counter
    printed its table at the end of the run. *)
Theorem profile_torch_per_sample (model : Model) (text_input_size image_input_size : list Z)
    (batch_size : Z) (force_cpu : bool) (w w' : World) (model' : Model) (r : float) :
  profile_torch model text_input_size image_input_size batch_size force_cpu w
    = (w', inr (model', r)) →
  let device := if force_cpu then cpu else on model in
  let image := {| input_shape := batch_size :: image_input_size;
                  input_device := device; input_dtype := param_dtype model |} in
  let text := {| input_shape := batch_size :: text_input_size;
                 input_device := device; input_dtype := int64 |} in
  ∃ total,
    count TorchFlops (runs w) model' image text = inr total
    ∧ r = int_truediv total batch_size
    ∧ batch_size ≠ 0
    ∧ parameters (root model) ≠ []
    ∧ model' = (if force_cpu then moved cpu model else model)
    ∧ trace w' = trace w ++ (if force_cpu then [MoveTo cpu] else [])
                   ++ [Count TorchFlops (runs w) image text; PrintTable (runs w)]
    ∧ runs w' = S (runs w).
Proof.
  intros Hrun. cbv zeta.
  destruct (profile_torch_nonzero _ _ _ _ _ _ _ _ Hrun) as [Hnz Hsome].
  apply profile_torch_inr in Hrun as (total & -> & Hcount & -> & ->).
  exists total. unfold image_input, text_input, placed, placing in *.
  destruct force_cpu; simpl in *; by rewrite ?app_nil_l.
Qed.

(** X17. [profile_fvcore] (with [detailed] off) returns the two totals of
    fvcore, operations and activations, each divided by the batch size.
    When it returns, the model had a parameter and the batch size is not
    zero; the model was moved to the CPU first exactly when [force_cpu] is
    set; there were two counting runs, operations first, both on the same
    two inputs as [profile_torch] builds. *)
Theorem profile_fvcore_per_sample (model : Model) (image_input_size text_input_size : list Z)
    (batch_size : Z) (force_cpu : bool) (w w' : World) (model' : Model) (macs acts : float) :
  profile_fvcore model image_input_size text_input_size batch_size false force_cpu w
    = (w', inr (model', (macs, acts))) →
  let device := if force_cpu then cpu else on model in
  let image := {| input_shape := batch_size :: image_input_size;
                  input_device := device; input_dtype := param_dtype model |} in
  let text := {| input_shape := batch_size :: text_input_size;
                 input_device := device; input_dtype := int64 |} in
  ∃ flops activations,
    count FvcoreFlops (runs w) model' image text = inr flops
    ∧ count FvcoreActivations (S (runs w)) model' image text = inr activations
    ∧ macs = int_truediv flops batch_size
    ∧ acts = int_truediv activations batch_size
    ∧ batch_size ≠ 0
    ∧ parameters (root model) ≠ []
    ∧ model' = (if force_cpu then moved cpu model else model)
    ∧ trace w' = trace w ++ (if force_cpu then [MoveTo cpu] else [])
                   ++ [Count FvcoreFlops (runs w) image text;
                       Count FvcoreActivations (S (runs w)) image text]
    ∧ runs w' = S (S (runs w)).
Proof.
  intros Hrun. cbv zeta.
  destruct (profile_fvcore_nonzero _ _ _ _ _ _ _ _ _ Hrun) as [Hnz Hsome].
  apply profile_fvcore_inr in Hrun as (flops & activations & -> & Hflops & Hacts & -> & -> & ->).
  exists flops, activations. unfold image_input, text_input, placed, placing in *.
  destruct force_cpu; simpl in *; by rewrite ?app_nil_l.
Qed.

(** X18. A model without parameters cannot be profiled: both profilers end
    in [StopIteration] at [next(model.parameters())], after the move to the
    CPU when [force_cpu] is set and before any input is built or any
    counting run is made. *)
Theorem profilers_need_a_parameter (model : Model) (image_input_size text_input_size : list Z)
    (batch_size : Z) (detailed force_cpu : bool) (w : World) :
  parameters (root model) = [] →
  profile_torch model text_input_size image_input_size batch_size force_cpu w
    = (later w (placing force_cpu) 0, inl (Exn StopIteration ""))
  ∧ profile_fvcore model image_input_size text_input_size batch_size detailed force_cpu w
    = (later w (placing force_cpu) 0, inl (Exn StopIteration "")).
Proof.
  intros Hnone. unfold profile_torch, profile_fvcore.
  rewrite !(bind_step _ _ _ _ _ (place_run force_cpu model w)).
  unfold Py.bind, next_parameter. rewrite root_placed, Hnone. split; reflexivity.
Qed.

(** *** The row *)

Lemma measure_nonzero (model : Model) (results : row) (profiler : string)
    (image_input_size text_input_size : list Z) (batch_size : Z) (force_cpu : bool)
    (w w' : World) (r : Model * row) :
  measure model results profiler image_input_size text_input_size batch_size force_cpu w
    = (w', inr r) →
  profiler = "torch" ∨ profiler = "fvcore" →
  batch_size ≠ 0.
Proof.
  intros Hrun Hprofiler. unfold measure in Hrun.
  apply bind_inr in Hrun as (w1 & visual_tower & _ & Hrun).
  apply bind_inr in Hrun as (w2 & text_tower & _ & Hrun).
  destruct (decide (profiler = "fvcore")) as [Hf|Hf].
  - apply bind_inr in Hrun as (w3 & x & Hprofile & _).
    by apply profile_fvcore_nonzero in Hprofile as [? _].
  - destruct (decide (profiler = "torch")) as [Ht|Ht]; [|by destruct Hprofiler].
    apply bind_inr in Hrun as (w3 & x & Hprofile & _).
    by apply profile_torch_nonzero in Hprofile as [? _].
Qed.

(** A pass leaves the cells it does not write. *)
Lemma measure_get_other (model : Model) (results : row) (profiler : string)
    (image_input_size text_input_size : list Z) (batch_size : Z) (force_cpu : bool)
    (w w' : World) (model' : Model) (results' : row) (k : string) :
  measure model results profiler image_input_size text_input_size batch_size force_cpu w
    = (w', inr (model', results')) →
  k ∉ ["mparams"; "image_mparams"; "text_mparams"; "gmacs"; "macts"; "gflops"] →
  Dict.get k results' = Dict.get k results.
Proof.
  intros Hrun Hk. apply measure_inr in Hrun as (v & t & _ & _ & Hcases).
  rewrite !not_elem_of_cons in Hk. destruct Hk as (? & ? & ? & ? & ? & ? & _).
  unfold counted in Hcases.
  destruct Hcases as [(_ & ? & ? & _ & _ & _ & -> & _)|[(_ & ? & _ & _ & -> & _)|(_ & _ & _ & -> & _)]];
    by rewrite !get_set_ne.
Qed.

(** The keys of the row after a pass. *)
Lemma measure_keys_eq (model : Model) (results : row) (profiler : string)
    (image_input_size text_input_size : list Z) (batch_size : Z) (force_cpu : bool)
    (w w' : World) (model' : Model) (results' : row) :
  measure model results profiler image_input_size text_input_size batch_size force_cpu w
    = (w', inr (model', results')) →
  profiler = "torch" ∨ profiler = "fvcore" →
  let add k ks := if bool_decide (k ∈ ks) then ks else ks ++ [k] in
  Dict.keys results'
  = foldl (λ ks k, add k ks) (Dict.keys results)
      (["mparams"; "image_mparams"; "text_mparams"]
       ++ if decide (profiler = "fvcore") then ["gmacs"; "macts"] else ["gflops"]).
Proof.
  intros Hrun Hprofiler. apply measure_inr in Hrun as (v & t & _ & _ & Hcases).
  unfold counted in Hcases. cbv zeta.
  destruct Hcases as [(-> & ? & ? & _ & _ & _ & -> & _)|[(-> & ? & _ & _ & -> & _)|(Hf & Ht & _)]].
  - rewrite !keys_set. reflexivity.
  - rewrite !keys_set. reflexivity.
  - destruct Hprofiler; contradiction.
Qed.

(** The keys of a row of [profile_model]. *)
Lemma profile_model_keys (model_name : string) (batch_size : Z) (profiler : string)
    (image_size text_size : Z) (no_contrastive : bool) (w w' : World) (results : row) :
  profile_model model_name batch_size profiler image_size text_size no_contrastive w
    = (w', inr results) →
  Dict.keys results
  = ["model"; "image_size"; "mparams"; "image_mparams"; "text_mparams"]
    ++ (if decide (profiler = "fvcore") then ["gmacs"; "macts"] else ["gflops"]).
Proof.
  intros Hrun.
  apply profile_model_inr in Hrun
    as (created & w1 & m1 & r1 & m2 & Hprofiler & _ & Hfirst & Hsecond).
  assert (Hp : profiler = "torch" ∨ profiler = "fvcore") by (destruct Hprofiler as [|[]]; auto).
  rewrite (measure_keys_eq _ _ _ _ _ _ _ _ _ _ _ Hsecond Hp).
  rewrite (measure_keys_eq _ _ _ _ _ _ _ _ _ _ _ Hfirst Hp).
  destruct Hp as [-> | ->]; reflexivity.
Qed.

(** The two passes leave the cells of the heading alone. *)
Lemma profile_model_heading (model_name : string) (batch_size : Z) (profiler : string)
    (image_size text_size : Z) (no_contrastive : bool) (w w' : World) (results : row)
    (k : string) :
  profile_model model_name batch_size profiler image_size text_size no_contrastive w
    = (w', inr results) →
  k ∉ ["mparams"; "image_mparams"; "text_mparams"; "gmacs"; "macts"; "gflops"] →
  Dict.get k results = Dict.get k (heading model_name image_size).
Proof.
  intros Hrun Hk.
  apply profile_model_inr in Hrun
    as (created & w1 & m1 & r1 & m2 & _ & _ & Hfirst & Hsecond).
  rewrite (measure_get_other _ _ _ _ _ _ _ _ _ _ _ k Hsecond Hk).
  apply (measure_get_other _ _ _ _ _ _ _ _ _ _ _ k Hfirst Hk).
Qed.

Lemma profile_model_named (model_name : string) (batch_size : Z) (profiler : string)
    (image_size text_size : Z) (no_contrastive : bool) (w w' : World) (results : row) :
  profile_model model_name batch_size profiler image_size text_size no_contrastive w
    = (w', inr results) →
  Dict.get "model" results = Some (CStr model_name).
Proof.
  intros Hrun. rewrite (profile_model_heading _ _ _ _ _ _ _ _ _ "model" Hrun); [reflexivity|].
  rewrite !not_elem_of_cons. repeat split; try discriminate. apply not_elem_of_nil.
Qed.

(** X19. The row [profile_model] returns has exactly the keys [model],
    [image_size], [mparams], [image_mparams], [text_mparams], followed by
    [gflops] for the torch profiler and by [gmacs] and [macts] for fvcore, in
    this order; [model] is the name it was given and [image_size] the image
    size it was given.  The text size and the batch size are not in the
    row. *)
Theorem profile_model_row_keys (model_name : string) (batch_size : Z) (profiler : string)
    (image_size text_size : Z) (no_contrastive : bool) (w w' : World) (results : row) :
  profile_model model_name batch_size profiler image_size text_size no_contrastive w
    = (w', inr results) →
  Dict.keys results
  = ["model"; "image_size"; "mparams"; "image_mparams"; "text_mparams"]
    ++ (if decide (profiler = "fvcore") then ["gmacs"; "macts"] else ["gflops"])
  ∧ Dict.get "model" results = Some (CStr model_name)
  ∧ Dict.get "image_size" results = Some (CInt image_size).
Proof.
  intros Hrun. split; [|split].
  - exact (profile_model_keys _ _ _ _ _ _ _ _ _ Hrun).
  - exact (profile_model_named _ _ _ _ _ _ _ _ _ Hrun).
  - rewrite (profile_model_heading _ _ _ _ _ _ _ _ _ "image_size" Hrun); [reflexivity|].
    rewrite !not_elem_of_cons. repeat split; try discriminate. apply not_elem_of_nil.
Qed.

End row_properties.

(** ** The profiler: [profile_model] as a whole *)

Section model_properties.
Context {float : Type} {floats : PyFloat float} {env : Profiler.Env (float := float)}.
Import Profiler.

#[local] Abbreviation World := (World (float := float)).
#[local] Abbreviation event := (event (float := float)).
#[local] Abbreviation row := (list (string * cell (float := float))).

(** X20. [profile_model] checks its profiler before it touches anything: a
    profiler other than [torch] and [fvcore] ends in [AssertionError], and so
    does [fvcore] when the package could not be imported; no model is
    created, nothing is printed and nothing is counted. *)
Theorem profile_model_asserts (model_name : string) (batch_size : Z) (profiler : string)
    (image_size text_size : Z) (no_contrastive : bool) (w : World) :
  (profiler ∉ ["torch"; "fvcore"] →
   profile_model model_name batch_size profiler image_size text_size no_contrastive w
   = (w, inl (Exn AssertionError "Only torch and fvcore profilers are supported")))
  ∧ (profiler = "fvcore" → fvcore = false →
     profile_model model_name batch_size profiler image_size text_size no_contrastive w
     = (w, inl (Exn AssertionError "Please install fvcore."))).
Proof.
  split.
  - intros Hother. unfold profile_model.
    rewrite bool_decide_eq_false_2 by exact Hother. reflexivity.
  - intros -> Hmissing. unfold profile_model. rewrite Hmissing. reflexivity.
Qed.

(** X21. The counts in the row [profile_model] returns are those of the
    second pass, on the CPU: the first pass's counts are overwritten.  With
    the torch profiler [gflops] is the total of the second counting run,
    divided by the batch size and by [1e9] and rounded to two decimals, and
    there were two runs in all; with fvcore [gmacs] and [macts] come from
    the third and fourth runs of four.  The counted model is the created one
    in eval mode, moved to the CPU, and the inputs have its dtype. *)
Theorem profile_model_cpu_counts (model_name : string) (batch_size : Z) (profiler : string)
    (image_size text_size : Z) (no_contrastive : bool) (w w' : World) (results : row) :
  profile_model model_name batch_size profiler image_size text_size no_contrastive w
    = (w', inr results) →
  ∃ created,
    create_model model_name = inr created
    ∧ let m := moved cpu (prepared created no_contrastive) in
      let image := {| input_shape := [batch_size; 3; image_size; image_size];
                      input_device := cpu; input_dtype := param_dtype created |} in
      let text := {| input_shape := [batch_size; text_size];
                     input_device := cpu; input_dtype := int64 |} in
      training m = false
      ∧ ((profiler = "torch"
          ∧ runs w' = (2 + runs w)%nat
          ∧ ∃ total,
              count TorchFlops (1 + runs w) m image text = inr total
              ∧ Dict.get "gflops" results
                = Some (CFloat (round (fdiv (int_truediv total batch_size) _1e9) 2)))
         ∨ (profiler = "fvcore"
            ∧ runs w' = (4 + runs w)%nat
            ∧ ∃ flops activations,
                count FvcoreFlops (2 + runs w) m image text = inr flops
                ∧ count FvcoreActivations (3 + runs w) m image text = inr activations
                ∧ Dict.get "gmacs" results
                  = Some (CFloat (round (fdiv (int_truediv flops batch_size) _1e9) 2))
                ∧ Dict.get "macts" results
                  = Some (CFloat (round (fdiv (int_truediv activations batch_size) _1e6) 2)))).
Proof.
  intros Hrun.
  apply profile_model_inr in Hrun
    as (created & w1 & m1 & r1 & m2 & Hprofiler & Hcreated & Hfirst & Hsecond).
  exists created. split; [exact Hcreated|]. cbv zeta.
  assert (Hdtype : param_dtype (prepared created no_contrastive) = param_dtype created)
    by (unfold prepared; by destruct cuda_is_available, no_contrastive).
  split; [unfold prepared; by destruct cuda_is_available, no_contrastive|].
  apply measure_inr in Hfirst as (v1 & t1 & _ & _ & Hcases1).
  apply measure_inr in Hsecond as (v2 & t2 & _ & _ & Hcases2).
  destruct Hprofiler as [->|[-> _]].
  - left. split; [reflexivity|].
    destruct Hcases1 as [([=] & _)|[(_ & total1 & _ & -> & _ & ->)|(_ & ? & _)]]; [|done].
    destruct Hcases2 as [([=] & _)|[(_ & total & Hcount & _ & -> & ->)|(_ & ? & _)]]; [|done].
    split; [reflexivity|]. exists total. split.
    + unfold image_input, text_input in Hcount. simpl in Hcount. by rewrite Hdtype in Hcount.
    + apply get_set_eq.
  - right. split; [reflexivity|].
    destruct Hcases1 as [(_ & f1 & a1 & _ & _ & -> & _ & ->)|[([=] & _)|(? & _)]]; [|done].
    destruct Hcases2 as [(_ & flops & activations & Hflops & Hacts & _ & -> & ->)|[([=] & _)|(? & _)]];
      [|done].
    split; [reflexivity|]. exists flops, activations.
    unfold image_input, text_input in Hflops, Hacts. simpl in Hflops, Hacts.
    rewrite Hdtype in Hflops, Hacts.
    split; [exact Hflops|]. split; [exact Hacts|]. split.
    + rewrite get_set_ne by discriminate. apply get_set_eq.
    + apply get_set_eq.
Qed.

(** X22. With a batch size of zero [profile_model] never returns a row:
    whatever the model and the counters do, the run ends in an exception
    (the division of the first total by the batch size is where it stops at
    the latest). *)
Theorem profile_model_batch_zero (model_name : string) (profiler : string)
    (image_size text_size : Z) (no_contrastive : bool) (w : World) :
  ∃ w' e,
    profile_model model_name 0 profiler image_size text_size no_contrastive w = (w', inl e).
Proof.
  destruct (profile_model model_name 0 profiler image_size text_size no_contrastive w)
    as [w' [e|results]] eqn:Hrun; [by exists w', e|].
  exfalso.
  apply profile_model_inr in Hrun
    as (created & w1 & m1 & r1 & m2 & Hprofiler & _ & Hfirst & _).
  apply measure_nonzero in Hfirst; [done|].
  destruct Hprofiler as [|[]]; auto.
Qed.

End model_properties.

(** ** Counting parameters *)

Section count_properties.
Import Profiler.

Lemma sum_app (xs ys : list Z) : sum (xs ++ ys) = sum xs + sum ys.
Proof. unfold sum. induction xs as [|x xs IH]; simpl; [reflexivity|]. rewrite IH. lia. Qed.

(** Objects that are all different and all new are all kept. *)
Lemma distinct_all (seen : gset positive) (ps : list parameter) :
  NoDup (param_id <$> ps) →
  (∀ p, p ∈ ps → param_id p ∉ seen) →
  distinct seen ps = ps.
Proof.
  revert seen. induction ps as [|p ps IH]; intros seen Hnodup Hnew; [reflexivity|].
  rewrite fmap_cons in Hnodup. apply NoDup_cons in Hnodup as [Hp Hnodup].
  simpl. rewrite decide_False by (apply Hnew, list_elem_of_here).
  f_equal. apply IH; [exact Hnodup|].
  intros q Hq. rewrite elem_of_union, elem_of_singleton. intros [Heq|Hseen].
  - apply Hp. rewrite <- Heq. by apply list_elem_of_fmap_2.
  - eapply Hnew; [by apply list_elem_of_further|exact Hseen].
Qed.

Lemma count_params_walk (m : nn_Module) :
  NoDup (param_id <$> walk m) → count_params m = sum (numel <$> walk m).
Proof.
  intros Hnodup. unfold count_params, parameters.
  rewrite distinct_all; [reflexivity|exact Hnodup|]. intros p _. apply not_elem_of_empty.
Qed.

(** X23. In a module in which no parameter object is registered twice,
    [count_params] is the number of elements of the module's own parameters
    plus [count_params] of each of its submodules: nothing is counted twice
    and nothing is left out. *)
Theorem count_params_additive (own : list (string * parameter))
    (children : list (string * nn_Module)) :
  NoDup (param_id <$> walk (Build_Module own children)) →
  count_params (Build_Module own children)
  = sum (numel <$> own.*2) + sum ((λ c, count_params c.2) <$> children).
Proof.
  intros Hnodup. rewrite (count_params_walk _ Hnodup).
  cbn [walk] in Hnodup |- *. rewrite fmap_app in Hnodup. rewrite fmap_app, sum_app. f_equal.
  apply NoDup_app in Hnodup as (_ & _ & Hnodup). clear own.
  induction children as [|[name c] children IH]; [reflexivity|].
  cbn [flat_map snd] in Hnodup |- *. rewrite fmap_app in Hnodup.
  apply NoDup_app in Hnodup as (Hc & _ & Hrest).
  rewrite fmap_app, sum_app, fmap_cons, (IH Hrest). cbn [snd].
  rewrite (count_params_walk _ Hc). reflexivity.
Qed.

(** *** The list of models *)

Lemma split_cons (sep : ascii) (s : string) : ∃ w ws, split sep s = w :: ws.
Proof.
  destruct s as [|c s]; simpl; [eauto|].
  destruct (decide (c = sep)); [eauto|]. destruct (split sep s); eauto.
Qed.

(** X24. [s.split(sep)] loses nothing: the pieces, joined by the separator,
    give [s] back, and there is always at least one piece.  So [main] tries
    every name between two commas of [--model], the empty ones too, and an
    empty [--model], the default, is one model with the empty name. *)
Theorem split_join (sep : ascii) (s : string) :
  String.concat (String sep "") (split sep s) = s
  ∧ split sep s ≠ []
  ∧ split sep "" = [""].
Proof.
  split; [|split; [|reflexivity]].
  - induction s as [|c s IH]; [reflexivity|]. simpl split.
    destruct (split_cons sep s) as (w & ws & Hsplit). rewrite Hsplit in IH |- *.
    destruct (decide (c = sep)) as [->|Hne].
    + change (String.concat (String sep "") ("" :: w :: ws))
        with (String sep (String.concat (String sep "") (w :: ws))).
      by rewrite IH.
    + destruct ws as [|w' ws].
      * simpl in IH |- *. by rewrite IH.
      * change (String.concat (String sep "") (String c w :: w' :: ws))
          with (String c (String.concat (String sep "") (w :: w' :: ws))).
        by rewrite IH.
  - by destruct (split_cons sep s) as (w & ws & ->).
Qed.

End count_properties.

(** ** The profiler: the loop and the report, as a whole *)

Section run_properties.
Context {float : Type} {floats : PyFloat float} {env : Profiler.Env (float := float)}.
Import Profiler.

#[local] Abbreviation World := (World (float := float)).
#[local] Abbreviation event := (event (float := float)).
#[local] Abbreviation DataFrame := (DataFrame (float := float)).
#[local] Abbreviation row := (list (string * cell (float := float))).

Lemma sublist_same_length {A} (l1 l2 : list A) :
  l1 `sublist_of` l2 → (length l2 ≤ length l1)%nat → l1 = l2.
Proof.
  induction 1 as [|x l1 l2 _ IH|x l1 l2 Hsub _]; simpl; intros Hlen.
  - reflexivity.
  - f_equal. apply IH. lia.
  - apply sublist_length in Hsub. lia.
Qed.

(** The loop over the models, with what is known of every row
    [profile_model] returns. *)
Lemma profile_each_outcome (R : string → row → Prop) (ms : list string)
    (args : Namespace.t) (results : list row) (errors : list string) (w : World) :
  (∀ m w0 w1 r,
     profile_model m (Namespace.batch_size args) (Namespace.profiler args)
       (Namespace.image_size args) (Namespace.text_size args)
       (Namespace.no_contrastive args) w0 = (w1, inr r) → R m r) →
  match profile_each ms args results errors w with
  | (w', inr (results', errors')) =>
      ∃ ok failed rows,
        results' = results ++ rows
        ∧ errors' = errors ++ failed
        ∧ Forall2 R ok rows
        ∧ ok `sublist_of` ms
        ∧ failed `sublist_of` ms
        ∧ ok ++ failed ≡ₚ ms
  | (w', inl e) => isinstance_Exception e = false
  end.
Proof.
  intros HR. revert results errors w.
  induction ms as [|m ms IH]; intros results errors w.
  - exists [], [], []. rewrite !app_nil_r. repeat split; constructor.
  - rewrite profile_each_cons.
    destruct (profile_model _ _ _ _ _ _ _) as [w1 [e|r]] eqn:Hmodel.
    + destruct (isinstance_Exception e) eqn:He; [|exact He].
      specialize (IH results (errors ++ [m])
        (later w1 [Print ("Error profiling " +:+ m +:+ ": " +:+ msg_of e); PrintExc e] 0)).
      destruct (profile_each ms args results _ _) as [w' [e'|[results' errors']]]; [exact IH|].
      destruct IH as (ok & failed & rows & -> & -> & Hrows & Hok & Hfailed & Hperm).
      exists ok, (m :: failed), rows. split; [done|]. split; [by rewrite <- app_assoc|].
      split; [exact Hrows|]. split; [by apply sublist_cons|]. split; [by apply sublist_skip|].
      rewrite <- Hperm. symmetry. apply Permutation_middle.
    + specialize (IH (results ++ [r]) errors w1).
      destruct (profile_each ms args _ errors w1) as [w' [e'|[results' errors']]]; [exact IH|].
      destruct IH as (ok & failed & rows & -> & -> & Hrows & Hok & Hfailed & Hperm).
      exists (m :: ok), failed, (r :: rows). split; [by rewrite <- app_assoc|]. split; [done|].
      split; [constructor; [by eapply HR|exact Hrows]|].
      split; [by apply sublist_skip|]. split; [by apply sublist_cons|].
      simpl. by rewrite Hperm.
Qed.

(** X25. When the loop of [main] returns, every model of the list has gone
    exactly one way: either it is in [models_with_errors], or it has a row,
    whose [model] cell is its name.  Both the names of the rows and the
    failed models are in the order of the list. *)
Theorem profile_each_partition (ms : list string) (args : Namespace.t)
    (w w' : World) (rows : list row) (failed : list string) :
  profile_each ms args [] [] w = (w', inr (rows, failed)) →
  ∃ ok,
    Dict.get "model" <$> rows = (λ m, Some (CStr m)) <$> ok
    ∧ ok `sublist_of` ms
    ∧ failed `sublist_of` ms
    ∧ ok ++ failed ≡ₚ ms.
Proof.
  intros Hrun.
  assert (Hnamed : ∀ m (w0 w1 : World) (r : row),
            profile_model m (Namespace.batch_size args) (Namespace.profiler args)
              (Namespace.image_size args) (Namespace.text_size args)
              (Namespace.no_contrastive args) w0 = (w1, inr r) →
            Dict.get "model" r = Some (CStr m)).
  { intros m w0 w1 r Hmodel. by apply profile_model_named in Hmodel. }
  pose proof (profile_each_outcome (λ m r, Dict.get "model" r = Some (CStr m))
                ms args [] [] w Hnamed) as Hloop.
  rewrite Hrun in Hloop.
  destruct Hloop as (ok & failed' & rows' & -> & -> & Hrows & Hok & Hfailed & Hperm).
  exists ok. split; [|done].
  simpl. clear -Hrows. induction Hrows as [|m r ok rows' Hr _ IH]; [reflexivity|].
  rewrite !fmap_cons, Hr, IH. reflexivity.
Qed.

(** X26. On a command line that gives no option the explicit value [--],
    [main] fails in four ways only.  The parser ends the run, before [main]
    prints or profiles anything: [SystemExit] with status 2 when it refuses
    the command line, with status 0 after a help request.  Or every model of
    the list failed (or the list is empty): [IndexError] right after the
    loop.  Or profiling a model raised something that is not an
    [Exception], such as [KeyboardInterrupt], which the loop lets through.
    Or [to_csv] raised on the results file, after the table was printed.  In
    particular sorting the table never fails. *)
Theorem main_inl (argv : list string) (w w' : World) (e : exn) :
  Forall (λ a, explicit_dashes a = false) argv →
  main argv w = (w', inl e) →
  (parse_args argv = inl e
   ∧ (e = Exn SystemExit "2" ∨ e = Exn SystemExit "0")
   ∧ w' = later w [ParserMessage (msg_of e)] 0)
  ∨ ∃ args,
      parse_args argv = inr args
      ∧ let ms := if decide (Namespace.model args = "all") then list_models
                  else split "," (Namespace.model args) in
        (profile_each ms args [] [] w = (w', inr ([], ms))
         ∧ e = Exn IndexError "list index out of range")
        ∨ (profile_each ms args [] [] w = (w', inl e)
           ∧ isinstance_Exception e = false)
        ∨ (∃ w1 first rest errors,
             profile_each ms args [] [] w = (w1, inr (first :: rest, errors))
             ∧ Namespace.results_file args ≠ ""
             ∧ to_csv (table first rest) (Namespace.results_file args) = inl e
             ∧ w' = later w1 [Print banner; Print "Done."; PrintFrame (table first rest);
                              ToCsv (table first rest) (Namespace.results_file args)] 0).
Proof.
  intros _. rewrite main_eq. intros Hrun.
  destruct (parse_args argv) as [e0|args] eqn:Hparse.
  - left. injection Hrun as <- ->. split; [reflexivity|]. split; [|reflexivity].
    unfold parse_args in Hparse.
    destruct (classify argv) as [e1|kinds] eqn:Hkinds.
    + injection Hparse as ->. left. by apply classify_inl in Hkinds.
    + pose proof (consume_outcome (length kinds) kinds defaults false (le_n _)) as Hexit.
      rewrite Hparse in Hexit.
      destruct Hexit as [?|[? _]]; [apply list_elem_of_here|by left|by right].
  - right. exists args. split; [reflexivity|]. cbv zeta.
    set (ms := if decide (Namespace.model args = "all") then list_models
               else split "," (Namespace.model args)) in *.
    pose proof (profile_each_outcome (λ _ _, True) ms args [] [] w (λ _ _ _ _ _, I)) as Hloop.
    destruct (profile_each ms args [] [] w) as [w1 [e1|[[|first rest] errors]]].
    + right. left. injection Hrun as -> ->. done.
    + left. injection Hrun as -> <-. split; [|reflexivity].
      destruct Hloop as (ok & failed & rows & Hrows & -> & Hall & Hok & Hfailed & Hperm).
      simpl in Hrows. subst rows. apply Forall2_nil_inv_r in Hall as ->.
      simpl in Hperm. apply Permutation_length in Hperm.
      rewrite (sublist_same_length _ _ Hfailed) by lia. reflexivity.
    + right. right. case_bool_decide as Hfile; [|discriminate].
      destruct (to_csv (table first rest) (Namespace.results_file args)) as [e1|[]] eqn:Hcsv;
        [|discriminate].
      injection Hrun as <- ->. by exists w1, first, rest, errors.
Qed.

(** X27. When [main] returns, the table it printed has the columns of the
    rows of [profile_model] for the profiler of the command line, in their
    order, every row has exactly these keys, and the rows are sorted by
    [gmacs], [mparams], [model] for fvcore and by [gflops], [mparams],
    [model] for torch. *)
Theorem main_table_columns (argv : list string) (w w' : World) :
  main argv w = (w', inr tt) →
  ∃ args w1 first rest errors,
    parse_args argv = inr args
    ∧ w' = later w1 (reported args (table first rest) errors) 0
    ∧ let counts := if decide (Namespace.profiler args = "fvcore")
                    then ["gmacs"; "macts"] else ["gflops"] in
      let keys := ["model"; "image_size"; "mparams"; "image_mparams"; "text_mparams"]
                  ++ counts in
      columns (table first rest) = keys
      ∧ Forall (λ r, Dict.keys r = keys) (first :: rest)
      ∧ records (table first rest)
        = sorted_by [if decide (Namespace.profiler args = "fvcore") then "gmacs" else "gflops";
                     "mparams"; "model"] (first :: rest).
Proof.
  rewrite main_eq. intros Hrun.
  destruct (parse_args argv) as [e0|args]; [discriminate|].
  set (ms := if decide (Namespace.model args = "all") then list_models
             else split "," (Namespace.model args)) in *.
  assert (Hkeyed : ∀ m (w0 w2 : World) (r : row),
            profile_model m (Namespace.batch_size args) (Namespace.profiler args)
              (Namespace.image_size args) (Namespace.text_size args)
              (Namespace.no_contrastive args) w0 = (w2, inr r) →
            Dict.keys r
            = ["model"; "image_size"; "mparams"; "image_mparams"; "text_mparams"]
              ++ (if decide (Namespace.profiler args = "fvcore")
                  then ["gmacs"; "macts"] else ["gflops"])).
  { intros m w0 w2 r Hmodel. by apply profile_model_keys in Hmodel. }
  pose proof (profile_each_outcome
                (λ _ r, Dict.keys r
                        = ["model"; "image_size"; "mparams"; "image_mparams"; "text_mparams"]
                          ++ (if decide (Namespace.profiler args = "fvcore")
                              then ["gmacs"; "macts"] else ["gflops"]))
                ms args [] [] w Hkeyed) as Hloop.
  destruct (profile_each ms args [] [] w) as [w1 [e1|[[|first rest] errors]]];
    [discriminate|discriminate|].
  assert (Hreport : w' = later w1 (reported args (table first rest) errors) 0).
  { destruct (bool_decide (Namespace.results_file args ≠ "")).
    - destruct (to_csv _ _); [discriminate|]. by injection Hrun as <-.
    - by injection Hrun as <-. }
  subst w'. clear Hrun.
  destruct Hloop as (ok & failed & rows & Hrows & _ & Hall & _).
  simpl in Hrows. subst rows.
  assert (Hkeys : Forall (λ r : row, Dict.keys r
            = ["model"; "image_size"; "mparams"; "image_mparams"; "text_mparams"]
              ++ (if decide (Namespace.profiler args = "fvcore")
                  then ["gmacs"; "macts"] else ["gflops"])) (first :: rest)).
  { clear -Hall. induction Hall; constructor; assumption. }
  exists args, w1, first, rest, errors. split; [reflexivity|]. split; [reflexivity|].
  cbv zeta. pose proof (Forall_inv Hkeys) as Hfirst. simpl in Hfirst.
  split; [exact Hfirst|]. split; [exact Hkeys|].
  unfold table, sort_keys. cbn [records]. rewrite Hfirst.
  destruct (decide (Namespace.profiler args = "fvcore")); reflexivity.
Qed.

End run_properties.

(** ** The profiler: what a run of [profile_model] leaves behind *)

Section trace_properties.
Context {float : Type} {floats : PyFloat float} {env : Profiler.Env (float := float)}.
Import Profiler.

#[local] Abbreviation World := (World (float := float)).
#[local] Abbreviation event := (event (float := float)).
#[local] Abbreviation row := (list (string * cell (float := float))).

(** X28. What a returning [profile_model] has done to the world outside, in
    order: the model is moved to the GPU when there is one; the first pass
    counts on the device the model is on then; the model is moved to the
    CPU; the second pass counts there.  A pass of the torch profiler is one
    counting run, at whose end [FlopCounterMode] prints its table; a pass of
    fvcore is two counting runs, operations first.  The inputs of both
    passes have the shapes (batch, 3, image size, image size) and (batch,
    text size).  The two tables of the torch profiler are all that is
    printed on the way; what the libraries log as warnings is no part of
    the trace. *)
Theorem profile_model_trace (model_name : string) (batch_size : Z) (profiler : string)
    (image_size text_size : Z) (no_contrastive : bool) (w w' : World) (results : row) :
  profile_model model_name batch_size profiler image_size text_size no_contrastive w
    = (w', inr results) →
  ∃ created,
    create_model model_name = inr created
    ∧ let image d := {| input_shape := [batch_size; 3; image_size; image_size];
                        input_device := d; input_dtype := param_dtype created |} in
      let text d := {| input_shape := [batch_size; text_size];
                       input_device := d; input_dtype := int64 |} in
      let pass (n : nat) d : list event :=
        if decide (profiler = "fvcore")
        then [Count FvcoreFlops n (image d) (text d);
              Count FvcoreActivations (S n) (image d) (text d)]
        else [Count TorchFlops n (image d) (text d); PrintTable n] in
      let per_pass := if decide (profiler = "fvcore") then 2%nat else 1%nat in
      trace w'
      = trace w
        ++ (if cuda_is_available then [MoveTo cuda] else [])
        ++ pass (runs w) (if cuda_is_available then cuda else on created)
        ++ [MoveTo cpu]
        ++ pass (per_pass + runs w)%nat cpu.
Proof.
  intros Hrun.
  apply profile_model_inr in Hrun
    as (created & w1 & m1 & r1 & m2 & Hprofiler & Hcreated & Hfirst & Hsecond).
  exists created. split; [exact Hcreated|]. cbv zeta.
  assert (Hdtype : param_dtype (prepared created no_contrastive) = param_dtype created)
    by (unfold prepared; by destruct cuda_is_available, no_contrastive).
  assert (Hon : on (prepared created no_contrastive)
                = if cuda_is_available then cuda else on created)
    by (unfold prepared; by destruct cuda_is_available, no_contrastive).
  apply measure_inr in Hfirst as (v1 & t1 & _ & _ & Hcases1).
  apply measure_inr in Hsecond as (v2 & t2 & _ & _ & Hcases2).
  unfold image_input, text_input, preparing in *. simpl in Hcases1, Hcases2.
  rewrite Hdtype, Hon in Hcases1.
  destruct Hprofiler as [->|[-> _]].
  - destruct Hcases1 as [([=] & _)|[(_ & total1 & _ & -> & _ & ->)|(_ & ? & _)]]; [|done].
    destruct Hcases2 as [([=] & _)|[(_ & total & _ & _ & _ & ->)|(_ & ? & _)]]; [|done].
    simpl. rewrite Hdtype. by rewrite <- !app_assoc.
  - destruct Hcases1 as [(_ & f1 & a1 & _ & _ & -> & _ & ->)|[([=] & _)|(? & _)]]; [|done].
    destruct Hcases2 as [(_ & f2 & a2 & _ & _ & _ & _ & ->)|[([=] & _)|(? & _)]]; [|done].
    simpl. rewrite Hdtype. by rewrite <- !app_assoc.
Qed.

End trace_properties.

(** ** [MaMMUT]: [forward] and the encoders *)

Section encoder_agreement.
Context {torch : Torch} {towers : Towers}.
Import MaMMUT.

(** X29. The contrastive features [forward] returns are the encoders'
    outputs: when [forward] encodes the image, [image_features] is what
    [encode_image] returns for that image on the same model, and when
    [is_training] and [use_contrastive] hold, [text_features] is what
    [encode_text] returns for the text (normalized, without image
    embeddings). *)
Theorem forward_features_are_encodings (image : option Tensor) (text : option Tokens)
    (image_latent image_embs : option Tensor) (is_training : bool) (w : World) :
  ∃ w' out,
    forward image text image_latent image_embs is_training w = (w', inr out)
    ∧ (∀ x, image = Some x → image_latent = None ∨ image_embs = None →
         ∃ v, (encode_image x true w).2 = inr v
              ∧ out !! "image_features" = Some (VTensor v))
    ∧ (∀ t, text = Some t → is_training && Self.use_contrastive (self w) = true →
         ∃ v, (encode_text t None true false w).2 = inr v
              ∧ out !! "text_features" = Some (VTensor v)).
Proof.
  rewrite forward_eq. cbv zeta.
  destruct text as [t|]; eexists _, _; (split; [reflexivity|]); split.
  - intros x -> Hmissing. eexists. split; [reflexivity|].
    rewrite !lookup_insert_ne by discriminate. rewrite lookup_insert_eq.
    by rewrite bool_decide_eq_true_2.
  - intros t' [= <-] ->. eexists. split; [reflexivity|].
    rewrite !lookup_insert_ne by discriminate. apply lookup_insert_eq.
  - intros x -> Hmissing. eexists. split; [reflexivity|].
    rewrite lookup_insert_eq. by rewrite bool_decide_eq_true_2.
  - intros t' [=].
Qed.

End encoder_agreement.

(** ** On the symbolic framework and on the machine, once more *)

Section model_witnesses.
Import MaMMUT Symbolic Binary64.

Lemma _use_contrastive_sticky_witness :
  Forall (λ p, is_Some (parameter_of (self world) p)) contrastive_head
  ∧ ∃ s1 s2,
      _use_contrastive false world = ({| self := s1; calls := [] |}, inr tt)
      ∧ _use_contrastive true {| self := s1; calls := [] |}
        = ({| self := s2; calls := [] |}, inr tt)
      ∧ Self.use_contrastive s2 = true
      ∧ (∀ p, p ∈ contrastive_head → requires_grad <$> parameter_of s2 p = Some false)
      ∧ _use_contrastive false {| self := s1; calls := [] |}
        = ({| self := s1; calls := [] |}, inr tt).
Proof.
  split; [exact contrastive_head_present|].
  exact (_use_contrastive_sticky world contrastive_head_present).
Defined.

Lemma generative_step_run :
  _forward captions ∅ (Some (Given "tokens")) false true world
  = ({| self := model;
        calls := [CallText [[49406; 320; 1929]; [49406; 7; 49407]]
                    (Some (Matmul (Given "tokens") (Given "map_viz2txt_kv")))] |},
     inr generative_out).
Proof. reflexivity. Qed.

Lemma _forward_frame_witness :
  _forward captions ∅ (Some (Given "tokens")) false true world
  = ({| self := model;
        calls := [CallText [[49406; 320; 1929]; [49406; 7; 49407]]
                    (Some (Matmul (Given "tokens") (Given "map_viz2txt_kv")))] |},
     inr generative_out)
  ∧ model = self world
  ∧ [CallText [[49406; 320; 1929]; [49406; 7; 49407]]
       (Some (Matmul (Given "tokens") (Given "map_viz2txt_kv")))]
    = calls world
      ++ [CallText (@removelast Z <$> captions) (mapped world (Some (Given "tokens")))]
  ∧ dom generative_out = list_to_set ["labels"; "logits"] ∪ dom (∅ : gmap string value)
  ∧ ∀ k, k ∉ ["labels"; "logits"] → generative_out !! k = (∅ : gmap string value) !! k.
Proof.
  split; [exact generative_step_run|].
  exact (_forward_frame captions ∅ generative_out (Some (Given "tokens")) false true world _
           generative_step_run).
Defined.

(** A half-precision decoder with QuickGELU, from the dict. *)
Lemma half_precision_decoder :
  _build_multimodal_decoder_tower (PInt 49408) (IsDict (text_config PNone)) true
    (Some bfloat16) tt
  = (tt, inr {["ln_final.weight" := weight "text.ln_final.weight"]}).
Proof. vm_compute. reflexivity. Qed.

Lemma _build_multimodal_decoder_tower_args_witness :
  _build_multimodal_decoder_tower (PInt 49408) (IsDict (text_config PNone)) true
    (Some bfloat16) tt
  = (tt, inr {["ln_final.weight" := weight "text.ln_final.weight"]})
  ∧ ∃ cfg args,
      MultimodalCfg (text_config PNone) = inr cfg
      ∧ MultimodalTransformer args
        = inr {["ln_final.weight" := weight "text.ln_final.weight"]}
      ∧ Forall (λ field, __dict__ cfg !! field.1 = Some field.2)
          [("context_length", arg_context_length args); ("width", arg_width args);
           ("heads", arg_heads args); ("layers", arg_layers args);
           ("ls_init_value", arg_ls_init_value args);
           ("cross_attn_ratio", arg_cross_attn_ratio args);
           ("does_full_decoding", arg_does_full_decoding args);
           ("output_tokens", arg_output_tokens args); ("has_mlp", arg_has_mlp args)]
      ∧ arg_output_dim args = PInt 49408
      ∧ arg_act_layer args = QuickGELU
      ∧ arg_norm_layer args = LayerNormFp32.
Proof.
  split; [exact half_precision_decoder|].
  exact (_build_multimodal_decoder_tower_args (PInt 49408) (IsDict (text_config PNone)) true
           (Some bfloat16) tt tt _ half_precision_decoder).
Defined.

Lemma built_run :
  construct 512 (IsDict (text_config PNone)) (IsDict vision_config) false None 0
    init_logit_scale None false
  = (built, inr tt).
Proof. vm_compute. reflexivity. Qed.

Lemma construct_inr_witness :
  construct 512 (IsDict (text_config PNone)) (IsDict vision_config) false None 0
    init_logit_scale None false
  = (built, inr tt)
  ∧ ∃ multimodal_cfg vision vocab_size args text visual context_length vision_width
        text_width kv,
      as_config MultimodalCfg (IsDict (text_config PNone)) = inr multimodal_cfg
      ∧ as_config CLIPVisionCfg (IsDict vision_config) = inr vision
      ∧ (__dict__ multimodal_cfg !! "hf_model_name" = None
         ∨ __dict__ multimodal_cfg !! "hf_model_name" = Some PNone)
      ∧ __dict__ multimodal_cfg !! "vocab_size" = Some vocab_size
      ∧ MultimodalTransformer args = inr text
      ∧ arg_output_dim args = vocab_size
      ∧ _build_vision_tower 512 vision false None = inr visual
      ∧ __dict__ multimodal_cfg !! "context_length" = Some context_length
      ∧ __dict__ vision !! "width" = Some vision_width
      ∧ __dict__ multimodal_cfg !! "width" = Some text_width
      ∧ randn vision_width text_width = inr kv
      ∧ _modules built = {["text" := text; "visual" := visual]}
      ∧ _parameters built
        = {["map_viz2txt_kv" := {| data := kv; requires_grad := true |};
            "logit_scale" := {| data := ones_times [] init_logit_scale;
                                requires_grad := true |}]}
      ∧ attributes built
        = {["context_length" := context_length; "logit_bias" := PNone;
            "pad_id" := PInt 0; "use_contrastive" := PBool true]}.
Proof.
  split; [exact built_run|].
  exact (construct_inr 512 (IsDict (text_config PNone)) (IsDict vision_config) false None 0
           init_logit_scale None false built built_run).
Defined.

End model_witnesses.

(** *** The profiler *)

Section profiler_witnesses.
Import Profiler Machine Binary64.

(** One pass of each profiler on the desktop, forced to the CPU, on the
    model as it stands on a GPU, four samples a batch. *)
Lemma torch_pass :
  profile_torch (env := desktop) gpu_model [77] [3; 224; 224] 4 true boot
  = ({| trace := [MoveTo cpu; Count TorchFlops 0 four_images four_texts; PrintTable 0];
        runs := 1 |},
     inr (moved cpu gpu_model, of_int 8800000000)).
Proof. vm_compute. reflexivity. Qed.

Lemma profile_torch_per_sample_witness :
  profile_torch (env := desktop) gpu_model [77] [3; 224; 224] 4 true boot
  = ({| trace := [MoveTo cpu; Count TorchFlops 0 four_images four_texts; PrintTable 0];
        runs := 1 |},
     inr (moved cpu gpu_model, of_int 8800000000))
  ∧ ∃ total,
      count (Env := desktop) TorchFlops 0 (moved cpu gpu_model) four_images four_texts
        = inr total
      ∧ of_int 8800000000 = int_truediv total 4
      ∧ 4 ≠ 0
      ∧ parameters tiny ≠ []
      ∧ moved cpu gpu_model = moved cpu gpu_model
      ∧ ([MoveTo cpu; Count TorchFlops 0 four_images four_texts; PrintTable 0]
           : list (event (float := PrimFloat.float)))
        = trace boot ++ [MoveTo cpu]
            ++ [Count TorchFlops 0 four_images four_texts; PrintTable 0]
      ∧ 1%nat = S (runs boot).
Proof.
  split; [exact torch_pass|].
  exact (profile_torch_per_sample (env := desktop) gpu_model [77] [3; 224; 224] 4 true boot
           _ _ _ torch_pass).
Defined.

Lemma fvcore_pass :
  profile_fvcore (env := desktop) gpu_model [3; 224; 224] [77] 4 false true boot
  = ({| trace := [MoveTo cpu; Count FvcoreFlops 0 four_images four_texts;
                  Count FvcoreActivations 1 four_images four_texts];
        runs := 2 |},
     inr (moved cpu gpu_model, (of_int 4400000000, of_int 14600000))).
Proof. vm_compute. reflexivity. Qed.

Lemma profile_fvcore_per_sample_witness :
  profile_fvcore (env := desktop) gpu_model [3; 224; 224] [77] 4 false true boot
  = ({| trace := [MoveTo cpu; Count FvcoreFlops 0 four_images four_texts;
                  Count FvcoreActivations 1 four_images four_texts];
        runs := 2 |},
     inr (moved cpu gpu_model, (of_int 4400000000, of_int 14600000)))
  ∧ ∃ flops activations,
      count (Env := desktop) FvcoreFlops 0 (moved cpu gpu_model) four_images four_texts
        = inr flops
      ∧ count (Env := desktop) FvcoreActivations 1 (moved cpu gpu_model) four_images four_texts
        = inr activations
      ∧ of_int 4400000000 = int_truediv flops 4
      ∧ of_int 14600000 = int_truediv activations 4
      ∧ 4 ≠ 0
      ∧ parameters tiny ≠ []
      ∧ moved cpu gpu_model = moved cpu gpu_model
      ∧ ([MoveTo cpu; Count FvcoreFlops 0 four_images four_texts;
          Count FvcoreActivations 1 four_images four_texts]
           : list (event (float := PrimFloat.float)))
        = trace boot ++ [MoveTo cpu] ++ [Count FvcoreFlops 0 four_images four_texts;
                                         Count FvcoreActivations 1 four_images four_texts]
      ∧ 2%nat = S (S (runs boot)).
Proof.
  split; [exact fvcore_pass|].
  exact (profile_fvcore_per_sample (env := desktop) gpu_model [3; 224; 224] [77] 4 true boot
           _ _ _ _ fvcore_pass).
Defined.

Lemma profilers_need_a_parameter_witness :
  parameters (root hollow) = []
  ∧ profile_torch (env := desktop) hollow [77] [3; 224; 224] 1 true boot
    = ({| trace := [MoveTo cpu]; runs := 0 |}, inl (Exn StopIteration ""))
  ∧ profile_fvcore (env := desktop) hollow [3; 224; 224] [77] 1 false true boot
    = ({| trace := [MoveTo cpu]; runs := 0 |}, inl (Exn StopIteration "")).
Proof.
  split; [reflexivity|].
  exact (profilers_need_a_parameter (env := desktop) hollow [3; 224; 224] [77] 1 false true
           boot eq_refl).
Defined.

Lemma profile_model_row_keys_witness :
  profile_model (env := laptop) "tiny" 2 "torch" 224 77 false boot
    = (torch_outcome.1, inr torch_row)
  ∧ Dict.keys torch_row
    = ["model"; "image_size"; "mparams"; "image_mparams"; "text_mparams"; "gflops"]
  ∧ Dict.get "model" torch_row = Some (CStr "tiny")
  ∧ Dict.get "image_size" torch_row = Some (CInt 224).
Proof.
  split; [exact torch_run|].
  exact (profile_model_row_keys (env := laptop) "tiny" 2 "torch" 224 77 false boot
           torch_outcome.1 torch_row torch_run).
Defined.

Lemma not_a_profiler : "thop" ∉ ["torch"; "fvcore"].
Proof. rewrite !not_elem_of_cons. repeat split; try discriminate. apply not_elem_of_nil. Qed.

Lemma profile_model_asserts_witness :
  (("thop" ∉ ["torch"; "fvcore"])
   ∧ profile_model (env := laptop) "tiny" 1 "thop" 224 77 false boot
     = (boot, inl (Exn AssertionError "Only torch and fvcore profilers are supported")))
  ∧ (fvcore (Env := laptop) = false
     ∧ profile_model (env := laptop) "tiny" 1 "fvcore" 224 77 false boot
       = (boot, inl (Exn AssertionError "Please install fvcore."))).
Proof.
  split.
  - split; [exact not_a_profiler|].
    exact (proj1 (profile_model_asserts (env := laptop) "tiny" 1 "thop" 224 77 false boot)
             not_a_profiler).
  - split; [reflexivity|].
    exact (proj2 (profile_model_asserts (env := laptop) "tiny" 1 "fvcore" 224 77 false boot)
             eq_refl eq_refl).
Defined.

Lemma profile_model_cpu_counts_witness :
  profile_model (env := laptop) "tiny" 2 "torch" 224 77 false boot
    = (torch_outcome.1, inr torch_row)
  ∧ ∃ created,
      create_model (Env := laptop) "tiny" = inr created
      ∧ let m := moved cpu (prepared (env := laptop) created false) in
        let image := {| input_shape := [2; 3; 224; 224];
                        input_device := cpu; input_dtype := param_dtype created |} in
        let text := {| input_shape := [2; 77];
                       input_device := cpu; input_dtype := int64 |} in
        training m = false
        ∧ (("torch" = "torch"
            ∧ runs torch_outcome.1 = 2%nat
            ∧ ∃ total,
                count (Env := laptop) TorchFlops 1 m image text = inr total
                ∧ Dict.get "gflops" torch_row
                  = Some (CFloat (round (fdiv (int_truediv total 2) _1e9) 2)))
           ∨ ("torch" = "fvcore"
              ∧ runs torch_outcome.1 = 4%nat
              ∧ ∃ flops activations,
                  count (Env := laptop) FvcoreFlops 2 m image text = inr flops
                  ∧ count (Env := laptop) FvcoreActivations 3 m image text = inr activations
                  ∧ Dict.get "gmacs" torch_row
                    = Some (CFloat (round (fdiv (int_truediv flops 2) _1e9) 2))
                  ∧ Dict.get "macts" torch_row
                    = Some (CFloat (round (fdiv (int_truediv activations 2) _1e6) 2)))).
Proof.
  split; [exact torch_run|].
  exact (profile_model_cpu_counts (env := laptop) "tiny" 2 "torch" 224 77 false boot
           torch_outcome.1 torch_row torch_run).
Defined.

Lemma profile_model_trace_witness :
  profile_model (env := laptop) "tiny" 2 "torch" 224 77 false boot
    = (torch_outcome.1, inr torch_row)
  ∧ ∃ created,
      create_model (Env := laptop) "tiny" = inr created
      ∧ let image d := {| input_shape := [2; 3; 224; 224];
                          input_device := d; input_dtype := param_dtype created |} in
        let text d := {| input_shape := [2; 77];
                         input_device := d; input_dtype := int64 |} in
        let pass (n : nat) d : list (event (float := PrimFloat.float)) :=
          if decide ("torch" = "fvcore")
          then [Count FvcoreFlops n (image d) (text d);
                Count FvcoreActivations (S n) (image d) (text d)]
          else [Count TorchFlops n (image d) (text d); PrintTable n] in
        let per_pass := if decide ("torch" = "fvcore") then 2%nat else 1%nat in
        trace torch_outcome.1
        = trace boot
          ++ (if cuda_is_available (Env := laptop) then [MoveTo cuda] else [])
          ++ pass (runs boot) (if cuda_is_available (Env := laptop) then cuda else on created)
          ++ [MoveTo cpu]
          ++ pass (per_pass + runs boot)%nat cpu.
Proof.
  split; [exact torch_run|].
  exact (profile_model_trace (env := laptop) "tiny" 2 "torch" 224 77 false boot
           torch_outcome.1 torch_row torch_run).
Defined.

(** The vision tower of [tiny] shares no parameter. *)
Lemma visual_tower_distinct :
  NoDup (param_id <$> walk (Build_Module
           [("class_embedding", tensor 2 [768]); ("proj", tensor 3 [768; 512])]
           [("ln_post", layer_norm 4 768)])).
Proof. apply (bool_decide_unpack _). vm_compute. exact I. Qed.

Lemma count_params_additive_witness :
  NoDup (param_id <$> walk (Build_Module
           [("class_embedding", tensor 2 [768]); ("proj", tensor 3 [768; 512])]
           [("ln_post", layer_norm 4 768)]))
  ∧ count_params (Build_Module
           [("class_embedding", tensor 2 [768]); ("proj", tensor 3 [768; 512])]
           [("ln_post", layer_norm 4 768)])
    = sum [768; 768 * 512] + sum [count_params (layer_norm 4 768)].
Proof.
  split; [exact visual_tower_distinct|].
  exact (count_params_additive
           [("class_embedding", tensor 2 [768]); ("proj", tensor 3 [768; 512])]
           [("ln_post", layer_norm 4 768)] visual_tower_distinct).
Defined.

Lemma mixed_each_run :
  profile_each (env := desktop) ["nope"; "tiny"] mixed_args [] [] boot
  = (mixed_loop.1, inr ([mixed_row], ["nope"])).
Proof. vm_compute. reflexivity. Qed.

Lemma profile_each_partition_witness :
  profile_each (env := desktop) ["nope"; "tiny"] mixed_args [] [] boot
    = (mixed_loop.1, inr ([mixed_row], ["nope"]))
  ∧ ∃ ok,
      Dict.get "model" <$> [mixed_row] = (λ m, Some (CStr m)) <$> ok
      ∧ ok `sublist_of` ["nope"; "tiny"]
      ∧ ["nope"] `sublist_of` ["nope"; "tiny"]
      ∧ ok ++ ["nope"] ≡ₚ ["nope"; "tiny"].
Proof.
  split; [exact mixed_each_run|].
  exact (profile_each_partition (env := desktop) ["nope"; "tiny"] mixed_args boot
           mixed_loop.1 [mixed_row] ["nope"] mixed_each_run).
Defined.

Lemma failed_run :
  main (env := laptop) failed_argv boot
  = (failed_loop.1, inl (Exn IndexError "list index out of range")).
Proof. vm_compute. reflexivity. Qed.

Lemma failed_argv_plain : Forall (λ a, explicit_dashes a = false) failed_argv.
Proof. repeat constructor. Qed.

Lemma parse_args_outcome_witness :
  Forall (λ a, explicit_dashes a = false) ["--profiler"; "fvcore"; "--hel"; "--batch"]
  ∧ parse_args (env := laptop) ["--profiler"; "fvcore"; "--hel"; "--batch"]
    = inl (Exn SystemExit "0")
  ∧ match parse_args (env := laptop) ["--profiler"; "fvcore"; "--hel"; "--batch"] with
    | inr args => Namespace.profiler args ∈ profiler_choices
    | inl e =>
        e = Exn SystemExit "2"
        ∨ (e = Exn SystemExit "0"
           ∧ ∃ a, a ∈ ["--profiler"; "fvcore"; "--hel"; "--batch"]
                  ∧ String.prefix "-h" a || String.prefix "--h" a = true)
    end.
Proof.
  assert (Hplain : Forall (λ a, explicit_dashes a = false)
                     ["--profiler"; "fvcore"; "--hel"; "--batch"]) by repeat constructor.
  split; [exact Hplain|]. split; [reflexivity|].
  exact (parse_args_outcome (env := laptop) ["--profiler"; "fvcore"; "--hel"; "--batch"] Hplain).
Defined.

Lemma main_inl_witness :
  Forall (λ a, explicit_dashes a = false) failed_argv
  ∧ main (env := laptop) failed_argv boot
    = (failed_loop.1, inl (Exn IndexError "list index out of range"))
  ∧ ((parse_args (env := laptop) failed_argv = inl (Exn IndexError "list index out of range")
      ∧ (Exn IndexError "list index out of range" = Exn SystemExit "2"
         ∨ Exn IndexError "list index out of range" = Exn SystemExit "0")
      ∧ failed_loop.1
        = later boot [ParserMessage (msg_of (Exn IndexError "list index out of range"))] 0)
     ∨ ∃ args,
         parse_args (env := laptop) failed_argv = inr args
         ∧ let ms := if decide (Namespace.model args = "all") then list_models (Env := laptop)
                     else split "," (Namespace.model args) in
           (profile_each (env := laptop) ms args [] [] boot = (failed_loop.1, inr ([], ms))
            ∧ Exn IndexError "list index out of range"
              = Exn IndexError "list index out of range")
           ∨ (profile_each (env := laptop) ms args [] [] boot
                = (failed_loop.1, inl (Exn IndexError "list index out of range"))
              ∧ isinstance_Exception (Exn IndexError "list index out of range") = false)
           ∨ (∃ w1 first rest errors,
                profile_each (env := laptop) ms args [] [] boot
                  = (w1, inr (first :: rest, errors))
                ∧ Namespace.results_file args ≠ ""
                ∧ to_csv (Env := laptop) (table (env := laptop) first rest)
                    (Namespace.results_file args)
                  = inl (Exn IndexError "list index out of range")
                ∧ failed_loop.1
                  = later w1 [Print banner; Print "Done.";
                              PrintFrame (table (env := laptop) first rest);
                              ToCsv (table (env := laptop) first rest)
                                (Namespace.results_file args)] 0)).
Proof.
  split; [exact failed_argv_plain|]. split; [exact failed_run|].
  exact (main_inl (env := laptop) failed_argv boot failed_loop.1
           (Exn IndexError "list index out of range") failed_argv_plain failed_run).
Defined.

Lemma main_table_columns_witness :
  main (env := desktop) mixed_argv boot = (mixed_outcome.1, inr tt)
  ∧ ∃ args w1 first rest errors,
      parse_args (env := desktop) mixed_argv = inr args
      ∧ mixed_outcome.1 = later w1 (reported args (table (env := desktop) first rest) errors) 0
      ∧ let counts := if decide (Namespace.profiler args = "fvcore")
                      then ["gmacs"; "macts"] else ["gflops"] in
        let keys := ["model"; "image_size"; "mparams"; "image_mparams"; "text_mparams"]
                    ++ counts in
        columns (table (env := desktop) first rest) = keys
        ∧ Forall (λ r, Dict.keys r = keys) (first :: rest)
        ∧ records (table (env := desktop) first rest)
          = sorted_by (Env := desktop)
              [if decide (Namespace.profiler args = "fvcore") then "gmacs" else "gflops";
               "mparams"; "model"] (first :: rest).
Proof.
  split; [exact mixed_run|].
  exact (main_table_columns (env := desktop) mixed_argv boot mixed_outcome.1 mixed_run).
Defined.

End profiler_witnesses.
